(** * Campus waste dashboard: the data pipeline of [utils/dataProcessing.js]
      and the module [data/wasteData.js]

    The development embeds the loader ([loadWasteData]), the three shape
    builders ([prepareTimeSeriesData], [prepareCompositionData],
    [prepareNetworkData]), the ranking operation ([prepareDistributionData])
    and the evaluation order of the [wasteData] module, and states the
    properties of the specification over them.

    Conventions of the embedding.
    - A JavaScript number is an IEEE 754 binary64 value: a signed zero, a
      signed infinity, [NaN], or a finite number [+/- m * 2^(k - 1074)].
      [+] and [-] are the operations of [SpecFloat] at precision 53 and
      maximal exponent 1024: the exact result, rounded to the nearest double,
      ties to even.  A sum of weights is therefore the sum the code computes,
      in the order in which the code adds; where a statement is about a sum
      without rounding, it is written with [exact], over the rationals.
    - A [Year] is [null], [NaN] or an integer (what [parseInt] can return);
      years are kept exact, also as numbers.
    - [Array], [Map] and [Set] are lists in insertion order.
    - The builtins [parseInt] and [parseFloat] are parameters of the loader;
      [Numeral.parseInt] and [Numeral.parseFloat] are their restriction to
      plain decimal numerals and are used to run the loader on examples. *)

From Stdlib Require Import QArith Lqa ZArith List Permutation Sorted Ascii String.
From Stdlib Require Import Floats.SpecFloat.
From stdpp Require Import gmap strings list.

Open Scope string_scope.
Open Scope list_scope.
Open Scope Q_scope.

(** ** JavaScript numbers *)

(** A number.  [2^-1074] is the smallest positive double, so every finite
    double other than zero is [+/- m * 2^(k - 1074)] for a positive [m] and
    a natural [k] (for several [m] and [k], when [m] is even).  The type has
    every double; it also has the numbers [m * 2^(k - 1074)] that are no
    doubles, which only [integer] below makes use of, and what is proved of
    all its numbers holds of the doubles. *)
Inductive jsnum : Type :=
  | Zero (negative : bool)
  | Infinity (negative : bool)
  | NaN
  | Finite (negative : bool) (m : positive) (k : N).

(** To and from the numbers of [SpecFloat].  No operation below returns an
    exponent under [-1074] ([plus_spec], [minus_spec]), so that [of_spec]
    loses nothing. *)
Definition to_spec (w : jsnum) : spec_float :=
  match w with
  | Zero s => S754_zero s
  | Infinity s => S754_infinity s
  | NaN => S754_nan
  | Finite s m k => S754_finite s m (Z.of_N k - 1074)%Z
  end.

Definition of_spec (x : spec_float) : jsnum :=
  match x with
  | S754_zero s => Zero s
  | S754_infinity s => Infinity s
  | S754_nan => NaN
  | S754_finite s m e => Finite s m (Z.to_N (e + 1074)%Z)
  end.

(** The literal [0]. *)
Definition zero : jsnum := Zero false.

(** [-a], [a + b] and [a - b] *)
Definition negate (a : jsnum) : jsnum := of_spec (SFopp (to_spec a)).

Definition plus (a b : jsnum) : jsnum :=
  of_spec (SFadd 53 1024 (to_spec a) (to_spec b)).

Definition minus (a b : jsnum) : jsnum :=
  of_spec (SFsub 53 1024 (to_spec a) (to_spec b)).

(** The value of a finite number, counted in units of [2^-1074]; [0] for
    the other numbers. *)
Definition units (w : jsnum) : Z :=
  match w with
  | Finite s m k => cond_Zopp s (Z.pos m * 2 ^ Z.of_N k)%Z
  | _ => 0%Z
  end.

(** The value of a finite number as a rational; [0] for [NaN] and the
    infinities. *)
Definition exact (w : jsnum) : Q := Qmake (units w) (2 ^ 1074)%positive.

(** [a < b]; a comparison with [NaN] is false, and [-0] is not below
    [+0]. *)
Definition lt (a b : jsnum) : bool :=
  match a, b with
  | NaN, _ | _, NaN => false
  | Infinity sa, Infinity sb => sa && negb sb
  | Infinity sa, _ => sa
  | _, Infinity sb => negb sb
  | _, _ => (units a <? units b)%Z
  end.

(** [a === b] on numbers *)
Definition same (a b : jsnum) : bool :=
  match a, b with
  | NaN, _ | _, NaN => false
  | Infinity sa, Infinity sb => Bool.eqb sa sb
  | Infinity _, _ | _, Infinity _ => false
  | _, _ => (units a =? units b)%Z
  end.

(** [w > 0] *)
Definition gt0 (w : jsnum) : bool := lt zero w.

(** [isNaN(w)] *)
Definition isNaN (w : jsnum) : bool :=
  match w with
  | NaN => true
  | _ => false
  end.

(** Truthiness of a number: [0], [-0] and [NaN] are falsy. *)
Definition truthy (w : jsnum) : bool :=
  match w with
  | Zero _ | NaN => false
  | _ => true
  end.

(** [w || 0] *)
Definition or_zero (w : jsnum) : jsnum := if truthy w then w else zero.

(** The number of an integer, exactly (a double when the integer is below
    [2^53] in absolute value). *)
Definition integer (z : Z) : jsnum :=
  match z with
  | Z0 => Zero false
  | Zpos p => Finite false p 1074
  | Zneg p => Finite true p 1074
  end.

(** The number a decimal literal denotes: the quotient of numerator and
    denominator, rounded once, which is the double nearest to [q]. *)
Definition Num (q : Q) : jsnum :=
  of_spec
    (SFdiv 53 1024 (to_spec (integer (Qnum q)))
       (to_spec (integer (Z.pos (Qden q))))).

(** ** Other JavaScript values *)

Inductive jsyear : Type :=
  | YNull
  | YNaN
  | YInt (z : Z).

#[global] Instance jsyear_eq_dec : EqDecision jsyear.
Proof. solve_decision. Defined.

(** Truthiness ([ToBoolean]) of the three kinds of value the loader tests. *)
Definition year_truthy (y : jsyear) : bool :=
  match y with
  | YInt z => negb (Z.eqb z 0)
  | _ => false
  end.

Definition str_truthy (s : string) : bool := negb (String.eqb s EmptyString).

(** [isNaN(w) ? 0 : w] *)
Definition nan_to_zero (w : jsnum) : jsnum := if isNaN w then zero else w.

(** [o || ''] for a property that is a string or undefined. *)
Definition or_empty (o : option string) : string := default EmptyString o.

(** [s.replace(/,/g, '')] *)
Fixpoint remove_commas (s : string) : string :=
  match s with
  | EmptyString => EmptyString
  | String c s' =>
      if Ascii.eqb c ","%char then remove_commas s' else String c (remove_commas s')
  end.

(** ** Records *)

(** The object built by the loader.  The hard-coded fallback records of
    [wasteData.js] carry only [Year], [Month], [Category], [MaterialType] and
    [Weight]; the other properties are absent there ([None]). *)
Record WasteRecord : Type := mkRecord {
  Year : jsyear;
  Month : string;
  Day : option string;
  Category : string;
  MaterialType : string;
  Weight : jsnum;
  Vendor : option string;
  DateUpdated : option string;
  Cost : option string
}.

(** A row of [d3.csv]: header name to string. *)
Abbreviation RawRow := (gmap string string).

(** The settled state of a promise. *)
Inductive outcome (A : Type) : Type :=
  | Fulfilled (a : A)
  | Rejected (e : string).
Arguments Fulfilled {A} a.
Arguments Rejected {A} e.

(** What an [async] function leaves behind: its promise and the lines it wrote
    with [console.error]. *)
Record run (A : Type) : Type := mkRun {
  settled : outcome A;
  console : list (string * string)
}.
Arguments mkRun {A} _ _.
Arguments settled {A} _.
Arguments console {A} _.

(** The filter shared by both loaders:
    [d => d.Year && d.Category && d.Weight > 0]. *)
Definition keep (d : WasteRecord) : bool :=
  year_truthy (Year d) && str_truthy (Category d) && gt0 (Weight d).

(** ** The loader of [utils/dataProcessing.js] *)

Section Loader.
Variable parseInt : string → option Z.
Variable parseFloat : string → jsnum.

(** [row.Year ? parseInt(row.Year) : null] *)
Definition year_of (o : option string) : jsyear :=
  match o with
  | Some s =>
      if str_truthy s
      then match parseInt s with Some z => YInt z | None => YNaN end
      else YNull
  | None => YNull
  end.

Definition row_weight (row : RawRow) : jsnum :=
  let weightStr :=
    match row !! "Weight (lbs)" with
    | Some s => if str_truthy s then s else "0"
    | None => "0"
    end in
  parseFloat (remove_commas weightStr).

Definition row_record (row : RawRow) : WasteRecord :=
  let weight := row_weight row in
  {| Year := year_of (row !! "Year");
     Month := or_empty (row !! "Month");
     Day := Some (or_empty (row !! "Day"));
     Category := or_empty (row !! "Category");
     MaterialType := or_empty (row !! "Material Type");
     Weight := nan_to_zero weight;
     Vendor := Some (or_empty (row !! "Vendor"));
     DateUpdated := Some (or_empty (row !! "Date Updated"));
     Cost := Some (or_empty (row !! "Cost")) |}.

(** [csv] is how [d3.csv(...)] settles.  The body of the [try] runs on a
    fulfilled load; a rejection goes to the [catch], which logs and
    returns [[]]. *)
Definition loadWasteData (csv : outcome (list RawRow)) : run (list WasteRecord) :=
  match csv with
  | Fulfilled csvData =>
      mkRun (Fulfilled (List.filter keep (List.map row_record csvData))) []
  | Rejected error =>
      mkRun (Fulfilled []) [("Error loading waste data:", error)]
  end.

(** *** The loader at the top of [data/wasteData.js] *)

Definition parseWeight (weightStr : option string) : jsnum :=
  match weightStr with
  | Some s => if str_truthy s then parseFloat (remove_commas s) else zero
  | None => zero
  end.

Definition csv_record (row : RawRow) : WasteRecord :=
  {| Year := year_of (row !! "Year");
     Month := or_empty (row !! "Month");
     Day := Some (or_empty (row !! "Day"));
     Category := or_empty (row !! "Category");
     MaterialType := or_empty (row !! "Material Type");
     Weight := parseWeight (row !! "Weight (lbs)");
     Vendor := Some (or_empty (row !! "Vendor"));
     DateUpdated := Some (or_empty (row !! "Date Updated"));
     Cost := Some (or_empty (row !! "Cost")) |}.

Definition csv_loaded (csvData : list RawRow) : list WasteRecord :=
  List.filter keep (List.map csv_record csvData).
End Loader.

(** ** Decimal numerals

    [parseInt] and [parseFloat] on strings made of leading blanks, an
    optional sign, digits and (for [parseFloat]) a decimal point followed by
    digits: the longest numeral prefix is read and the rest ignored; without
    a digit the result is [NaN].  Hexadecimal, exponents and [Infinity] are
    not covered. *)
Module Numeral.
Definition digit (c : ascii) : option Z :=
  let n := Z.of_nat (nat_of_ascii c) in
  if ((48 <=? n) && (n <=? 57))%Z then Some (n - 48)%Z else None.

Definition blank (c : ascii) : bool :=
  let n := nat_of_ascii c in
  Nat.eqb n 32 || (Nat.leb 9 n && Nat.leb n 13).

Fixpoint skip_blanks (s : string) : string :=
  match s with
  | String c s' => if blank c then skip_blanks s' else s
  | EmptyString => s
  end.

(** value read so far, number of digits read, rest of the string *)
Fixpoint read_digits (s : string) (acc : Z) (count : nat) : Z * nat * string :=
  match s with
  | String c s' =>
      match digit c with
      | Some d => read_digits s' (10 * acc + d)%Z (S count)
      | None => (acc, count, s)
      end
  | EmptyString => (acc, count, s)
  end.

Definition read_sign (s : string) : bool * string :=
  match s with
  | String c s' =>
      if Ascii.eqb c "-"%char then (true, s')
      else if Ascii.eqb c "+"%char then (false, s')
      else (false, s)
  | EmptyString => (false, s)
  end.

Definition parseInt (s : string) : option Z :=
  let '(neg, s1) := read_sign (skip_blanks s) in
  let '(v, n, _) := read_digits s1 0%Z 0%nat in
  match n with
  | O => None
  | S _ => Some (if neg then (- v)%Z else v)
  end.

Definition parseFloat (s : string) : jsnum :=
  let '(neg, s1) := read_sign (skip_blanks s) in
  let '(i, ni, r) := read_digits s1 0%Z 0%nat in
  let '(f, nf) :=
    match r with
    | String c r' =>
        if Ascii.eqb c "."%char
        then let '(f, nf, _) := read_digits r' 0%Z 0%nat in (f, nf)
        else (0%Z, 0%nat)
    | EmptyString => (0%Z, 0%nat)
    end in
  match (ni + nf)%nat with
  | O => NaN
  | S _ =>
      let scale := (10 ^ Z.of_nat nf)%Z in
      let w := Num (Qmake (i * scale + f) (Z.to_pos scale)) in
      if neg then negate w else w
  end.
End Numeral.

(** ** The parts of d3-array and of [Array.prototype] the pipeline calls *)
Module d3.
(** [d3.sum(values, valueof)]:
    [let sum = 0; for (let value of values) if (value = +valueof(value)) sum += value;]
    a value that is [NaN], [0] or [-0] is skipped. *)
Definition sum {A : Type} (values : list A) (valueof : A → jsnum) : jsnum :=
  fold_left
    (λ sum value,
       let value := valueof value in
       if truthy value then plus sum value else sum)
    values zero.

Section Group.
Context {A K : Type} `{EqDecision K}.

(** One step of [d3.group]: push onto the group of [k], or open a new
    group at the end of the map. *)
Fixpoint group_add (k : K) (v : A) (groups : list (K * list A))
  : list (K * list A) :=
  match groups with
  | [] => [(k, [v])]
  | (k', vs) :: rest =>
      if decide (k = k') then (k', vs ++ [v]) :: rest
      else (k', vs) :: group_add k v rest
  end.

(** [d3.group(values, key)]: an insertion-ordered map. *)
Definition group (values : list A) (key : A → K) : list (K * list A) :=
  fold_left (λ groups v, group_add (key v) v groups) values [].

(** [d3.rollup(values, reduce, key)] *)
Definition rollup {B : Type} (values : list A) (reduce : list A → B)
    (key : A → K) : list (K * B) :=
  List.map (λ g, (fst g, reduce (snd g))) (group values key).
End Group.
End d3.

Section ArrayOps.
Context {A : Type}.

(** [Array.from(new Set(l))]: first occurrences, in order. *)
Definition array_from_set `{EqDecision A} (l : list A) : list A :=
  fold_left (λ set x, if bool_decide (x ∈ set) then set else set ++ [x]) l [].

(** [l.findIndex(p)] *)
Fixpoint findIndex_from (p : A → bool) (l : list A) (i : Z) : Z :=
  match l with
  | [] => (-1)%Z
  | x :: l' => if p x then i else findIndex_from p l' (i + 1)%Z
  end.
Definition findIndex (p : A → bool) (l : list A) : Z := findIndex_from p l 0%Z.

(** A comparator result that does not put the first argument after the
    second: negative or zero; [NaN] counts as [0]. *)
Definition not_after (v : jsnum) : bool := negb (gt0 v).

(** [l.sort(cmp)].  The sort is stable: an element goes in front of the
    first later element it does not compare greater than.  For a comparator
    that is a consistent ordering this is the one result a stable sort can
    return. *)
Fixpoint sort_insert (cmp : A → A → jsnum) (x : A) (l : list A) : list A :=
  match l with
  | [] => [x]
  | y :: l' =>
      if not_after (cmp x y) then x :: l else y :: sort_insert cmp x l'
  end.

Definition sort (cmp : A → A → jsnum) (l : list A) : list A :=
  fold_right (sort_insert cmp) [] l.
End ArrayOps.

(** ** Arithmetic of the comparators *)

(** [ToNumber] of a year: [null] is [0]. *)
Definition year_num (y : jsyear) : jsnum :=
  match y with
  | YNull => zero
  | YNaN => NaN
  | YInt z => integer z
  end.

(** [d.Year === year] for a number [year]. *)
Definition year_is (year : Z) (y : jsyear) : bool :=
  match y with
  | YInt z => Z.eqb z year
  | _ => false
  end.

(** [year ? data.filter(d => d.Year === year) : data].  [None] is an omitted
    argument; [0] is falsy like it. *)
Definition year_filter (data : list WasteRecord) (year : option Z)
  : list WasteRecord :=
  match year with
  | Some y =>
      if Z.eqb y 0 then data else List.filter (λ d, year_is y (Year d)) data
  | None => data
  end.

Definition in_category (c : string) (d : WasteRecord) : bool :=
  String.eqb (Category d) c.

(** ** The time-series builder *)

Record YearTotal : Type := mkYearTotal {
  year : jsyear;
  landfill : jsnum;
  recycling : jsnum;
  compost : jsnum;
  total : jsnum
}.

Inductive jsval : Type :=
  | VYear (y : jsyear)
  | VNum (w : jsnum).

(** The own properties of the object literal
    [{ year, landfill, recycling, compost, total }]. *)
Definition properties (t : YearTotal) : list (string * jsval) :=
  [ ("year", VYear (year t));
    ("landfill", VNum (landfill t));
    ("recycling", VNum (recycling t));
    ("compost", VNum (compost t));
    ("total", VNum (total t)) ].

(** [t[key]]; [None] is [undefined]. *)
Definition property (t : YearTotal) (key : string) : option jsval :=
  snd <$> List.find (λ p, String.eqb (fst p) key) (properties t).

Definition year_entry (g : jsyear * list WasteRecord) : YearTotal :=
  let yearData := snd g in
  let landfill := d3.sum (List.filter (in_category "Landfill") yearData) Weight in
  let recycling := d3.sum (List.filter (in_category "Recycle") yearData) Weight in
  let compost := d3.sum (List.filter (in_category "Compost") yearData) Weight in
  {| year := fst g;
     landfill := landfill;
     recycling := recycling;
     compost := compost;
     total := plus (plus landfill recycling) compost |}.

Definition prepareTimeSeriesData (data : list WasteRecord) : list YearTotal :=
  let yearGroups := d3.group data Year in
  sort (λ a b, minus (year_num (year a)) (year_num (year b)))
    (List.map year_entry yearGroups).

(** ** The graph builder *)

Inductive node_type : Type :=
  | category
  | material.

Record GraphNode : Type := mkNode {
  node_name : string;
  type : node_type
}.

Record GraphLink : Type := mkLink {
  source : Z;
  target : Z;
  value : jsnum;
  sourceName : string;
  targetName : string
}.

Record FlowGraph : Type := mkGraph {
  nodes : list GraphNode;
  links : list GraphLink
}.

(** [d.Category === 'Recycle' ? 'Recycling' : d.Category] *)
Definition recycling_alias (c : string) : string :=
  if String.eqb c "Recycle" then "Recycling" else c.

Definition node_index (nodes : list GraphNode) (name : string) : Z :=
  findIndex (λ node, String.eqb (node_name node) name) nodes.

Definition link_of (nodes : list GraphNode) (d : WasteRecord) : GraphLink :=
  let sourceName := MaterialType d in
  let targetName := recycling_alias (Category d) in
  {| source := node_index nodes sourceName;
     target := node_index nodes targetName;
     value := Weight d;
     sourceName := sourceName;
     targetName := targetName |}.

Definition prepareNetworkData (data : list WasteRecord) (year : option Z)
  : FlowGraph :=
  let yearData := year_filter data year in
  if Nat.eqb (length yearData) 0 then {| nodes := []; links := [] |}
  else
    let categories :=
      array_from_set (List.map (λ d, recycling_alias (Category d)) yearData) in
    let materialTypes := array_from_set (List.map MaterialType yearData) in
    let nodes :=
      List.map (λ name, mkNode name category) categories
      ++ List.map (λ name, mkNode name material) materialTypes in
    {| nodes := nodes; links := List.map (link_of nodes) yearData |}.

(** ** The hierarchy builder *)

(** [{ name, value }] *)
Record Item : Type := mkItem {
  item_name : string;
  item_value : jsnum
}.

Record CategoryNode : Type := mkCategory {
  category_name : string;
  category_children : list Item
}.

Record Composition : Type := mkComposition {
  root_name : string;
  root_children : list CategoryNode
}.

Definition item_of (e : string * jsnum) : Item := mkItem (fst e) (snd e).

(** [d3.rollup(yearData.filter(d => d.Category === c),
               v => d3.sum(v, d => d.Weight), d => d.MaterialType)] *)
Definition material_totals (yearData : list WasteRecord) (c : string)
  : list (string * jsnum) :=
  d3.rollup (List.filter (in_category c) yearData)
    (λ v, d3.sum v Weight) MaterialType.

(** [(a, b) => key(b) - key(a)] *)
Definition desc {A : Type} (key : A → jsnum) (a b : A) : jsnum :=
  minus (key b) (key a).

Definition by_value_desc : Item → Item → jsnum := desc item_value.

Definition category_node (c : string * list (string * jsnum)) : CategoryNode :=
  {| category_name := fst c;
     category_children :=
       sort by_value_desc
         (List.filter (λ item, gt0 (item_value item))
            (List.map item_of (snd c))) |}.

Definition prepareCompositionData (data : list WasteRecord) (year : option Z)
  : Composition :=
  let yearData := year_filter data year in
  {| root_name := "Total Waste";
     root_children :=
       List.map category_node
         [ ("Landfill", material_totals yearData "Landfill");
           ("Recycling", material_totals yearData "Recycle");
           ("Compost", material_totals yearData "Compost") ] |}.

(** ** The distribution (top materials) operation *)

Record Distribution : Type := mkDistribution {
  name : string;
  totalWeight : jsnum;
  categories : list Item
}.

Definition distribution_of (g : string * list WasteRecord) : Distribution :=
  let items := snd g in
  let categoryData := d3.rollup items (λ v, d3.sum v Weight) Category in
  {| name := fst g;
     totalWeight := d3.sum items Weight;
     categories := List.map item_of categoryData |}.

Definition by_total_desc : Distribution → Distribution → jsnum :=
  desc totalWeight.

Definition prepareDistributionData (data : list WasteRecord) (year : option Z)
  : list Distribution :=
  let yearData := year_filter data year in
  let materialGroups := d3.group yearData MaterialType in
  firstn 12 (sort by_total_desc (List.map distribution_of materialGroups)).

(** ** The module [data/wasteData.js] *)
Module WasteDataModule.
(** [{ Year, Month, Category, MaterialType, Weight }] *)
Definition fallback (y : Z) (m c mt : string) (w : Z) : WasteRecord :=
  {| Year := YInt y; Month := m; Day := None; Category := c;
     MaterialType := mt; Weight := Num (inject_Z w); Vendor := None;
     DateUpdated := None; Cost := None |}.

Definition predefinedData : list WasteRecord :=
[
  fallback 2024 "Jan" "Landfill" "L-Landfill" 150000;
  fallback 2024 "Feb" "Landfill" "L-Landfill" 140000;
  fallback 2024 "Mar" "Landfill" "L-Landfill" 145000;
  fallback 2024 "Jan" "Recycle" "R-Mixed recycling" 70000;
  fallback 2024 "Feb" "Recycle" "R-Mixed recycling" 75000;
  fallback 2024 "Mar" "Recycle" "R-Mixed recycling" 72000;
  fallback 2024 "Jan" "Compost" "C-Organics" 50000;
  fallback 2024 "Feb" "Compost" "C-Organics" 48000;
  fallback 2024 "Mar" "Compost" "C-Organics" 52000;
  fallback 2024 "Jun" "Landfill" "Food Waste" 60000;
  fallback 2024 "Jun" "Landfill" "Paper" 32000;
  fallback 2024 "Jun" "Landfill" "Plastic" 40000;
  fallback 2024 "Jun" "Landfill" "Other" 28000;
  fallback 2024 "Jun" "Recycle" "Paper" 40000;
  fallback 2024 "Jun" "Recycle" "Plastic" 22000;
  fallback 2024 "Jun" "Recycle" "Metal" 14000;
  fallback 2024 "Jun" "Recycle" "Glass" 12000;
  fallback 2024 "Jun" "Compost" "Food Waste" 55000;
  fallback 2024 "Jun" "Compost" "Yard Waste" 28000;
  fallback 2024 "Jun" "Compost" "Other Organics" 18000;
  fallback 2024 "Jun" "Landfill" "BOH Food Waste" 35000;
  fallback 2024 "Jun" "Landfill" "FOH Food Waste" 28000;
  fallback 2024 "Jun" "Landfill" "Recyclable Beverage Containers" 8000;
  fallback 2024 "Jun" "Landfill" "Compostable Serviceware" 15000;
  fallback 2024 "Jun" "Landfill" "Misc Compost" 10000;
  fallback 2024 "Jun" "Landfill" "Misc Recycling" 12000;
  fallback 2024 "Jun" "Landfill" "Liquids" 5000;
  fallback 2024 "Jun" "Landfill" "Surplus/Expired Food" 15000;
  fallback 2024 "Jun" "Landfill" "Misc Landfill" 25000
].

(** The module's bindings: the module-level [let wasteData], whether the
    [then] callback of the CSV promise is registered and not yet run, and
    the value bound to the default export (unset before evaluation). *)
Record bindings : Type := mkBindings {
  wasteData : list WasteRecord;
  awaiting_csv : bool;
  default_export : option (list WasteRecord)
}.

Definition unevaluated : bindings :=
  {| wasteData := []; awaiting_csv := false; default_export := None |}.

(** [let wasteData = [];] *)
Definition let_wasteData (m : bindings) : bindings :=
  {| wasteData := []; awaiting_csv := awaiting_csv m;
     default_export := default_export m |}.

(** [d3.csv(...).then(csvData => { wasteData = ... })]: the callback is
    registered; it runs in a later job, once the promise is fulfilled. *)
Definition register_then (m : bindings) : bindings :=
  {| wasteData := wasteData m; awaiting_csv := true;
     default_export := default_export m |}.

(** [export default wasteData.length > 0 ? wasteData : predefinedData;]
    The expression is evaluated once and its value bound. *)
Definition export_default (m : bindings) : bindings :=
  {| wasteData := wasteData m; awaiting_csv := awaiting_csv m;
     default_export :=
       Some (if Nat.ltb 0 (length (wasteData m)) then wasteData m
             else predefinedData) |}.

(** The module body, top to bottom (declarations of functions and
    constants bind nothing that is read here). *)
Definition evaluate (m : bindings) : bindings :=
  export_default (register_then (let_wasteData m)).

Section Jobs.
Variable parseInt : string → option Z.
Variable parseFloat : string → jsnum.

(** The reaction job of the CSV promise. *)
Definition csv_settled (o : outcome (list RawRow)) (m : bindings) : bindings :=
  if awaiting_csv m then
    match o with
    | Fulfilled csvData =>
        {| wasteData := csv_loaded parseInt parseFloat csvData;
           awaiting_csv := false;
           default_export := default_export m |}
    | Rejected _ =>
        {| wasteData := wasteData m; awaiting_csv := false;
           default_export := default_export m |}
    end
  else m.

(** Jobs run to completion, one after the other. *)
Inductive job : Type :=
  | Evaluate
  | CsvSettled (o : outcome (list RawRow)).

Definition run_job (m : bindings) (j : job) : bindings :=
  match j with
  | Evaluate => evaluate m
  | CsvSettled o => csv_settled o m
  end.

Definition run_jobs (m : bindings) (js : list job) : bindings :=
  fold_left run_job js m.
End Jobs.
End WasteDataModule.

(** ** Notions of the specification *)

(** A valid record: a year that is a number other than [0] (so neither
    [null] nor [NaN]), a non-empty category, a weight above [0]. *)
Definition valid (d : WasteRecord) : Prop :=
  (∃ z, Year d = YInt z ∧ z ≠ 0%Z)
  ∧ Category d ≠ EmptyString
  ∧ gt0 (Weight d) = true.

(** [0 + w1 + ... + wn]: the numbers added from left to right, each
    addition rounding as [+] does. *)
Definition added (ws : list jsnum) : jsnum := fold_left plus ws zero.

(** The weights of the records that satisfy [p], added in the order of the
    records. *)
Definition added_where (p : WasteRecord → bool) (data : list WasteRecord)
  : jsnum :=
  added (List.map Weight (List.filter p data)).

(** The exact weight of a record (a rational), for sums without rounding. *)
Definition weight_of (d : WasteRecord) : Q := exact (Weight d).

Definition sumQ (l : list Q) : Q := fold_right Qplus 0 l.

(** Exact sum of the weights of the records that satisfy [p]. *)
Definition weight_where (p : WasteRecord → bool) (data : list WasteRecord) : Q :=
  sumQ (List.map weight_of (List.filter p data)).

Definition of_year (y : jsyear) (d : WasteRecord) : bool :=
  bool_decide (Year d = y).

(** The three category literals the builders look for. *)
Definition counted (d : WasteRecord) : bool :=
  in_category "Landfill" d || in_category "Recycle" d || in_category "Compost" d.

(** The records a year argument selects: those of that year, or all of them
    when the argument is omitted or is [0]. *)
Definition selected (year : option Z) (d : WasteRecord) : bool :=
  match year with
  | Some y => if Z.eqb y 0 then true else of_year (YInt y) d
  | None => true
  end.

(** The category a record is shown under. *)
Definition shown_as (c : string) (d : WasteRecord) : bool :=
  String.eqb (recycling_alias (Category d)) c.

Definition of_material (m : string) (d : WasteRecord) : bool :=
  String.eqb (MaterialType d) m.

Definition is_category (n : GraphNode) : bool :=
  match type n with
  | category => true
  | material => false
  end.

(** The links of a graph from material [m] to category [c], and their
    summed weight. *)
Definition pair_links (m c : string) (g : FlowGraph) : list GraphLink :=
  List.filter (λ l, String.eqb (sourceName l) m && String.eqb (targetName l) c)
    (links g).

Definition link_weight (m c : string) (g : FlowGraph) : Q :=
  sumQ (List.map (λ l, exact (value l)) (pair_links m c g)).

Definition leaves (t : Composition) : list Item :=
  List.concat (List.map category_children (root_children t)).

Definition leaf_sum (t : Composition) : Q :=
  sumQ (List.map (λ i, exact (item_value i)) (leaves t)).

(** Number of records in front of the first one of material [m]. *)
Fixpoint first_appearance (m : string) (data : list WasteRecord) : nat :=
  match data with
  | [] => O
  | d :: data' =>
      if String.eqb (MaterialType d) m then O else S (first_appearance m data')
  end.

(** Distinct values in order of first occurrence. *)
Fixpoint first_seen {K : Type} `{EqDecision K} (l : list K) : list K :=
  match l with
  | [] => []
  | x :: l' => x :: List.filter (λ y, negb (bool_decide (y = x))) (first_seen l')
  end.

(** The group of key [k]: the values of that key, in their order. *)
Definition members_of {A K : Type} `{EqDecision K} (key : A → K)
    (l : list A) (k : K) : K * list A :=
  (k, List.filter (λ v, bool_decide (key v = k)) l).

(** Ranking by a key, descending, ties in the order [earlier]. *)
Definition ranks_before {A : Type} (key : A → jsnum) (earlier : A → A → Prop)
    (a b : A) : Prop :=
  lt (key b) (key a) = true ∨ (same (key a) (key b) = true ∧ earlier a b).

(** The groups of the elements of [l] make up the records [whole]: every
    record is in exactly one group. *)
Definition partition_of {A : Type} (group : A → list WasteRecord) (l : list A)
    (whole : list WasteRecord) : Prop :=
  Permutation (List.flat_map group l) whole.

(** The records under the leaf [i] of the node built from the category
    literal [c]: the records of that category and of the leaf's material. *)
Definition leaf_records (yearData : list WasteRecord) (c : string) (i : Item)
  : list WasteRecord :=
  List.filter (λ d, in_category c d && of_material (item_name i) d) yearData.

(** No leaf's sum was rounded: the value of every leaf is the exact sum of
    the weights of its records. *)
Definition unrounded (yearData : list WasteRecord) (c : string)
    (children : list Item) : Prop :=
  ∀ i, In i children →
    exact (item_value i) == sumQ (List.map weight_of (leaf_records yearData c i)).

(** ** Order and rounding *)

(** Where a number other than [NaN] stands among the numbers: below,
    among or above the finite ones. *)
Definition level (w : jsnum) : Z :=
  match w with
  | Infinity true => (-1)%Z
  | Infinity false => 1%Z
  | _ => 0%Z
  end.

(** A number of [SpecFloat] whose exponent is not below the smallest one. *)
Definition bounded_below (x : spec_float) : Prop :=
  match x with
  | S754_finite _ _ e => (-1074 <= e)%Z
  | _ => True
  end.

(** What the rounded result of an operation with exact result [S] (in units
    of [2^-1074]) can be: [+0] when [S] is [0], and otherwise a finite number
    or an infinity of the sign of [S]. *)
Definition rounds (S : Z) (w : jsnum) : Prop :=
  match w with
  | Zero s => S = 0%Z ∧ s = false
  | Infinity s => S ≠ 0%Z ∧ s = (S <? 0)%Z
  | Finite s _ _ => S ≠ 0%Z ∧ s = (S <? 0)%Z
  | NaN => False
  end.

(** ** Sample inputs *)
Module Examples.
Definition row (y c m w : string) : RawRow :=
  <["Year" := y]> (<["Category" := c]>
    (<["Material Type" := m]> (<["Weight (lbs)" := w]> ∅))).

Definition record (y : Z) (c m : string) (w : Q) : WasteRecord :=
  {| Year := YInt y; Month := "Jan"; Day := Some "1"; Category := c;
     MaterialType := m; Weight := Num w; Vendor := Some EmptyString;
     DateUpdated := Some EmptyString; Cost := Some EmptyString |}.

(** The two rows of the specification's scenario. *)
Definition paper_rows : list RawRow :=
  [ row "2024" "Recycle" "Paper" "1,000";
    row "2024" "Recycling" "Paper" "500" ].

Definition bad_rows : list RawRow :=
  [ row "2024" "Landfill" "Paper" "abc";
    row EmptyString "Landfill" "Paper" "10";
    row "2024" EmptyString "Paper" "10";
    row "2024" "Compost" "Food" "0";
    row "2023" "Compost" "Food" "12.5" ].

Definition recycle_records : list WasteRecord :=
  [ record 2024 "Recycle" "Paper" 1000; record 2024 "Recycle" "Paper" 500;
    record 2024 "Landfill" "Paper" 7; record 2023 "Recycle" "Glass" 20 ].

Definition reuse_records : list WasteRecord :=
  [ record 2024 "Reuse" "Chair" 5 ].

Definition landfill_records : list WasteRecord :=
  [ record 2024 "Landfill" "Paper" 3; record 2024 "Landfill" "Paper" 4 ].

(** Materials A, B, C, D with totals 100, 90, 90, 10; B appears first. *)
Definition abcd : list WasteRecord :=
  [ record 2024 "Landfill" "B" 50; record 2024 "Landfill" "D" 10;
    record 2024 "Compost" "C" 90; record 2024 "Landfill" "A" 100;
    record 2024 "Recycle" "B" 40 ].

(** Two materials whose weights are the same three numbers in opposite
    order: added in record order, the totals are 0.6 for B and
    0.6000000000000001 for A. *)
Definition tenths : list WasteRecord :=
  [ record 2024 "Landfill" "B" 0.3; record 2024 "Landfill" "B" 0.2;
    record 2024 "Landfill" "B" 0.1; record 2024 "Landfill" "A" 0.1;
    record 2024 "Landfill" "A" 0.2; record 2024 "Landfill" "A" 0.3 ].

(** One record per category, with weights 0.3, 0.2 and 0.1. *)
Definition three_tenths : list WasteRecord :=
  [ record 2024 "Compost" "Food" 0.3; record 2024 "Recycle" "Paper" 0.2;
    record 2024 "Landfill" "Paper" 0.1 ].

(** Two records of one material and category, with weights 0.1 and 0.2. *)
Definition two_tenths : list WasteRecord :=
  [ record 2024 "Landfill" "Paper" 0.1; record 2024 "Landfill" "Paper" 0.2 ].

(** Thirteen materials, one record each, weights 1 to 13. *)
Definition thirteen : list WasteRecord :=
  List.map (λ n, record 2024 "Landfill" (String (ascii_of_nat (65 + n)) EmptyString)
                   (inject_Z (Z.of_nat (S n))))
    (seq 0 13).
End Examples.

(** * The rest of the pipeline: helpers and callers *)

(** ** [getAggregatedData] of [data/wasteData.js] *)

(** [{ Year, Category, MaterialType, Weight }] with the summed weight *)
Record Aggregated : Type := mkAggregated {
  agg_Year : jsyear;
  agg_Category : string;
  agg_MaterialType : string;
  agg_Weight : jsnum
}.

(** [d3.group(wasteData, d => d.Year, d => d.Category, d => d.MaterialType)]
    nests one grouping per key; the three [forEach] loops visit the nested
    maps in insertion order and push one object per innermost group. *)
Definition aggregate (wasteData : list WasteRecord) : list Aggregated :=
  List.flat_map
    (λ yearGroup,
       List.flat_map
         (λ categoryGroup,
            List.map
              (λ materialGroup,
                 {| agg_Year := fst yearGroup;
                    agg_Category := fst categoryGroup;
                    agg_MaterialType := fst materialGroup;
                    agg_Weight := d3.sum (snd materialGroup) Weight |})
              (d3.group (snd categoryGroup) MaterialType))
         (d3.group (snd yearGroup) Category))
    (d3.group wasteData Year).

(** The function reads the module-level [wasteData] at the time of the call. *)
Definition getAggregatedData (m : WasteDataModule.bindings) : list Aggregated :=
  aggregate (WasteDataModule.wasteData m).

(** ** [processData] (first part of [utils/dataProcessing.js]) *)
Module processData.
(** [a === b] on year values. *)
Definition same_year (a b : jsyear) : bool :=
  match a, b with
  | YNull, YNull => true
  | YInt x, YInt y => Z.eqb x y
  | _, _ => false
  end.

Definition yearData (data : list WasteRecord) (year : jsyear) : list WasteRecord :=
  List.filter (λ d, same_year (Year d) year) data.

(** [{ name: d.MaterialType, value: d.Weight || 0 }] *)
Definition leaf_of (d : WasteRecord) : Item :=
  mkItem (MaterialType d) (or_zero (Weight d)).

Definition getCompositionData (data : list WasteRecord) (year : jsyear)
  : Composition :=
  let yearData := yearData data year in
  {| root_name := "Total Waste";
     root_children :=
       [ {| category_name := "Landfill";
            category_children :=
              List.map leaf_of (List.filter (in_category "Landfill") yearData) |};
         {| category_name := "Recycling";
            category_children :=
              List.map leaf_of (List.filter (in_category "Recycle") yearData) |};
         {| category_name := "Compost";
            category_children :=
              List.map leaf_of (List.filter (in_category "Compost") yearData) |} ] |}.

(** [{ source, target, value }] *)
Record Link : Type := mkLink {
  link_source : Z;
  link_target : Z;
  link_value : jsnum
}.

(** The nodes are objects [{ name }]; a node is its name. *)
Record Network : Type := mkNetwork {
  network_nodes : list string;
  network_links : list Link
}.

(** [if (!nodes.find(n => n.name === name)) nodes.push({ name })] *)
Definition add_node (nodes : list string) (name : string) : list string :=
  if existsb (String.eqb name) nodes then nodes else nodes ++ [name].

Definition index_of (nodes : list string) (name : string) : Z :=
  findIndex (λ n, String.eqb n name) nodes.

Definition getNetworkData (data : list WasteRecord) (year : jsyear) : Network :=
  let yearData := yearData data year in
  let nodes := fold_left (λ nodes d, add_node nodes (MaterialType d)) yearData [] in
  let nodes := fold_left add_node ["Landfill"; "Recycling"; "Compost"] nodes in
  {| network_nodes := nodes;
     network_links :=
       List.map
         (λ d,
            let targetName := recycling_alias (Category d) in
            {| link_source := index_of nodes (MaterialType d);
               link_target := index_of nodes targetName;
               link_value := or_zero (Weight d) |})
         yearData |}.
End processData.

(** ** The data effect of [App] *)
Module App.
(** [Math.max(...values)] on year values: [-Infinity] without arguments,
    [NaN] as soon as one argument is [NaN]; [null] counts as [0]. *)
Inductive maximum : Type :=
  | NegInfinity
  | MaxNaN
  | MaxNum (z : Z).

Definition max_step (highest : maximum) (v : jsyear) : maximum :=
  match highest, v with
  | MaxNaN, _ => MaxNaN
  | _, YNaN => MaxNaN
  | NegInfinity, YNull => MaxNum 0
  | NegInfinity, YInt z => MaxNum z
  | MaxNum a, YNull => MaxNum (Z.max a 0)
  | MaxNum a, YInt z => MaxNum (Z.max a z)
  end.

Definition math_max (values : list jsyear) : maximum :=
  fold_left max_step values NegInfinity.

(** The component's state: [data], [selectedYear], [loading], [error]
    ([None] is [null]). *)
Record state : Type := mkState {
  data : option (list WasteRecord);
  selectedYear : option maximum;
  loading : bool;
  error : option string
}.

Definition initial : state :=
  {| data := None; selectedYear := None; loading := true; error := None |}.

Definition setLoading (b : bool) (s : state) : state :=
  {| data := data s; selectedYear := selectedYear s; loading := b;
     error := error s |}.
Definition setData (d : list WasteRecord) (s : state) : state :=
  {| data := Some d; selectedYear := selectedYear s; loading := loading s;
     error := error s |}.
Definition setSelectedYear (y : maximum) (s : state) : state :=
  {| data := data s; selectedYear := Some y; loading := loading s;
     error := error s |}.
Definition setError (e : string) (s : state) : state :=
  {| data := data s; selectedYear := selectedYear s; loading := loading s;
     error := Some e |}.

(** The [catch] of [fetchData] (it also writes the error to the console). *)
Definition failed (s : state) : state :=
  setLoading false (setError "Failed to load data. Please try again later." s).

(** [fetchData], from the state at its start to the state when it is done;
    [loaded] is how the promise of [loadWasteData()] settles. *)
Definition fetchData (loaded : outcome (list WasteRecord)) (s : state) : state :=
  let s := setLoading true s in
  match loaded with
  | Fulfilled wasteData =>
      if Nat.eqb (length wasteData) 0 then failed s
      else
        let s := setData wasteData s in
        let years := array_from_set (List.map Year wasteData) in
        let mostRecentYear := math_max years in
        setLoading false (setSelectedYear mostRecentYear s)
  | Rejected _ => failed s
  end.

(** What the component returns. *)
Inductive view : Type :=
  | LoadingMessage
  | ErrorMessage (e : string)
  | Dashboard (data : option (list WasteRecord)) (selectedYear : option maximum).

Definition render (s : state) : view :=
  if loading s then LoadingMessage
  else match error s with
       | Some e => ErrorMessage e
       | None => Dashboard (data s) (selectedYear s)
       end.

(** The [year] argument a builder receives for a selected year: a number is
    passed on; [null] and [NaN] are falsy like an omitted argument. *)
Definition year_argument (y : option maximum) : option Z :=
  match y with
  | Some (MaxNum z) => Some z
  | _ => None
  end.
End App.

(** ** The loader and the category filter of [MaterialStreamGraph] *)
Module MaterialStreamGraph.
Section Load.
Variable parseInt : string → option Z.
Variable parseFloat : string → jsnum.

(** [{ Year, Month, Category, MaterialType, Weight }]; the category is
    [row.Category === 'Recycle' ? 'Recycling' : (row.Category || '')]. *)
Definition row_record (row : RawRow) : WasteRecord :=
  let weight := row_weight parseFloat row in
  {| Year := year_of parseInt (row !! "Year");
     Month := or_empty (row !! "Month");
     Day := None;
     Category :=
       match row !! "Category" with
       | Some c => if String.eqb c "Recycle" then "Recycling" else or_empty (Some c)
       | None => or_empty None
       end;
     MaterialType := or_empty (row !! "Material Type");
     Weight := nan_to_zero weight;
     Vendor := None;
     DateUpdated := None;
     Cost := None |}.

(** [rawData] and [isLoading] *)
Record state : Type := mkState {
  rawData : list WasteRecord;
  isLoading : bool
}.

Definition initial : state := {| rawData := []; isLoading := true |}.

(** [loadCSVData], from the state at its start to the state when it is
    done, with the lines written by [console.error]. *)
Definition loadCSVData (csv : outcome (list RawRow)) (s : state)
  : state * list (string * string) :=
  let s := {| rawData := rawData s; isLoading := true |} in
  match csv with
  | Fulfilled csvData =>
      let s :=
        if Nat.ltb 0 (length csvData)
        then {| rawData := List.filter keep (List.map row_record csvData);
                isLoading := isLoading s |}
        else s in
      ({| rawData := rawData s; isLoading := false |}, [])
  | Rejected error =>
      ({| rawData := rawData s; isLoading := false |},
       [("Error loading CSV data:", error)])
  end.
End Load.

(** [activeCategory === 'all' ? rawData
      : rawData.filter(d => d.Category === activeCategory)] *)
Definition filteredData (rawData : list WasteRecord) (activeCategory : string)
  : list WasteRecord :=
  if String.eqb activeCategory "all" then rawData
  else List.filter (λ d, String.eqb (Category d) activeCategory) rawData.
End MaterialStreamGraph.

(** ** The nodes and links of [WasteCategoryChart] *)
Module WasteCategoryChart.
(** [{ category, weight }] *)
Record Share : Type := mkShare {
  share_category : string;
  share_weight : jsnum
}.

(** [{ id, name, type, value, categories?, radius }]; [id] and [name] are
    the same string, [categories] is present on material nodes. *)
Record Node : Type := mkNode {
  id : string;
  node_type : node_type;
  node_value : jsnum;
  node_categories : option (list Share);
  radius : Z
}.

(** [{ source, target, value }], source and target by name *)
Record Link : Type := mkLink {
  link_source : string;
  link_target : string;
  link_value : jsnum
}.

Definition shown (d : WasteRecord) : string := recycling_alias (Category d).

Definition of_material_type (name : string) (d : WasteRecord) : bool :=
  String.eqb (MaterialType d) name.

(** [d3.rollup(materialData, v => d3.sum(v, d => d.Weight),
               d => d.Category === 'Recycle' ? 'Recycling' : d.Category)] *)
Definition categoryTotals (materialData : list WasteRecord)
  : list (string * jsnum) :=
  d3.rollup materialData (λ v, d3.sum v Weight) shown.

Definition material_node (actualData : list WasteRecord) (name : string) : Node :=
  let materialData := List.filter (of_material_type name) actualData in
  {| id := name;
     node_type := material;
     node_value := d3.sum materialData Weight;
     node_categories :=
       Some (List.map (λ e, mkShare (fst e) (snd e)) (categoryTotals materialData));
     radius := 15 |}.

Definition category_node (actualData : list WasteRecord) (name : string) : Node :=
  {| id := name;
     node_type := category;
     node_value :=
       d3.sum (List.filter (λ d, String.eqb (shown d) name) actualData) Weight;
     node_categories := None;
     radius := 30 |}.

Definition categories (actualData : list WasteRecord) : list string :=
  array_from_set (List.map shown actualData).

Definition materialTypes (actualData : list WasteRecord) : list string :=
  array_from_set (List.map MaterialType actualData).

Definition nodes (actualData : list WasteRecord) : list Node :=
  List.map (category_node actualData) (categories actualData)
  ++ List.map (material_node actualData) (materialTypes actualData).

Definition links (actualData : list WasteRecord) : list Link :=
  List.flat_map
    (λ material,
       let materialData := List.filter (of_material_type material) actualData in
       List.map (λ e, mkLink material (fst e) (snd e)) (categoryTotals materialData))
    (materialTypes actualData).

(** The two kinds of value compared in the guard. *)
Inductive primitive : Type :=
  | Boolean (b : bool)
  | Number (n : nat).

(** [a === b]: values of different types are never equal. *)
Definition strict_equal (a b : primitive) : bool :=
  match a, b with
  | Boolean x, Boolean y => Bool.eqb x y
  | Number x, Number y => Nat.eqb x y
  | _, _ => false
  end.

(** [!actualData || !actualData.length === 0]; [None] is a missing array.
    [!] binds tighter than [===]. *)
Definition no_data (actualData : option (list WasteRecord)) : bool :=
  match actualData with
  | None => true
  | Some l => strict_equal (Boolean (Nat.eqb (length l) 0)) (Number 0)
  end.

(** What the effect draws: the "No data available" message, or the graph. *)
Inductive drawing : Type :=
  | NoDataMessage
  | Graph (nodes : list Node) (links : list Link).

Definition draw (actualData : option (list WasteRecord)) : drawing :=
  if no_data actualData then NoDataMessage
  else
    let l := default [] actualData in
    Graph (nodes l) (links l).
End WasteCategoryChart.

(** ** Notions used to state the properties of these parts *)

Definition triple_of (e : Aggregated) : jsyear * string * string :=
  (agg_Year e, agg_Category e, agg_MaterialType e).

Definition record_triple (d : WasteRecord) : jsyear * string * string :=
  (Year d, Category d, MaterialType d).

Definition has_triple (t : jsyear * string * string) (d : WasteRecord) : bool :=
  bool_decide (record_triple d = t).

(** Rows none of which passes the loader's filter. *)
Definition invalid_rows : list RawRow :=
  [ Examples.row "2024" "Landfill" "Paper" "abc";
    Examples.row EmptyString "Landfill" "Paper" "10";
    Examples.row "2024" "Compost" "Food" "0" ].

(** A loader record as [MaterialStreamGraph] keeps it: the category with
    "Recycle" renamed, and no [Day], [Vendor], [DateUpdated], [Cost]. *)
Definition canonical (d : WasteRecord) : WasteRecord :=
  {| Year := Year d; Month := Month d; Day := None;
     Category := recycling_alias (Category d);
     MaterialType := MaterialType d; Weight := Weight d;
     Vendor := None; DateUpdated := None; Cost := None |}.

Definition recycle_spelled (d : WasteRecord) : bool :=
  String.eqb (Category d) "Recycle" || String.eqb (Category d) "Recycling".

(** The number of a year that is a number. *)
Definition year_Z (y : jsyear) : Z :=
  match y with
  | YInt z => z
  | _ => 0%Z
  end.

Definition numeric_year (y : jsyear) : Prop := ∃ z, y = YInt z.

(** The comparator [cmp] decides the order [le] on [x] and [y]. *)
Definition cmp_decides {A : Type} (cmp : A → A → jsnum) (le : A → A → Prop)
    (x y : A) : Prop :=
  (not_after (cmp x y) = true → le x y)
  ∧ (not_after (cmp x y) = false → le y x).

(** What the children of a category node are, for the valid records [cd]
    of the category: one leaf per material of these records, carrying the
    weights of the material's records added in record order, a number above
    [0]; the leaves are in descending order of value, leaves of equal value
    in the order in which their materials first appear. *)
Definition leaves_of_category (cd : list WasteRecord) (children : list Item)
  : Prop :=
  StronglySorted
    (ranks_before item_value
       (λ a b, (first_appearance (item_name a) cd
                < first_appearance (item_name b) cd)%nat))
    children
  ∧ List.NoDup (List.map item_name children)
  ∧ (∀ i, In i children →
       gt0 (item_value i) = true
       ∧ item_value i = added_where (of_material (item_name i)) cd)
  ∧ (∀ d, In d cd → ∃ i, In i children ∧ item_name i = MaterialType d)
  ∧ (∀ i, In i children → ∃ d, In d cd ∧ MaterialType d = item_name i).

(** A record of material and category "Compost": its material is named like
    its category. *)
Definition compost_records : list WasteRecord :=
  [ Examples.record 2024 "Compost" "Compost" 8;
    Examples.record 2024 "Landfill" "Paper" 3 ].

(** ** The aggregation inside [TimeSeriesChart] (its first effect) *)
Module TimeSeriesChart.
(** [s.toLowerCase()] on the bytes of [s]: the letters A to Z are lowered,
    every other byte is kept.  (Outside ASCII, lowering yields an ASCII
    letter only for the Kelvin sign, a "k", and for the dotted capital I, an
    "i" followed by a combining dot; neither can complete "landfill",
    "recycl" or "compost", so the tests below are not affected.) *)
Definition lower (c : ascii) : ascii :=
  let n := nat_of_ascii c in
  if Nat.leb 65 n && Nat.leb n 90 then ascii_of_nat (n + 32) else c.

Fixpoint toLowerCase (s : string) : string :=
  match s with
  | EmptyString => EmptyString
  | String c s' => String (lower c) (toLowerCase s')
  end.

(** [s.includes(pattern)] *)
Fixpoint includes (s pattern : string) : bool :=
  String.prefix pattern s
  || match s with
     | EmptyString => false
     | String _ s' => includes s' pattern
     end.

Inductive bucket : Type :=
  | Landfill
  | Recycling
  | Compost
  | Unmatched.

#[global] Instance bucket_eq_dec : EqDecision bucket.
Proof. solve_decision. Defined.

(** The [if ... else if ... else if] chain on the lowered category. *)
Definition classify (category : string) : bucket :=
  let c := toLowerCase category in
  if includes c "landfill" then Landfill
  else if includes c "recycl" then Recycling
  else if includes c "compost" then Compost
  else Unmatched.

(** [{ year, landfill, recycling, compost }] *)
Record Point : Type := mkPoint {
  year : jsnum;
  landfill : jsnum;
  recycling : jsnum;
  compost : jsnum
}.

Definition add_weight (b : bucket) (weight : jsnum) (p : Point) : Point :=
  match b with
  | Landfill => mkPoint (year p) (plus (landfill p) weight) (recycling p) (compost p)
  | Recycling => mkPoint (year p) (landfill p) (plus (recycling p) weight) (compost p)
  | Compost => mkPoint (year p) (landfill p) (recycling p) (plus (compost p) weight)
  | Unmatched => p
  end.

(** [groupedByYear]: the own properties in the order they were created.
    The property key of a year is its string; different years have
    different strings, so the year is the key. *)
Abbreviation Grouped := (list (jsyear * Point)).

Definition has_key (k : jsyear) (obj : Grouped) : bool :=
  existsb (λ e, bool_decide (fst e = k)) obj.

Fixpoint update (k : jsyear) (f : Point → Point) (obj : Grouped) : Grouped :=
  match obj with
  | [] => []
  | (k', p) :: rest =>
      if decide (k' = k) then (k', f p) :: rest else (k', p) :: update k f rest
  end.

(** The body of [data.forEach].  The [Weight] of a record is a number, so
    [weight] is [d.Weight] (the [parseFloat] branch is for other objects). *)
Definition visit (obj : Grouped) (d : WasteRecord) : Grouped :=
  let year := Year d in
  let weight := Weight d in
  let obj :=
    if has_key year obj then obj
    else obj ++ [(year, mkPoint (year_num year) zero zero zero)] in
  update year (add_weight (classify (Category d)) weight) obj.

(** A key that is an array index: the string of an integer from [0] to
    [2^32 - 2]. *)
Definition is_index (k : jsyear) : bool :=
  match k with
  | YInt z => (Z.leb 0 z && Z.leb z 4294967294)%bool
  | _ => false
  end.

(** [Object.values(obj)]: the values of the index keys in ascending order,
    then the values of the other keys in creation order. *)
Definition values (obj : Grouped) : list Point :=
  List.map snd
    (sort (λ a b, minus (year_num (fst a)) (year_num (fst b)))
       (List.filter (λ e, is_index (fst e)) obj)
     ++ List.filter (λ e, negb (is_index (fst e))) obj).

Definition timeSeriesData (data : list WasteRecord) : list Point :=
  sort (λ a b, minus (year a) (year b))
    (values (fold_left visit data [])).

(** The point of year [y] over the records [l]. *)
Definition weights_of (y : jsyear) (b : bucket) (l : list WasteRecord)
  : list jsnum :=
  List.map Weight
    (List.filter
       (λ d, bool_decide (Year d = y) && bool_decide (classify (Category d) = b))
       l).

Definition point_of (l : list WasteRecord) (y : jsyear) : jsyear * Point :=
  (y, mkPoint (year_num y)
        (added (weights_of y Landfill l))
        (added (weights_of y Recycling l))
        (added (weights_of y Compost l))).

Definition in_bucket (b : bucket) (d : WasteRecord) : bool :=
  bool_decide (classify (Category d) = b).
End TimeSeriesChart.

(** Records whose year and weight are numbers. *)
Definition numeric (d : WasteRecord) : Prop :=
  numeric_year (Year d) ∧ isNaN (Weight d) = false.

(** The integer of a point's year. *)
Definition point_year (p : TimeSeriesChart.Point) : Z :=
  (units (TimeSeriesChart.year p) / 2 ^ 1074)%Z.

(** * Properties *)

(** ** Rounding in [SpecFloat] at binary64 *)

Section Rounding.
Local Open Scope Z_scope.

Lemma digits2_bounds (m : positive) :
  2 ^ (Zpos (digits2_pos m) - 1) <= Zpos m < 2 ^ Zpos (digits2_pos m).
Proof.
  induction m as [p IH|p IH|]; cbn [digits2_pos].
  - rewrite Pos2Z.inj_succ.
    replace (Z.succ (Zpos (digits2_pos p)) - 1) with (Z.succ (Zpos (digits2_pos p) - 1)) by lia.
    rewrite !Z.pow_succ_r by lia. lia.
  - rewrite Pos2Z.inj_succ.
    replace (Z.succ (Zpos (digits2_pos p)) - 1) with (Z.succ (Zpos (digits2_pos p) - 1)) by lia.
    rewrite !Z.pow_succ_r by lia. lia.
  - simpl. lia.
Qed.

Lemma shr_1_m (mrs : shr_record) :
  0 <= shr_m mrs → shr_m (shr_1 mrs) = shr_m mrs / 2.
Proof.
  destruct mrs as [m r s]. cbn [shr_m]. intros Hm.
  destruct m as [|p|p]; [reflexivity| |lia].
  destruct p as [p|p|]; cbn [shr_1 shr_m].
  - rewrite Pos2Z.inj_xI. apply Z.div_unique with 1; lia.
  - rewrite Pos2Z.inj_xO. apply Z.div_unique with 0; lia.
  - reflexivity.
Qed.

Lemma iter_shr_1_m (p : positive) (mrs : shr_record) :
  0 <= shr_m mrs →
  shr_m (SpecFloat.iter_pos shr_1 p mrs) = shr_m mrs / 2 ^ Zpos p.
Proof.
  revert mrs. induction p as [p IH|p IH|]; intros mrs Hm; cbn [SpecFloat.iter_pos].
  - assert (H1 : 0 <= shr_m (shr_1 mrs))
      by (rewrite shr_1_m by exact Hm; apply Z.div_pos; lia).
    assert (H2 : 0 <= shr_m (SpecFloat.iter_pos shr_1 p (shr_1 mrs)))
      by (rewrite IH by exact H1; apply Z.div_pos; [exact H1 | apply Z.pow_pos_nonneg; lia]).
    rewrite IH by exact H2. rewrite IH by exact H1. rewrite shr_1_m by exact Hm.
    rewrite !Z.div_div by (try apply Z.pow_pos_nonneg; lia).
    f_equal. replace (Zpos p~1) with (1 + Zpos p + Zpos p) by lia.
    rewrite !Z.pow_add_r by lia. lia.
  - assert (H2 : 0 <= shr_m (SpecFloat.iter_pos shr_1 p mrs))
      by (rewrite IH by exact Hm; apply Z.div_pos; [exact Hm | apply Z.pow_pos_nonneg; lia]).
    rewrite IH by exact H2. rewrite IH by exact Hm.
    rewrite !Z.div_div by (try apply Z.pow_pos_nonneg; lia).
    f_equal. replace (Zpos p~0) with (Zpos p + Zpos p) by lia.
    rewrite !Z.pow_add_r by lia. lia.
  - rewrite shr_1_m by exact Hm. reflexivity.
Qed.

Lemma shr_record_of_loc_m (m : Z) (l : location) :
  shr_m (shr_record_of_loc m l) = m.
Proof. destruct l as [|[]]; reflexivity. Qed.

(** Rounding to the format does not lose a non-zero mantissa whose exponent
    is at least the smallest one. *)
Lemma shr_fexp_pos (m : positive) (e : Z) (l : location) :
  -1074 <= e →
  0 < shr_m (fst (shr_fexp 53 1024 (Zpos m) e l))
  ∧ e <= snd (shr_fexp 53 1024 (Zpos m) e l).
Proof.
  intros He. unfold shr_fexp, shr, fexp, emin. cbn [Zdigits2].
  destruct (digits2_bounds m) as [Hlo Hhi].
  set (d := Zpos (digits2_pos m)) in *.
  destruct (Z.max (d + e - 53) (3 - 1024 - 53) - e) as [|n|n] eqn:En;
    cbn [fst snd]; rewrite ?shr_record_of_loc_m; try (split; lia).
  rewrite iter_shr_1_m by (rewrite shr_record_of_loc_m; lia).
  rewrite shr_record_of_loc_m. split; [|lia].
  assert (Hn : Zpos n = d - 53) by lia.
  apply Z.div_str_pos. split; [apply Z.pow_pos_nonneg; lia|].
  apply Z.le_trans with (2 ^ (d - 1)); [|exact Hlo].
  apply Z.pow_le_mono_r; lia.
Qed.

Lemma round_nearest_even_pos (m : Z) (l : location) :
  0 < m → 0 < round_nearest_even m l.
Proof.
  intros Hm. destruct l as [|[]]; cbn [round_nearest_even]; try lia.
  destruct (Z.even m); lia.
Qed.

Lemma binary_round_aux_pos (s : bool) (m : positive) (e : Z) (l : location) :
  -1074 <= e →
  binary_round_aux 53 1024 s (Zpos m) e l = S754_infinity s
  ∨ ∃ m' e', binary_round_aux 53 1024 s (Zpos m) e l = S754_finite s m' e'
             ∧ -1074 <= e'.
Proof.
  intros He. unfold binary_round_aux.
  destruct (shr_fexp_pos m e l He) as [Hm1 He1].
  destruct (shr_fexp 53 1024 (Zpos m) e l) as [mrs1 e1]. cbn [fst snd] in *.
  assert (Hr := round_nearest_even_pos (shr_m mrs1) (loc_of_shr_record mrs1) Hm1).
  destruct (round_nearest_even (shr_m mrs1) (loc_of_shr_record mrs1))
    as [|r|r]; try lia.
  destruct (shr_fexp_pos r e1 loc_Exact ltac:(lia)) as [Hm2 He2].
  destruct (shr_fexp 53 1024 (Zpos r) e1 loc_Exact) as [mrs2 e2].
  cbn [fst snd] in *.
  destruct (shr_m mrs2) as [|m2|m2]; try lia.
  destruct (e2 <=? 1024 - 53); [right|left; reflexivity].
  exists m2, e2. split; [reflexivity | lia].
Qed.

Lemma iter_xO (m d : positive) :
  Zpos (Pos.iter xO m d) = Zpos m * 2 ^ Zpos d.
Proof.
  induction d as [|d IH] using Pos.peano_ind.
  - simpl. lia.
  - rewrite Pos.iter_succ, Pos2Z.inj_xO, IH, Pos2Z.inj_succ, Z.pow_succ_r by lia.
    lia.
Qed.

(** Aligning a mantissa to a smaller exponent keeps the value. *)
Lemma shl_align_spec (m : positive) (e e' : Z) :
  snd (shl_align m e e') = Z.min e e'
  ∧ Zpos (fst (shl_align m e e')) = Zpos m * 2 ^ (e - Z.min e e').
Proof.
  unfold shl_align. destruct (e' - e) as [|d|d] eqn:Ed; cbn [fst snd].
  - replace (Z.min e e') with e by lia. rewrite Z.sub_diag. simpl. lia.
  - replace (Z.min e e') with e by lia. rewrite Z.sub_diag. simpl. lia.
  - replace (Z.min e e') with e' by lia. split; [reflexivity|].
    rewrite iter_xO. f_equal. f_equal. lia.
Qed.

Lemma binary_round_pos (s : bool) (m : positive) (e : Z) :
  -1074 <= e →
  binary_round 53 1024 s m e = S754_infinity s
  ∨ ∃ m' e', binary_round 53 1024 s m e = S754_finite s m' e' ∧ -1074 <= e'.
Proof.
  intros He. unfold binary_round.
  destruct (shl_align_spec m e (fexp 53 1024 (Zpos (digits2_pos m) + e)))
    as [He' _].
  destruct (shl_align m e (fexp 53 1024 (Zpos (digits2_pos m) + e))) as [mz ez].
  cbn [snd] in He'. apply binary_round_aux_pos.
  unfold fexp, emin in He'. lia.
Qed.

(** The sign of a normalised sum is the sign of the exact sum. *)
Lemma binary_normalize_sign (M e : Z) :
  -1074 <= e →
  match binary_normalize 53 1024 M e false with
  | S754_zero s => M = 0 ∧ s = false
  | S754_infinity s => M ≠ 0 ∧ s = (M <? 0)
  | S754_finite s _ e' => M ≠ 0 ∧ s = (M <? 0) ∧ -1074 <= e'
  | S754_nan => False
  end.
Proof.
  intros He. destruct M as [|p|p]; cbn [binary_normalize].
  - split; reflexivity.
  - destruct (binary_round_pos false p e He) as [->|(m' & e' & -> & He')].
    + split; [discriminate | reflexivity].
    + split; [discriminate|]. split; [reflexivity | exact He'].
  - destruct (binary_round_pos true p e He) as [->|(m' & e' & -> & He')].
    + split; [discriminate | reflexivity].
    + split; [discriminate|]. split; [reflexivity | exact He'].
Qed.

Lemma of_to_spec (w : jsnum) : of_spec (to_spec w) = w.
Proof.
  destruct w as [s|s| |s m k]; cbn; try reflexivity.
  f_equal. lia.
Qed.

Lemma to_of_spec (x : spec_float) :
  bounded_below x → to_spec (of_spec x) = x.
Proof.
  destruct x as [s|s| |s m e]; cbn; try reflexivity.
  intros He. f_equal. lia.
Qed.

Lemma to_spec_bounded (w : jsnum) : bounded_below (to_spec w).
Proof. destruct w; cbn; try exact I. lia. Qed.

(** The mantissas of two finite numbers, aligned to the smaller exponent,
    are the numbers' values in units of that exponent. *)
Lemma aligned_units (s : bool) (m : positive) (k k' : N) :
  cond_Zopp s
    (Zpos (fst (shl_align m (Z.of_N k - 1074)
                  (Z.min (Z.of_N k - 1074) (Z.of_N k' - 1074)))))
  * 2 ^ Z.of_N (N.min k k')
  = units (Finite s m k).
Proof.
  destruct (shl_align_spec m (Z.of_N k - 1074)
              (Z.min (Z.of_N k - 1074) (Z.of_N k' - 1074))) as [_ ->].
  cbn [units].
  replace (Z.of_N k - 1074
           - Z.min (Z.of_N k - 1074) (Z.min (Z.of_N k - 1074) (Z.of_N k' - 1074)))
    with (Z.of_N k - Z.of_N (N.min k k')) by lia.
  replace (2 ^ Z.of_N k)
    with (2 ^ (Z.of_N k - Z.of_N (N.min k k')) * 2 ^ Z.of_N (N.min k k'))
    by (rewrite <- Z.pow_add_r by lia; f_equal; lia).
  destruct s; cbn [cond_Zopp]; lia.
Qed.

Lemma aligned_units_r (s : bool) (m : positive) (k k' : N) :
  cond_Zopp s
    (Zpos (fst (shl_align m (Z.of_N k - 1074)
                  (Z.min (Z.of_N k' - 1074) (Z.of_N k - 1074)))))
  * 2 ^ Z.of_N (N.min k' k)
  = units (Finite s m k).
Proof. rewrite Z.min_comm, N.min_comm. apply aligned_units. Qed.

Lemma normalized_rounds (M : Z) (k : N) (S : Z) :
  M * 2 ^ Z.of_N k = S →
  rounds S (of_spec (binary_normalize 53 1024 M (Z.of_N k - 1074) false)).
Proof.
  intros HS.
  assert (Hp : 0 < 2 ^ Z.of_N k) by (apply Z.pow_pos_nonneg; lia).
  assert (H0 : M = 0 ↔ S = 0) by nia.
  assert (Hneg : (M <? 0) = (S <? 0)).
  { destruct (Z.ltb_spec M 0), (Z.ltb_spec S 0); try reflexivity; nia. }
  assert (H := binary_normalize_sign M (Z.of_N k - 1074) ltac:(lia)).
  destruct (binary_normalize 53 1024 M (Z.of_N k - 1074) false)
    as [s|s| |s m e]; cbn [of_spec rounds].
  - destruct H as [HM ->]. split; [apply H0, HM | reflexivity].
  - destruct H as [HM ->]. split; [rewrite <- H0; exact HM | exact Hneg].
  - exact H.
  - destruct H as (HM & -> & _). split; [rewrite <- H0; exact HM | exact Hneg].
Qed.

Lemma plus_finite (sx : bool) (mx : positive) (kx : N)
    (sy : bool) (my : positive) (ky : N) :
  rounds (units (Finite sx mx kx) + units (Finite sy my ky))
    (plus (Finite sx mx kx) (Finite sy my ky)).
Proof.
  unfold plus. cbn [to_spec SFadd].
  replace (Z.min (Z.of_N kx - 1074) (Z.of_N ky - 1074))
    with (Z.of_N (N.min kx ky) - 1074) at 3 by lia.
  apply normalized_rounds.
  rewrite Z.mul_add_distr_r, aligned_units, aligned_units_r. reflexivity.
Qed.

Lemma minus_finite (sx : bool) (mx : positive) (kx : N)
    (sy : bool) (my : positive) (ky : N) :
  rounds (units (Finite sx mx kx) - units (Finite sy my ky))
    (minus (Finite sx mx kx) (Finite sy my ky)).
Proof.
  unfold minus. cbn [to_spec SFsub].
  replace (Z.min (Z.of_N kx - 1074) (Z.of_N ky - 1074))
    with (Z.of_N (N.min kx ky) - 1074) at 3 by lia.
  apply normalized_rounds.
  rewrite Z.mul_sub_distr_r, aligned_units, aligned_units_r. reflexivity.
Qed.

Lemma units_finite (s : bool) (m : positive) (k : N) :
  units (Finite s m k) ≠ 0 ∧ (units (Finite s m k) <? 0) = s.
Proof.
  cbn [units].
  assert (Hp : 0 < 2 ^ Z.of_N k) by (apply Z.pow_pos_nonneg; lia).
  assert (Hm : 0 < Zpos m * 2 ^ Z.of_N k) by lia.
  destruct s; cbn [cond_Zopp]; split; try lia.
Qed.

Lemma gt0_units (w : jsnum) :
  gt0 w = match w with
          | Infinity s => negb s
          | Finite s _ _ => negb s
          | _ => false
          end.
Proof.
  destruct w as [s|s| |s m k]; try reflexivity.
  unfold gt0, lt, zero. destruct (units_finite s m k) as [H0 Hs].
  change (units (Zero false)) with 0.
  destruct (Z.ltb_spec 0 (units (Finite s m k))) as [H|H];
    destruct s; try reflexivity;
    apply Z.ltb_lt in Hs || apply Z.ltb_ge in Hs; lia.
Qed.


Lemma positive_not_negative (u : Z) : u ≠ 0 → (0 <? u) = negb (u <? 0).
Proof.
  intros H. destruct (Z.ltb_spec 0 u), (Z.ltb_spec u 0); try reflexivity; lia.
Qed.

Lemma rounds_gt0 (S : Z) (w : jsnum) : rounds S w → gt0 w = (0 <? S).
Proof.
  rewrite gt0_units. destruct w as [s|s| |s m k]; cbn [rounds].
  - intros [-> _]. reflexivity.
  - intros [HS ->]. symmetry. apply positive_not_negative, HS.
  - intros [].
  - intros [HS ->]. symmetry. apply positive_not_negative, HS.
Qed.

(** The sign of a difference: [b - a > 0] exactly when [a < b]. *)
Lemma minus_gt0 (a b : jsnum) : gt0 (minus b a) = lt a b.
Proof.
  destruct a as [sa|sa| |sa ma ka], b as [sb|sb| |sb mb kb];
    try reflexivity;
    try (destruct sa, sb; reflexivity).
  - rewrite gt0_units. cbn [minus to_spec SFsub of_spec lt].
    destruct (units_finite sb mb kb) as [H0 Hs].
    change (units (Zero sa)) with 0.
    rewrite positive_not_negative, Hs by exact H0. reflexivity.
  - rewrite gt0_units. cbn [minus to_spec SFsub of_spec lt].
    destruct (units_finite sa ma ka) as [H0 Hs].
    change (units (Zero sb)) with 0. rewrite Hs. apply negb_involutive.
  - rewrite (rounds_gt0 _ _ (minus_finite sb mb kb sa ma ka)).
    cbn [lt].
    destruct (Z.ltb_spec 0 (units (Finite sb mb kb) - units (Finite sa ma ka))),
      (Z.ltb_spec (units (Finite sa ma ka)) (units (Finite sb mb kb)));
      try reflexivity; lia.
Qed.

(** A sum of two numbers above [0] is above [0]. *)
Lemma plus_gt0 (a b : jsnum) :
  gt0 a = true → gt0 b = true → gt0 (plus a b) = true.
Proof.
  rewrite !(gt0_units a), !(gt0_units b).
  destruct a as [sa|sa| |sa ma ka], b as [sb|sb| |sb mb kb];
    try discriminate;
    intros Ha Hb; apply negb_true_iff in Ha, Hb; subst; try reflexivity.
  rewrite (rounds_gt0 _ _ (plus_finite false ma ka false mb kb)).
  destruct (units_finite false ma ka) as [Ha0 Ha], (units_finite false mb kb) as [Hb0 Hb].
  apply Z.ltb_ge in Ha, Hb. apply Z.ltb_lt. lia.
Qed.

(** A sum is [-0] only when both numbers are. *)
Lemma plus_negative_zero (a b : jsnum) :
  plus a b = Zero true → a = Zero true ∧ b = Zero true.
Proof.
  destruct a as [sa|sa| |sa ma ka], b as [sb|sb| |sb mb kb];
    try discriminate;
    try (destruct sa, sb; (discriminate || (split; reflexivity))).
  intros H. assert (Hr := plus_finite sa ma ka sb mb kb).
  rewrite H in Hr. destruct Hr as [_ Hr]. discriminate Hr.
Qed.

(** Adding a zero to a number other than [-0] leaves it as it is. *)
Lemma plus_zero_r (a : jsnum) (s : bool) : a ≠ Zero true → plus a (Zero s) = a.
Proof.
  destruct a as [sa|sa| |sa ma ka]; intros Ha; try reflexivity.
  - destruct sa; [congruence|]. destruct s; reflexivity.
  - unfold plus. cbn [to_spec SFadd of_spec]. f_equal. lia.
Qed.

(** Adding a number other than a zero to [0] gives that number. *)
Lemma plus_zero_l (w : jsnum) :
  (∀ s, w ≠ Zero s) → plus zero w = w.
Proof.
  destruct w as [s|s| |s m k]; intros Hw; try reflexivity.
  - exfalso. exact (Hw s eq_refl).
  - unfold plus. cbn [zero to_spec SFadd of_spec]. f_equal. lia.
Qed.

(** The operations are those of [SpecFloat] at binary64: converting back
    loses nothing. *)
Lemma binary_normalize_bounded (M e : Z) :
  -1074 <= e → bounded_below (binary_normalize 53 1024 M e false).
Proof.
  intros He. assert (H := binary_normalize_sign M e He).
  destruct (binary_normalize 53 1024 M e false); cbn [bounded_below];
    try exact I.
  apply H.
Qed.

Lemma plus_spec (a b : jsnum) :
  to_spec (plus a b) = SFadd 53 1024 (to_spec a) (to_spec b).
Proof.
  unfold plus. apply to_of_spec.
  destruct a as [sa|sa| |sa ma ka], b as [sb|sb| |sb mb kb];
    try (cbn; (exact I || lia)); try (destruct sa, sb; exact I).
  cbn [to_spec SFadd]. apply binary_normalize_bounded. lia.
Qed.

Lemma minus_spec (a b : jsnum) :
  to_spec (minus a b) = SFsub 53 1024 (to_spec a) (to_spec b).
Proof.
  unfold minus. apply to_of_spec.
  destruct a as [sa|sa| |sa ma ka], b as [sb|sb| |sb mb kb];
    try (cbn; (exact I || lia)); try (destruct sa, sb; exact I).
  cbn [to_spec SFsub]. apply binary_normalize_bounded. lia.
Qed.

Lemma integer_units (z : Z) : units (integer z) = z * 2 ^ 1074.
Proof. destruct z; cbn [integer units cond_Zopp Z.of_N]; lia. Qed.

Lemma integer_lt (a b : Z) : lt (integer a) (integer b) = (a <? b).
Proof.
  assert (Hp : 0 < 2 ^ 1074) by (apply Z.pow_pos_nonneg; lia).
  assert (H : lt (integer a) (integer b) = (units (integer a) <? units (integer b)))
    by (destruct a, b; reflexivity).
  rewrite H, !integer_units.
  destruct (Z.ltb_spec (a * 2 ^ 1074) (b * 2 ^ 1074)), (Z.ltb_spec a b);
    try reflexivity; nia.
Qed.
End Rounding.

(** ** Order of the numbers *)

Section Order.
Local Open Scope Z_scope.

Lemma lt_spec (a b : jsnum) :
  isNaN a = false → isNaN b = false →
  lt a b = true
  ↔ level a < level b ∨ (level a = level b ∧ units a < units b).
Proof.
  destruct a as [sa|[]| |sa ma ka], b as [sb|[]| |sb mb kb];
    try discriminate; intros _ _;
    cbn [lt level andb negb]; rewrite ?Z.ltb_lt;
    change (units (Infinity true)) with 0;
    change (units (Infinity false)) with 0;
    (split; [intros H; try discriminate H; lia
            |intros [H|[H1 H2]]; try reflexivity; lia]).
Qed.

Lemma same_spec (a b : jsnum) :
  isNaN a = false → isNaN b = false →
  same a b = true ↔ level a = level b ∧ units a = units b.
Proof.
  destruct a as [sa|[]| |sa ma ka], b as [sb|[]| |sb mb kb];
    try discriminate; intros _ _;
    cbn [same level Bool.eqb]; rewrite ?Z.eqb_eq;
    (split; [intros H; try discriminate H; try lia; split; reflexivity
            |intros [H1 H2]; try reflexivity; lia]).
Qed.

Lemma lt_false (a b : jsnum) :
  isNaN a = false → isNaN b = false →
  lt a b = false
  ↔ level b < level a ∨ (level a = level b ∧ units b <= units a).
Proof.
  intros Ha Hb. rewrite <- not_true_iff_false, (lt_spec a b Ha Hb).
  assert (H : -1 <= level a <= 1 ∧ -1 <= level b <= 1)
    by (destruct a as [|[]| |], b as [|[]| |]; cbn; lia).
  lia.
Qed.

(** Of two numbers neither of which is below the other, each is the
    other. *)
Lemma not_lt_same (a b : jsnum) :
  isNaN a = false → isNaN b = false →
  lt a b = false → lt b a = false → same a b = true.
Proof.
  intros Ha Hb H1 H2. apply (lt_false a b Ha Hb) in H1.
  apply (lt_false b a Hb Ha) in H2. apply (same_spec a b Ha Hb). lia.
Qed.

(** A number at most [b], where [b] is at most [a], is below [a] or is
    [a]. *)
Lemma at_most_trans (a b c : jsnum) :
  isNaN a = false → isNaN b = false → isNaN c = false →
  lt a b = false →
  lt c b = true ∨ same b c = true →
  lt c a = true ∨ same a c = true.
Proof.
  intros Ha Hb Hc H1 H2. apply (lt_false a b Ha Hb) in H1.
  rewrite (lt_spec c b Hc Hb), (same_spec b c Hb Hc) in H2.
  rewrite (lt_spec c a Hc Ha), (same_spec a c Ha Hc). lia.
Qed.

Lemma gt0_number (w : jsnum) : gt0 w = true → isNaN w = false.
Proof. destruct w; try reflexivity. discriminate. Qed.

Lemma gt0_truthy (w : jsnum) : gt0 w = true → truthy w = true.
Proof. destruct w as [s|s| |s m k]; try reflexivity; discriminate. Qed.

Lemma gt0_or_zero (w : jsnum) : gt0 w = true → or_zero w = w.
Proof. intros H. unfold or_zero. rewrite (gt0_truthy w H). reflexivity. Qed.

Lemma exact_or_zero (w : jsnum) : exact (or_zero w) = exact w.
Proof. destruct w; reflexivity. Qed.
End Order.

(** ** Validity of what the loader keeps *)

Lemma year_truthy_spec (y : jsyear) :
  year_truthy y = true ↔ ∃ z, y = YInt z ∧ z ≠ 0%Z.
Proof.
  destruct y as [| |z]; simpl.
  - split; [discriminate | intros (z & H & _); discriminate].
  - split; [discriminate | intros (z & H & _); discriminate].
  - rewrite negb_true_iff, Z.eqb_neq. split.
    + intros H. exists z. auto.
    + intros (z' & [= <-] & H). exact H.
Qed.

Lemma str_truthy_spec (s : string) : str_truthy s = true ↔ s ≠ EmptyString.
Proof.
  unfold str_truthy. rewrite negb_true_iff. apply String.eqb_neq.
Qed.

Lemma keep_valid (d : WasteRecord) : keep d = true ↔ valid d.
Proof.
  unfold keep, valid.
  rewrite !andb_true_iff, year_truthy_spec, str_truthy_spec.
  tauto.
Qed.

Lemma filter_keep_valid (l : list WasteRecord) : Forall valid (List.filter keep l).
Proof.
  apply List.Forall_forall. intros d Hd.
  apply List.filter_In in Hd. apply keep_valid, Hd.
Qed.

(** ** Sums *)

Lemma sumQ_app (l1 l2 : list Q) : sumQ (l1 ++ l2) == sumQ l1 + sumQ l2.
Proof.
  induction l1 as [|x l1 IH]; simpl; [lra|]. rewrite IH. lra.
Qed.

Lemma sumQ_perm (l1 l2 : list Q) : Permutation l1 l2 → sumQ l1 == sumQ l2.
Proof.
  induction 1 as [|x l1 l2 _ IH|x y l|l1 l2 l3 _ IH1 _ IH2]; simpl.
  - reflexivity.
  - rewrite IH. reflexivity.
  - lra.
  - rewrite IH1. exact IH2.
Qed.

(** ** Sums as the code adds *)

Lemma fold_plus_gt0 (ws : list jsnum) (acc : jsnum) :
  gt0 acc = true → Forall (λ w, gt0 w = true) ws →
  gt0 (fold_left plus ws acc) = true.
Proof.
  revert acc. induction ws as [|w ws IH]; intros acc Hacc Hws; simpl.
  - exact Hacc.
  - apply List.Forall_cons_iff in Hws as [Hw Hws].
    apply IH; [apply plus_gt0; assumption | exact Hws].
Qed.

(** Numbers above [0], at least one, add up to a number above [0]. *)
Lemma added_gt0 (ws : list jsnum) :
  ws ≠ [] → Forall (λ w, gt0 w = true) ws → gt0 (added ws) = true.
Proof.
  destruct ws as [|w ws]; [congruence|]. intros _ Hws.
  apply List.Forall_cons_iff in Hws as [Hw Hws].
  unfold added. simpl. apply fold_plus_gt0; [|exact Hws].
  rewrite plus_zero_l; [exact Hw|].
  intros s ->. discriminate Hw.
Qed.

Section D3Sum.
Context {A : Type} (valueof : A → jsnum).

Lemma d3_sum_from (values : list A) (acc : jsnum) :
  acc ≠ Zero true →
  Forall (λ v, isNaN (valueof v) = false) values →
  fold_left
    (λ sum value,
       let value := valueof value in
       if truthy value then plus sum value else sum) values acc
  = fold_left plus (List.map valueof values) acc.
Proof.
  revert acc. induction values as [|v values IH]; intros acc Hacc Hn; simpl;
    [reflexivity|].
  apply List.Forall_cons_iff in Hn as [Hv Hn].
  destruct (truthy (valueof v)) eqn:E.
  - apply IH; [|exact Hn]. intros H.
    apply plus_negative_zero in H as [H _]. exact (Hacc H).
  - destruct (valueof v) as [s|s| |s m k]; try discriminate.
    rewrite plus_zero_r by exact Hacc. apply IH; assumption.
Qed.

(** On numbers, [d3.sum] is the sum from left to right: skipping a zero
    changes nothing. *)
Lemma d3_sum_added (values : list A) :
  Forall (λ v, isNaN (valueof v) = false) values →
  d3.sum values valueof = added (List.map valueof values).
Proof. intros H. apply d3_sum_from; [discriminate | exact H]. Qed.
End D3Sum.

Lemma valid_numbers (l : list WasteRecord) :
  Forall valid l → Forall (λ d, isNaN (Weight d) = false) l.
Proof.
  apply List.Forall_impl. intros d (_ & _ & H). apply gt0_number, H.
Qed.

Lemma valid_positive (l : list WasteRecord) :
  Forall valid l → Forall (λ w, gt0 w = true) (List.map Weight l).
Proof.
  intros H. apply List.Forall_map. revert H.
  apply List.Forall_impl. intros d (_ & _ & H). exact H.
Qed.

Lemma sum_weight (l : list WasteRecord) :
  Forall valid l → d3.sum l Weight = added (List.map Weight l).
Proof. intros H. apply d3_sum_added, valid_numbers, H. Qed.

Lemma sum_weight_nil : d3.sum (@nil WasteRecord) Weight = zero.
Proof. reflexivity. Qed.

Lemma filter_filter_and {A : Type} (p q : A → bool) (l : list A) :
  List.filter p (List.filter q l) = List.filter (λ x, q x && p x) l.
Proof.
  induction l as [|x l IH]; simpl; [reflexivity|].
  destruct (q x); simpl; [destruct (p x)|]; rewrite ?IH; reflexivity.
Qed.

Lemma weight_where_ext (p q : WasteRecord → bool) (data : list WasteRecord) :
  (∀ d, In d data → p d = q d) → weight_where p data = weight_where q data.
Proof.
  intros H. unfold weight_where. f_equal. f_equal.
  apply List.filter_ext_in. exact H.
Qed.

(** Weights of two disjoint selections add up. *)
Lemma weight_where_or (p q : WasteRecord → bool) (data : list WasteRecord) :
  (∀ d, In d data → p d = true → q d = false) →
  weight_where (λ d, p d || q d) data == weight_where p data + weight_where q data.
Proof.
  unfold weight_where. induction data as [|d data IH]; intros H; simpl; [lra|].
  assert (IH' := IH (λ d' Hd', H d' (or_intror Hd'))).
  destruct (p d) eqn:Hp; simpl.
  - rewrite (H d (or_introl eq_refl) Hp). simpl. lra.
  - destruct (q d); simpl; lra.
Qed.

(** ** Distinct values in order of first occurrence *)

Section FirstSeen.
Context {K : Type} `{EqDecision K}.

Lemma first_seen_In (l : list K) (k : K) : In k (first_seen l) ↔ In k l.
Proof.
  induction l as [|x l IH]; simpl; [tauto|].
  rewrite List.filter_In, IH, negb_true_iff, bool_decide_eq_false.
  destruct (decide (k = x)) as [->|Hne]; [tauto|].
  split; [intros [->|[H _]]; auto | intros [->|H]; auto].
Qed.

Lemma first_seen_NoDup (l : list K) : List.NoDup (first_seen l).
Proof.
  induction l as [|x l IH]; simpl; [constructor|].
  apply List.NoDup_cons.
  - intros H. apply List.filter_In in H as [_ H].
    rewrite negb_true_iff, bool_decide_eq_false in H. congruence.
  - apply List.NoDup_filter, IH.
Qed.

Lemma filter_out_absent (l : list K) (k : K) :
  ¬ In k l → List.filter (λ y, negb (bool_decide (y = k))) l = l.
Proof.
  induction l as [|x l IH]; simpl; intros H; [reflexivity|].
  destruct (decide (x = k)) as [->|Hne]; [tauto|].
  rewrite bool_decide_eq_false_2 by exact Hne. simpl. f_equal. tauto.
Qed.

Lemma first_seen_snoc (l : list K) (k : K) :
  first_seen (l ++ [k]) =
    if bool_decide (k ∈ l) then first_seen l else first_seen l ++ [k].
Proof.
  induction l as [|x l IH]; simpl.
  - reflexivity.
  - rewrite IH. destruct (decide (x = k)) as [->|Hne].
    + rewrite (bool_decide_eq_true_2 (k ∈ k :: l))
        by (rewrite list_elem_of_In; simpl; auto).
      destruct (bool_decide (k ∈ l)); [reflexivity|].
      rewrite List.filter_app. simpl.
      rewrite bool_decide_eq_true_2 by reflexivity. simpl.
      rewrite List.app_nil_r. reflexivity.
    + destruct (bool_decide (k ∈ l)) eqn:E.
      * apply bool_decide_eq_true_1 in E.
        rewrite bool_decide_eq_true_2
          by (rewrite list_elem_of_In in *; simpl; auto).
        reflexivity.
      * apply bool_decide_eq_false_1 in E.
        rewrite bool_decide_eq_false_2
          by (rewrite list_elem_of_In in *; simpl; intros [?|?]; congruence).
        rewrite List.filter_app. simpl.
        rewrite (bool_decide_eq_false_2 (k = x)) by congruence.
        reflexivity.
Qed.
End FirstSeen.

(** ** [d3.group] *)

Section GroupFacts.
Context {A K : Type} `{EqDecision K} (key : A → K).

Local Abbreviation members := (members_of key).

Lemma group_snoc (l : list A) (x : A) :
  d3.group (l ++ [x]) key = d3.group_add (key x) x (d3.group l key).
Proof. unfold d3.group. rewrite List.fold_left_app. reflexivity. Qed.

Lemma members_snoc_other (l : list A) (x : A) (k : K) :
  k ≠ key x → members (l ++ [x]) k = members l k.
Proof.
  intros Hne. unfold members_of. rewrite List.filter_app. simpl.
  rewrite bool_decide_eq_false_2 by congruence.
  rewrite List.app_nil_r. reflexivity.
Qed.

Lemma members_snoc_same (l : list A) (x : A) :
  members (l ++ [x]) (key x) = (key x, snd (members l (key x)) ++ [x]).
Proof.
  unfold members_of. rewrite List.filter_app. simpl.
  rewrite bool_decide_eq_true_2 by reflexivity. reflexivity.
Qed.

Lemma members_none (l : list A) (k : K) :
  ¬ In k (List.map key l) →
  List.filter (λ v, bool_decide (key v = k)) l = [].
Proof.
  induction l as [|y l IH]; simpl; intros H; [reflexivity|].
  rewrite bool_decide_eq_false_2 by tauto. apply IH. tauto.
Qed.

Lemma group_add_present (l : list A) (x : A) (ks : list K) :
  List.NoDup ks → In (key x) ks →
  d3.group_add (key x) x (List.map (members l) ks) =
    List.map (members (l ++ [x])) ks.
Proof.
  induction ks as [|k ks IH]; intros Hnd Hin; [destruct Hin|].
  apply List.NoDup_cons_iff in Hnd as [Hk Hnd]. simpl.
  destruct (decide (key x = k)) as [<-|Hne].
  - rewrite members_snoc_same. simpl. f_equal.
    apply List.map_ext_in. intros k Hk'. symmetry.
    apply members_snoc_other. intros ->. exact (Hk Hk').
  - rewrite members_snoc_other by congruence. unfold members_of at 1. f_equal.
    apply IH; [exact Hnd|]. destruct Hin as [->|Hin]; [congruence|exact Hin].
Qed.

Lemma group_add_absent (l : list A) (x : A) (ks : list K) :
  ¬ In (key x) ks →
  d3.group_add (key x) x (List.map (members l) ks) =
    List.map (members l) ks ++ [(key x, [x])].
Proof.
  induction ks as [|k ks IH]; intros Hin; simpl; [reflexivity|].
  destruct (decide (key x = k)) as [<-|Hne]; [simpl in Hin; tauto|].
  f_equal. apply IH. simpl in Hin. tauto.
Qed.

(** The groups are the distinct keys in order of first occurrence, each
    with the values of that key in their order. *)
Lemma group_spec (l : list A) :
  d3.group l key = List.map (members l) (first_seen (List.map key l)).
Proof.
  induction l as [|x l IH] using List.rev_ind; [reflexivity|].
  rewrite group_snoc, IH, List.map_app. simpl. rewrite first_seen_snoc.
  destruct (bool_decide (key x ∈ List.map key l)) eqn:E.
  - apply bool_decide_eq_true_1 in E. rewrite list_elem_of_In in E.
    apply group_add_present; [apply first_seen_NoDup|].
    apply first_seen_In, E.
  - apply bool_decide_eq_false_1 in E. rewrite list_elem_of_In in E.
    rewrite group_add_absent by (rewrite first_seen_In; exact E).
    rewrite List.map_app. simpl. f_equal.
    + apply List.map_ext_in. intros k Hk. symmetry.
      apply members_snoc_other. intros ->. apply E, first_seen_In, Hk.
    + rewrite members_snoc_same. f_equal. f_equal. unfold members_of. simpl.
      assert (Hnone := members_none l (key x) E).
      rewrite Hnone. reflexivity.
Qed.
End GroupFacts.

(** ** [sort] *)

Section SortFacts.
Context {A : Type} (cmp : A → A → jsnum).

Lemma sort_insert_perm (x : A) (l : list A) :
  Permutation (sort_insert cmp x l) (x :: l).
Proof.
  induction l as [|y l IH]; simpl; [reflexivity|].
  destruct (not_after (cmp x y)); [reflexivity|].
  rewrite IH. apply perm_swap.
Qed.

Lemma sort_perm (l : list A) : Permutation (sort cmp l) l.
Proof.
  induction l as [|x l IH]; simpl; [reflexivity|].
  rewrite sort_insert_perm. constructor. exact IH.
Qed.

Lemma sort_In (l : list A) (x : A) : In x (sort cmp l) ↔ In x l.
Proof.
  split; apply Permutation_in; [|symmetry]; apply sort_perm.
Qed.
End SortFacts.

(** Sorting descending by a key that is a number: the result is in
    descending order of the key, and elements of equal key keep the order
    they had. *)
Section SortByKeyDesc.
Context {A : Type} (key : A → jsnum) (earlier : A → A → Prop).

Local Abbreviation ranks_before := (ranks_before key earlier).
Local Abbreviation number := (λ x : A, isNaN (key x) = false).

Lemma not_after_desc (x y : A) :
  not_after (desc key x y) = negb (lt (key x) (key y)).
Proof. unfold not_after, desc. rewrite minus_gt0. reflexivity. Qed.

Lemma sort_insert_ranked (x : A) (l : list A) :
  number x → Forall number l →
  StronglySorted ranks_before l →
  Forall (earlier x) l →
  StronglySorted ranks_before (sort_insert (desc key) x l).
Proof.
  intros Hx. induction l as [|y l IH]; intros Hn Hs He; simpl.
  - constructor; constructor.
  - apply StronglySorted_inv in Hs as [Hs Hy].
    apply List.Forall_cons_iff in He as [Hxy He].
    apply List.Forall_cons_iff in Hn as [Hny Hn].
    rewrite not_after_desc. destruct (lt (key x) (key y)) eqn:E; simpl.
    + constructor; [apply IH; assumption|].
      eapply Permutation_Forall; [symmetry; apply sort_insert_perm|].
      constructor; [left; exact E | exact Hy].
    + constructor; [constructor; assumption|].
      assert (Hfirst : lt (key y) (key x) = true ∨ same (key x) (key y) = true).
      { destruct (lt (key y) (key x)) eqn:E2; [left; reflexivity|].
        right. apply not_lt_same; assumption. }
      constructor.
      * destruct Hfirst as [H|H]; [left; exact H | right; split; assumption].
      * rewrite List.Forall_forall in *. intros z Hz.
        assert (Hyz : lt (key z) (key y) = true ∨ same (key y) (key z) = true)
          by (destruct (Hy z Hz) as [H|[H _]]; auto).
        destruct (at_most_trans (key x) (key y) (key z) Hx Hny (Hn z Hz) E Hyz)
          as [H|H]; [left; exact H | right; split; [exact H | exact (He z Hz)]].
Qed.

Lemma sort_ranked (l : list A) :
  Forall number l →
  StronglySorted earlier l → StronglySorted ranks_before (sort (desc key) l).
Proof.
  induction l as [|x l IH]; intros Hn Hs; simpl; [constructor|].
  apply StronglySorted_inv in Hs as [Hs Hx].
  apply List.Forall_cons_iff in Hn as [Hnx Hn].
  apply sort_insert_ranked; [exact Hnx | | apply IH; assumption |].
  - eapply Permutation_Forall; [symmetry; apply sort_perm | exact Hn].
  - eapply Permutation_Forall; [symmetry; apply sort_perm | exact Hx].
Qed.
End SortByKeyDesc.

(** ** [Array.from(new Set(l))] *)

Section SetFacts.
Context {A : Type} `{EqDecision A}.

Lemma array_from_set_from (l set : list A) :
  List.NoDup set →
  let r := fold_left
             (λ set x, if bool_decide (x ∈ set) then set else set ++ [x])
             l set in
  List.NoDup r ∧ ∀ x, In x r ↔ In x set ∨ In x l.
Proof.
  revert set. induction l as [|y l IH]; intros set Hnd; simpl.
  - split; [exact Hnd | intros x; tauto].
  - destruct (bool_decide (y ∈ set)) eqn:E.
    + apply bool_decide_eq_true_1 in E. rewrite list_elem_of_In in E.
      destruct (IH set Hnd) as [H1 H2]. split; [exact H1|].
      intros x. rewrite H2. split; [tauto|].
      intros [H|[<-|H]]; auto.
    + apply bool_decide_eq_false_1 in E. rewrite list_elem_of_In in E.
      assert (Hnd' : List.NoDup (set ++ [y])).
      { apply List.NoDup_app; [exact Hnd | repeat constructor; intros [] |].
        intros x Hx [<-|[]]. exact (E Hx). }
      destruct (IH _ Hnd') as [H1 H2]. split; [exact H1|].
      intros x. rewrite H2, List.in_app_iff. simpl. tauto.
Qed.

Lemma array_from_set_NoDup (l : list A) : List.NoDup (array_from_set l).
Proof. apply (array_from_set_from l []). constructor. Qed.

Lemma array_from_set_In (l : list A) (x : A) :
  In x (array_from_set l) ↔ In x l.
Proof.
  destruct (array_from_set_from l [] (List.NoDup_nil A)) as [_ H].
  unfold array_from_set. rewrite H. simpl. tauto.
Qed.
End SetFacts.

(** ** The entries of the time series *)

Lemma filter_none {A : Type} (p : A → bool) (l : list A) :
  (∀ x, In x l → p x = false) → List.filter p l = [].
Proof.
  induction l as [|x l IH]; simpl; intros H; [reflexivity|].
  rewrite (H x (or_introl eq_refl)). apply IH. auto.
Qed.

Lemma timeseries_entries (data : list WasteRecord) (t : YearTotal) :
  In t (prepareTimeSeriesData data) ↔
  ∃ y, In y (List.map Year data) ∧ t = year_entry (members_of Year data y).
Proof.
  unfold prepareTimeSeriesData. rewrite sort_In, group_spec, List.map_map.
  rewrite List.in_map_iff. split.
  - intros (y & <- & Hy). exists y. rewrite first_seen_In in Hy. auto.
  - intros (y & Hy & ->). exists y. rewrite first_seen_In. auto.
Qed.

Lemma timeseries_year_present (data : list WasteRecord) (d : WasteRecord) :
  In d data →
  In (year_entry (members_of Year data (Year d))) (prepareTimeSeriesData data).
Proof.
  intros Hd. apply timeseries_entries. exists (Year d).
  split; [apply List.in_map, Hd | reflexivity].
Qed.

(** The sum the builder takes for category literal [c] in the group of year
    [y] adds the weights of the records of that year and category, in the
    order of the records. *)
Lemma year_category_sum (data : list WasteRecord) (y : jsyear) (c : string) :
  Forall valid data →
  d3.sum (List.filter (in_category c) (snd (members_of Year data y))) Weight
  = added_where (λ d, of_year y d && in_category c d) data.
Proof.
  intros Hv. unfold members_of, added_where. cbn [snd].
  rewrite filter_filter_and. apply sum_weight.
  apply List.Forall_forall. intros d Hd. apply List.filter_In in Hd as [Hd _].
  rewrite List.Forall_forall in Hv. apply Hv, Hd.
Qed.

Lemma year_category_none (data : list WasteRecord) (y : jsyear) (c : string) :
  (∀ d, In d data → Year d = y → Category d ≠ c) →
  d3.sum (List.filter (in_category c) (snd (members_of Year data y))) Weight
  = zero.
Proof.
  intros H. unfold members_of. simpl. rewrite filter_filter_and.
  rewrite filter_none; [reflexivity|].
  intros d Hd. apply andb_false_iff.
  destruct (decide (Year d = y)) as [Hy|Hy].
  - right. apply String.eqb_neq. exact (H d Hd Hy).
  - left. apply bool_decide_eq_false_2. exact Hy.
Qed.

Lemma in_category_disjoint (c1 c2 : string) (d : WasteRecord) :
  c1 ≠ c2 → in_category c1 d = true → in_category c2 d = false.
Proof.
  unfold in_category. intros Hne H1. apply String.eqb_eq in H1.
  apply String.eqb_neq. congruence.
Qed.

(** The three sums of a year add up to the weight of its counted records. *)
Lemma counted_split (p : WasteRecord → bool) (data : list WasteRecord) :
  weight_where (λ d, p d && in_category "Landfill" d) data
  + weight_where (λ d, p d && in_category "Recycle" d) data
  + weight_where (λ d, p d && in_category "Compost" d) data
  == weight_where (λ d, p d && counted d) data.
Proof.
  rewrite (weight_where_ext (λ d, p d && counted d)
             (λ d, (p d && in_category "Landfill" d
                    || p d && in_category "Recycle" d)
                   || p d && in_category "Compost" d)).
  - rewrite weight_where_or.
    + rewrite weight_where_or; [reflexivity|].
      intros d _ H. apply andb_true_iff in H as [_ H].
      rewrite (in_category_disjoint "Landfill" "Recycle" d) by (congruence || exact H).
      apply andb_false_r.
    + intros d _ H. apply orb_true_iff in H.
      destruct H as [H|H]; apply andb_true_iff in H as [_ H].
      * rewrite (in_category_disjoint "Landfill" "Compost" d) by (congruence || exact H).
        apply andb_false_r.
      * rewrite (in_category_disjoint "Recycle" "Compost" d) by (congruence || exact H).
        apply andb_false_r.
  - intros d _. unfold counted. destruct (p d); simpl; reflexivity.
Qed.

(** ** The year argument *)

Lemma year_is_of_year (y : Z) (d : WasteRecord) :
  year_is y (Year d) = of_year (YInt y) d.
Proof.
  unfold of_year, year_is. destruct (Year d) as [| |z]; symmetry.
  - apply bool_decide_eq_false_2. discriminate.
  - apply bool_decide_eq_false_2. discriminate.
  - destruct (Z.eqb_spec z y) as [->|Hne].
    + apply bool_decide_eq_true_2. reflexivity.
    + apply bool_decide_eq_false_2. congruence.
Qed.

Lemma filter_all {A : Type} (l : list A) : List.filter (λ _, true) l = l.
Proof. induction l as [|x l IH]; simpl; congruence. Qed.

Lemma year_filter_selected (data : list WasteRecord) (year : option Z) :
  year_filter data year = List.filter (selected year) data.
Proof.
  unfold year_filter, selected.
  destruct year as [y|]; [destruct (Z.eqb y 0)|].
  - symmetry. apply filter_all.
  - apply List.filter_ext. intros d. apply year_is_of_year.
  - symmetry. apply filter_all.
Qed.

Lemma filter_valid (p : WasteRecord → bool) (data : list WasteRecord) :
  Forall valid data → Forall valid (List.filter p data).
Proof.
  rewrite !List.Forall_forall. intros H d Hd.
  apply List.filter_In in Hd. apply H, Hd.
Qed.

Lemma weight_where_filter (p q : WasteRecord → bool) (data : list WasteRecord) :
  weight_where q (List.filter p data) = weight_where (λ d, p d && q d) data.
Proof. unfold weight_where. rewrite filter_filter_and. reflexivity. Qed.

(** ** Groups partition the values *)

Section GroupSums.
Context {A K : Type} `{EqDecision K} (key : A → K).

Lemma group_add_flat (k : K) (v : A) (groups : list (K * list A)) :
  Permutation (List.concat (List.map snd (d3.group_add k v groups)))
    (v :: List.concat (List.map snd groups)).
Proof.
  induction groups as [|[k' vs] groups IH]; simpl; [reflexivity|].
  destruct (decide (k = k')); simpl.
  - rewrite <- List.app_assoc. simpl.
    rewrite <- Permutation_middle. reflexivity.
  - rewrite IH. rewrite <- Permutation_middle. reflexivity.
Qed.

Lemma group_flat (l : list A) :
  Permutation (List.concat (List.map snd (d3.group l key))) l.
Proof.
  induction l as [|x l IH] using List.rev_ind; [reflexivity|].
  rewrite group_snoc, group_add_flat, IH.
  apply Permutation_cons_append.
Qed.

Lemma sumQ_concat (f : A → Q) (ls : list (list A)) :
  sumQ (List.map (λ vs, sumQ (List.map f vs)) ls)
  == sumQ (List.map f (List.concat ls)).
Proof.
  induction ls as [|vs ls IH]; simpl; [reflexivity|].
  rewrite List.map_app, sumQ_app, IH. reflexivity.
Qed.

(** Summing group by group is summing the whole. *)
Lemma group_sums (f : A → Q) (l : list A) :
  sumQ (List.map (λ g, sumQ (List.map f (snd g))) (d3.group l key))
  == sumQ (List.map f l).
Proof.
  rewrite <- (List.map_map snd (λ vs, sumQ (List.map f vs))).
  rewrite sumQ_concat. apply sumQ_perm, Permutation_map, group_flat.
Qed.

Lemma group_member (l : list A) (g : K * list A) (v : A) :
  In g (d3.group l key) → In v (snd g) → In v l.
Proof.
  intros Hg Hv. apply (Permutation_in _ (group_flat l)).
  apply List.in_concat. exists (snd g). split; [|exact Hv].
  apply List.in_map, Hg.
Qed.
End GroupSums.

Lemma sumQ_ext {A : Type} (f g : A → Q) (l : list A) :
  (∀ x, In x l → f x == g x) →
  sumQ (List.map f l) == sumQ (List.map g l).
Proof.
  induction l as [|x l IH]; intros H; simpl; [reflexivity|].
  rewrite (H x (or_introl eq_refl)), IH by (intros; apply H; right; assumption).
  reflexivity.
Qed.

(** Validity of a concrete list is checked by running the loader's filter. *)
Lemma keep_all_valid (data : list WasteRecord) :
  forallb keep data = true → Forall valid data.
Proof.
  rewrite List.forallb_forall, List.Forall_forall.
  intros H d Hd. apply keep_valid, H, Hd.
Qed.

(** ** [findIndex] *)

Lemma findIndex_from_found {A : Type} (p : A → bool) (l1 l2 : list A) (i : Z) :
  (∃ x, In x l1 ∧ p x = true) →
  ∃ n y, findIndex_from p (l1 ++ l2) i = (i + Z.of_nat n)%Z
         ∧ nth_error l1 n = Some y ∧ p y = true.
Proof.
  revert i. induction l1 as [|x l1 IH]; intros i (x0 & Hin & Hp).
  - destruct Hin.
  - simpl. destruct (p x) eqn:E.
    + exists O, x. split; [lia|]. split; [reflexivity | exact E].
    + destruct Hin as [->|Hin]; [congruence|].
      destruct (IH (i + 1)%Z (ex_intro _ x0 (conj Hin Hp))) as (n & y & H1 & H2 & H3).
      exists (S n), y. split; [lia|]. split; [exact H2 | exact H3].
Qed.

Lemma findIndex_found {A : Type} (p : A → bool) (l1 l2 : list A) :
  (∃ x, In x l1 ∧ p x = true) →
  ∃ y, nth_error l1 (Z.to_nat (findIndex p (l1 ++ l2))) = Some y
       ∧ p y = true ∧ (0 <= findIndex p (l1 ++ l2))%Z.
Proof.
  intros H. destruct (findIndex_from_found p l1 l2 0 H) as (n & y & H1 & H2 & H3).
  unfold findIndex. rewrite H1. exists y.
  rewrite Z.add_0_l, Nat2Z.id. split; [exact H2|]. split; [exact H3 | lia].
Qed.

(** ** The links of the graph *)

Lemma filter_map_comm {A B : Type} (f : A → B) (p : B → bool) (l : list A) :
  List.filter p (List.map f l) = List.map f (List.filter (λ x, p (f x)) l).
Proof.
  induction l as [|x l IH]; simpl; [reflexivity|].
  destruct (p (f x)); simpl; rewrite IH; reflexivity.
Qed.

Lemma network_links (data : list WasteRecord) (year : option Z) :
  links (prepareNetworkData data year)
  = List.map (link_of (nodes (prepareNetworkData data year)))
      (List.filter (selected year) data).
Proof.
  unfold prepareNetworkData. rewrite year_filter_selected.
  destruct (List.filter (selected year) data); reflexivity.
Qed.

Lemma network_nodes (data : list WasteRecord) (year : option Z) :
  let yearData := List.filter (selected year) data in
  nodes (prepareNetworkData data year)
  = List.map (λ name, mkNode name category)
      (array_from_set (List.map (λ d, recycling_alias (Category d)) yearData))
    ++ List.map (λ name, mkNode name material)
         (array_from_set (List.map MaterialType yearData)).
Proof.
  unfold prepareNetworkData. rewrite year_filter_selected.
  destruct (List.filter (selected year) data); reflexivity.
Qed.

Lemma name_eqb_node (n : GraphNode) (s : string) :
  String.eqb (node_name n) s = true ↔ node_name n = s.
Proof. apply String.eqb_eq. Qed.

(** The target index of a record's link is the position of the category node
    of its shown category; the source index is the position of a node that
    carries the material's name. *)
Lemma link_endpoints (data : list WasteRecord) (year : option Z) (d : WasteRecord) :
  In d (List.filter (selected year) data) →
  let g := prepareNetworkData data year in
  let l := link_of (nodes g) d in
  (nth_error (nodes g) (Z.to_nat (target l)) = Some (mkNode (targetName l) category)
   ∧ (0 <= target l)%Z)
  ∧ ∃ n, nth_error (nodes g) (Z.to_nat (source l)) = Some n
         ∧ node_name n = sourceName l ∧ (0 <= source l)%Z.
Proof.
  intros Hd g l. subst g l. rewrite network_nodes. cbn zeta.
  set (yearData := List.filter (selected year) data) in *.
  set (cats := array_from_set (List.map (λ d, recycling_alias (Category d)) yearData)).
  set (mats := array_from_set (List.map MaterialType yearData)).
  unfold link_of, node_index. cbn [source target sourceName targetName].
  split.
  - destruct (findIndex_found
                (λ node, String.eqb (node_name node) (recycling_alias (Category d)))
                (List.map (λ name, mkNode name category) cats)
                (List.map (λ name, mkNode name material) mats))
      as (y & Hy & Hp & Hpos).
    { exists (mkNode (recycling_alias (Category d)) category). split.
      - apply (List.in_map (λ name, mkNode name category)).
        apply array_from_set_In.
        apply (List.in_map (λ d, recycling_alias (Category d))), Hd.
      - apply String.eqb_refl. }
    split; [|exact Hpos].
    rewrite List.nth_error_app1 by (apply List.nth_error_Some; congruence).
    rewrite Hy. f_equal.
    apply List.nth_error_In, List.in_map_iff in Hy as (c & <- & _).
    apply String.eqb_eq in Hp. simpl in Hp. rewrite Hp. reflexivity.
  - destruct (findIndex_found
                (λ node, String.eqb (node_name node) (MaterialType d))
                (List.map (λ name, mkNode name category) cats
                 ++ List.map (λ name, mkNode name material) mats) [])
      as (y & Hy & Hp & Hpos).
    { exists (mkNode (MaterialType d) material). split.
      - apply List.in_or_app. right.
        apply (List.in_map (λ name, mkNode name material)).
        apply array_from_set_In. apply (List.in_map MaterialType), Hd.
      - apply String.eqb_refl. }
    rewrite List.app_nil_r in Hy, Hpos. exists y.
    split; [exact Hy|]. split; [apply String.eqb_eq, Hp | exact Hpos].
Qed.

(** ** Order of first appearance *)

Lemma StronglySorted_filter {A : Type} (R : A → A → Prop) (p : A → bool)
    (l : list A) :
  StronglySorted R l → StronglySorted R (List.filter p l).
Proof.
  induction 1 as [|x l _ IH Hx]; simpl; [constructor|].
  destruct (p x); [|exact IH].
  constructor; [exact IH|].
  rewrite List.Forall_forall in *. intros y Hy.
  apply List.filter_In in Hy. apply Hx, Hy.
Qed.

Lemma StronglySorted_impl_in {A : Type} (R R' : A → A → Prop) (l : list A) :
  (∀ a b, In a l → In b l → R a b → R' a b) →
  StronglySorted R l → StronglySorted R' l.
Proof.
  intros H Hs. induction Hs as [|x l _ IH Hx]; [constructor|].
  constructor.
  - apply IH. intros a b Ha Hb. apply H; right; assumption.
  - rewrite List.Forall_forall in *. intros y Hy.
    apply H; [left; reflexivity | right; exact Hy | apply Hx, Hy].
Qed.

Lemma StronglySorted_map {A B : Type} (R : B → B → Prop) (f : A → B)
    (l : list A) :
  StronglySorted (λ a b, R (f a) (f b)) l → StronglySorted R (List.map f l).
Proof.
  induction 1 as [|x l _ IH Hx]; simpl; constructor; [exact IH|].
  rewrite List.Forall_forall in *. intros y Hy.
  apply List.in_map_iff in Hy as (a & <- & Ha). apply Hx, Ha.
Qed.

Lemma first_seen_sorted (data : list WasteRecord) :
  StronglySorted
    (λ m1 m2, (first_appearance m1 data < first_appearance m2 data)%nat)
    (first_seen (List.map MaterialType data)).
Proof.
  induction data as [|d data IH]; simpl; [constructor|].
  constructor.
  - apply (StronglySorted_impl_in
             (λ m1 m2, (first_appearance m1 data < first_appearance m2 data)%nat)).
    + intros a b Ha Hb Hlt.
      apply List.filter_In in Ha as [_ Ha], Hb as [_ Hb].
      rewrite negb_true_iff, bool_decide_eq_false in Ha, Hb.
      rewrite (proj2 (String.eqb_neq (MaterialType d) a)) by congruence.
      rewrite (proj2 (String.eqb_neq (MaterialType d) b)) by congruence.
      lia.
    + apply StronglySorted_filter, IH.
  - apply List.Forall_forall. intros m Hm.
    apply List.filter_In in Hm as [_ Hm].
    rewrite negb_true_iff, bool_decide_eq_false in Hm.
    rewrite String.eqb_refl.
    rewrite (proj2 (String.eqb_neq (MaterialType d) m)) by congruence.
    lia.
Qed.

(** ** The entries of the distribution *)

Lemma distribution_groups (yearData : list WasteRecord) :
  List.map distribution_of (d3.group yearData MaterialType)
  = List.map (λ m, distribution_of (members_of MaterialType yearData m))
      (first_seen (List.map MaterialType yearData)).
Proof. rewrite group_spec, List.map_map. reflexivity. Qed.

Lemma eqb_bool_decide (a b : string) : String.eqb a b = bool_decide (a = b).
Proof.
  destruct (String.eqb_spec a b) as [H|H]; symmetry;
    [apply bool_decide_eq_true_2 | apply bool_decide_eq_false_2]; exact H.
Qed.

Lemma members_of_material (l : list WasteRecord) (m : string) :
  snd (members_of MaterialType l m) = List.filter (of_material m) l.
Proof.
  unfold members_of. cbn [snd]. apply List.filter_ext.
  intros d. symmetry. apply eqb_bool_decide.
Qed.


(** ** The spelling of the recycling category *)

Lemma alias_not_recycle (c : string) : recycling_alias c ≠ "Recycle".
Proof.
  unfold recycling_alias. destruct (String.eqb_spec c "Recycle"); [discriminate|assumption].
Qed.

Lemma recycle_shown_as_recycling (d : WasteRecord) :
  Category d ≠ "Recycling" →
  in_category "Recycle" d = shown_as "Recycling" d.
Proof.
  intros H. unfold in_category, shown_as, recycling_alias.
  destruct (String.eqb_spec (Category d) "Recycle") as [_|_]; [reflexivity|].
  symmetry. apply String.eqb_neq, H.
Qed.

Lemma category_nodes (data : list WasteRecord) (year : option Z) :
  List.map node_name (List.filter is_category (nodes (prepareNetworkData data year)))
  = array_from_set
      (List.map (λ d, recycling_alias (Category d))
         (List.filter (selected year) data)).
Proof.
  rewrite network_nodes. cbn zeta. rewrite List.filter_app.
  rewrite !filter_map_comm. cbn [is_category type].
  rewrite filter_all, (filter_none (λ _, false)) by reflexivity.
  cbn [List.map]. rewrite List.app_nil_r, List.map_map. apply List.map_id.
Qed.

Lemma NoDup_map_filter {A B : Type} (f : A → B) (p : A → bool) (l : list A) :
  List.NoDup (List.map f l) → List.NoDup (List.map f (List.filter p l)).
Proof.
  induction l as [|x l IH]; simpl; intros H; [constructor|].
  apply List.NoDup_cons_iff in H as [Hx H].
  destruct (p x); simpl; [|apply IH, H].
  apply List.NoDup_cons; [|apply IH, H].
  intros Hin. apply Hx. apply List.in_map_iff in Hin as (y & Hy & Hin).
  apply List.in_map_iff. exists y. split; [exact Hy|].
  apply List.filter_In in Hin. apply Hin.
Qed.

(** A category node has one leaf per material. *)
Lemma category_node_names (yearData : list WasteRecord) (label c : string) :
  List.NoDup
    (List.map item_name
       (category_children (category_node (label, material_totals yearData c)))).
Proof.
  unfold category_node. cbn [category_children snd].
  apply (Permutation_NoDup
           (l := List.map item_name
                   (List.filter (λ item, gt0 (item_value item))
                      (List.map item_of (material_totals yearData c))))).
  - symmetry. apply Permutation_map, sort_perm.
  - apply NoDup_map_filter. unfold material_totals, d3.rollup.
    rewrite group_spec, !List.map_map. cbn [item_of item_name members_of fst].
    rewrite List.map_id. apply first_seen_NoDup.
Qed.

(** ** Groups make up the whole *)

Lemma sumQ_flat_map {A B : Type} (g : B → Q) (f : A → list B) (l : list A) :
  sumQ (List.map g (List.flat_map f l))
  == sumQ (List.map (λ x, sumQ (List.map g (f x))) l).
Proof.
  induction l as [|x l IH]; simpl; [reflexivity|].
  rewrite List.map_app, sumQ_app, IH. reflexivity.
Qed.

Lemma filter_true {A : Type} (p : A → bool) (l : list A) :
  Forall (λ x, p x = true) l → List.filter p l = l.
Proof.
  induction 1 as [|x l Hx _ IH]; simpl; [reflexivity|].
  rewrite Hx, IH. reflexivity.
Qed.

Lemma Permutation_flat_map_l {A B : Type} (f : A → list B) (l1 l2 : list A) :
  Permutation l1 l2 → Permutation (List.flat_map f l1) (List.flat_map f l2).
Proof.
  induction 1 as [|x l1 l2 _ IH|x y l|l1 l2 l3 _ IH1 _ IH2]; simpl.
  - reflexivity.
  - apply Permutation_app_head, IH.
  - rewrite !List.app_assoc. apply Permutation_app_tail, Permutation_app_comm.
  - rewrite IH1. exact IH2.
Qed.

(** The values of each distinct key, key after key, are the values. *)
Lemma members_partition {A K : Type} `{EqDecision K} (key : A → K) (l : list A) :
  Permutation
    (List.flat_map (λ k, List.filter (λ v, bool_decide (key v = k)) l)
       (first_seen (List.map key l)))
    l.
Proof.
  transitivity (List.concat (List.map snd (d3.group l key)));
    [|apply group_flat].
  apply Permutation_refl'. rewrite group_spec, List.map_map.
  cbn [members_of snd]. apply List.flat_map_concat_map.
Qed.

Lemma materials_partition (l : list WasteRecord) :
  Permutation
    (List.flat_map (λ m, List.filter (of_material m) l)
       (first_seen (List.map MaterialType l)))
    l.
Proof.
  transitivity
    (List.flat_map (λ k, List.filter (λ v, bool_decide (MaterialType v = k)) l)
       (first_seen (List.map MaterialType l)));
    [|apply members_partition].
  apply Permutation_refl'. apply List.flat_map_ext. intros m.
  apply List.filter_ext. intros d. apply eqb_bool_decide.
Qed.

(** When the groups of the elements of [l] make up [whole] and the value of
    each element is the exact weight of its group, the values add up to the
    weight of [whole]. *)
Lemma partition_exact_sum {A : Type} (group : A → list WasteRecord)
    (f : A → Q) (l : list A) (whole : list WasteRecord) :
  partition_of group l whole →
  (∀ i, In i l → f i == sumQ (List.map weight_of (group i))) →
  sumQ (List.map f l) == sumQ (List.map weight_of whole).
Proof.
  intros Hp Hf. rewrite (sumQ_ext f _ l Hf).
  rewrite <- sumQ_flat_map. apply sumQ_perm, Permutation_map, Hp.
Qed.

(** ** The category nodes of the hierarchy *)

Lemma material_items (cd : list WasteRecord) :
  List.map item_of (d3.rollup cd (λ v, d3.sum v Weight) MaterialType)
  = List.map (λ m, mkItem m (d3.sum (List.filter (of_material m) cd) Weight))
      (first_seen (List.map MaterialType cd)).
Proof.
  unfold d3.rollup. rewrite group_spec, !List.map_map.
  apply List.map_ext. intros m. unfold item_of. cbn [fst].
  rewrite members_of_material. reflexivity.
Qed.

(** The records of a material that occurs add up to a weight above [0]. *)
Lemma material_positive (cd : list WasteRecord) (m : string) :
  Forall valid cd → In m (List.map MaterialType cd) →
  gt0 (added_where (of_material m) cd) = true.
Proof.
  intros Hv Hm. apply added_gt0.
  - apply List.in_map_iff in Hm as (d & Hd & Hin).
    intros Hnil.
    assert (H : In (Weight d) (List.map Weight (List.filter (of_material m) cd))).
    { apply List.in_map, List.filter_In. split; [exact Hin|].
      apply String.eqb_eq, Hd. }
    rewrite Hnil in H. destruct H.
  - apply valid_positive, filter_valid, Hv.
Qed.

(** For valid records, the children of a category node: one leaf per
    material of the records [cd] of the category, with the weights of the
    material's records added in record order, sorted by value. *)
Lemma category_children_spec (yearData : list WasteRecord) (label c : string) :
  Forall valid yearData →
  let cd := List.filter (in_category c) yearData in
  category_children (category_node (label, material_totals yearData c))
  = sort by_value_desc
      (List.map (λ m, mkItem m (added_where (of_material m) cd))
         (first_seen (List.map MaterialType cd))).
Proof.
  intros Hv cd. unfold category_node, material_totals.
  cbn [category_children snd]. fold cd. rewrite material_items.
  assert (Hcd : Forall valid cd) by (apply filter_valid, Hv).
  rewrite (List.map_ext_in _ (λ m, mkItem m (added_where (of_material m) cd))).
  - rewrite filter_true; [reflexivity|].
    apply List.Forall_forall. intros i Hi.
    apply List.in_map_iff in Hi as (m & <- & Hm). cbn [item_value].
    apply material_positive; [exact Hcd | apply first_seen_In, Hm].
  - intros m _. f_equal. apply sum_weight, filter_valid, Hcd.
Qed.

Lemma leaf_records_filter (yearData : list WasteRecord) (c : string) (i : Item) :
  leaf_records yearData c i
  = List.filter (of_material (item_name i)) (List.filter (in_category c) yearData).
Proof. unfold leaf_records. rewrite filter_filter_and. reflexivity. Qed.

(** The leaves of a category node: their values and the records under them. *)
Lemma category_leaves (yearData : list WasteRecord) (label c : string) :
  Forall valid yearData →
  let children :=
    category_children (category_node (label, material_totals yearData c)) in
  (∀ i, In i children →
     gt0 (item_value i) = true
     ∧ item_value i = added (List.map Weight (leaf_records yearData c i)))
  ∧ partition_of (leaf_records yearData c) children
      (List.filter (in_category c) yearData).
Proof.
  intros Hv children. subst children.
  rewrite (category_children_spec yearData label c Hv). cbn zeta.
  set (cd := List.filter (in_category c) yearData).
  assert (Hcd : Forall valid cd) by (apply filter_valid, Hv).
  split.
  - intros i Hi. apply sort_In, List.in_map_iff in Hi as (m & <- & Hm).
    cbn [item_value]. split.
    + apply material_positive; [exact Hcd | apply first_seen_In, Hm].
    + rewrite leaf_records_filter. reflexivity.
  - unfold partition_of.
    rewrite (Permutation_flat_map_l _ _ _ (sort_perm by_value_desc _)).
    rewrite List.flat_map_concat_map, List.map_map, <- List.flat_map_concat_map.
    transitivity
      (List.flat_map (λ m, List.filter (of_material m) cd)
         (first_seen (List.map MaterialType cd)));
      [|apply materials_partition].
    apply Permutation_refl'. apply List.flat_map_ext. intros m.
    rewrite leaf_records_filter. reflexivity.
Qed.

Lemma category_leaf_value (yearData : list WasteRecord) (label c : string)
    (i : Item) :
  Forall valid yearData →
  In i (category_children (category_node (label, material_totals yearData c))) →
  item_value i = added (List.map Weight (leaf_records yearData c i)).
Proof.
  intros Hv Hi. destruct (category_leaves yearData label c Hv) as [Hval _].
  apply (Hval i Hi).
Qed.

(** Every record of the category is under a leaf: the leaf of its material. *)
Lemma category_leaf_of (yearData : list WasteRecord) (label c : string)
    (d : WasteRecord) :
  Forall valid yearData → In d yearData → in_category c d = true →
  ∃ i, In i (category_children (category_node (label, material_totals yearData c)))
       ∧ item_name i = MaterialType d.
Proof.
  intros Hv Hd Hc. rewrite (category_children_spec yearData label c Hv). cbn zeta.
  eexists. split.
  - apply sort_In, List.in_map_iff. exists (MaterialType d).
    split; [reflexivity|]. apply first_seen_In.
    apply List.in_map, List.filter_In. split; assumption.
  - reflexivity.
Qed.

(** Every leaf is the leaf of the material of some record of the category. *)
Lemma category_leaf_material (yearData : list WasteRecord) (label c : string)
    (i : Item) :
  Forall valid yearData →
  In i (category_children (category_node (label, material_totals yearData c))) →
  ∃ d, In d yearData ∧ in_category c d = true ∧ MaterialType d = item_name i.
Proof.
  intros Hv Hi. rewrite (category_children_spec yearData label c Hv) in Hi.
  cbn zeta in Hi. apply sort_In, List.in_map_iff in Hi as (m & <- & Hm).
  apply first_seen_In, List.in_map_iff in Hm as (d & Hd & Hin).
  apply List.filter_In in Hin as [Hin Hc]. exists d. auto.
Qed.

Lemma timeseries_years (data : list WasteRecord) :
  Permutation (List.map year (prepareTimeSeriesData data))
    (first_seen (List.map Year data)).
Proof.
  unfold prepareTimeSeriesData.
  rewrite (Permutation_map year (sort_perm _ _)).
  rewrite List.map_map. cbn [year_entry year].
  rewrite group_spec, List.map_map. cbn [members_of fst].
  rewrite List.map_id. reflexivity.
Qed.

Lemma timeseries_years_NoDup (data : list WasteRecord) :
  List.NoDup (List.map year (prepareTimeSeriesData data)).
Proof.
  apply (Permutation_NoDup (l := first_seen (List.map Year data)));
    [symmetry; apply timeseries_years | apply first_seen_NoDup].
Qed.

(** ** The pipeline on sample inputs *)

Example tenths_round :
  plus (Num 0.1) (Num 0.2) = Num 0.30000000000000004
  ∧ plus (Num 0.1) (Num 0.2) ≠ Num 0.3
  ∧ ¬ (exact (plus (Num 0.1) (Num 0.2)) == exact (Num 0.1) + exact (Num 0.2)).
Proof.
  split; [vm_compute; reflexivity|]. split; vm_compute; discriminate.
Qed.

Example load_bad_rows :
  settled (loadWasteData Numeral.parseInt Numeral.parseFloat
             (Fulfilled Examples.bad_rows))
  = Fulfilled
      [ row_record Numeral.parseInt Numeral.parseFloat
          (Examples.row "2023" "Compost" "Food" "12.5") ]
  ∧ Weight (row_record Numeral.parseInt Numeral.parseFloat
              (Examples.row "2023" "Compost" "Food" "12.5")) = Num 12.5.
Proof. split; vm_compute; reflexivity. Qed.

Example load_thousands :
  List.map Weight
    (List.map (row_record Numeral.parseInt Numeral.parseFloat) Examples.paper_rows)
  = [Num 1000; Num 500].
Proof. vm_compute. reflexivity. Qed.

Example time_series_sample :
  prepareTimeSeriesData Examples.recycle_records
  = [ mkYearTotal (YInt 2023) (Num 0) (Num 20) (Num 0) (Num 20);
      mkYearTotal (YInt 2024) (Num 7) (Num 1500) (Num 0) (Num 1507) ].
Proof. vm_compute. reflexivity. Qed.

(** The total of a year is rounded: 0.1, 0.2 and 0.3 give
    0.6000000000000001, which is not the exact sum of the three weights. *)
Example time_series_rounds :
  prepareTimeSeriesData Examples.three_tenths
  = [ mkYearTotal (YInt 2024) (Num 0.1) (Num 0.2) (Num 0.3)
        (Num 0.6000000000000001) ]
  ∧ Num 0.6000000000000001 ≠ Num 0.6
  ∧ ¬ (exact (Num 0.6000000000000001)
       == weight_where (λ _, true) Examples.three_tenths).
Proof.
  split; [vm_compute; reflexivity|]. split; vm_compute; discriminate.
Qed.

Example composition_sample :
  prepareCompositionData Examples.abcd (Some 2024%Z)
  = mkComposition "Total Waste"
      [ mkCategory "Landfill"
          [mkItem "A" (Num 100); mkItem "B" (Num 50); mkItem "D" (Num 10)];
        mkCategory "Recycling" [mkItem "B" (Num 40)];
        mkCategory "Compost" [mkItem "C" (Num 90)] ].
Proof. vm_compute. reflexivity. Qed.

(** A leaf is rounded, too: the weights 0.1 and 0.2 of one material give
    the leaf 0.30000000000000004. *)
Example composition_rounds :
  leaves (prepareCompositionData Examples.two_tenths None)
  = [mkItem "Paper" (Num 0.30000000000000004)]
  ∧ ¬ (leaf_sum (prepareCompositionData Examples.two_tenths None)
       == weight_where (λ _, true) Examples.two_tenths).
Proof. split; [vm_compute; reflexivity | vm_compute; discriminate]. Qed.

Example network_sample :
  prepareNetworkData Examples.recycle_records (Some 2023%Z)
  = mkGraph
      [ mkNode "Recycling" category; mkNode "Glass" material ]
      [ mkLink 1 0 (Num 20) "Glass" "Recycling" ].
Proof. vm_compute. reflexivity. Qed.

(** C7.  Whatever the rows, the loader's promise is fulfilled with records
    that are all valid: the year is a number other than [0] (not [null]),
    the category is not the empty string and the weight is above [0].  A row
    whose weight string does not parse gets weight [0] and is not in the
    output.  The loader of [wasteData.js] keeps valid records only, too. *)
Theorem loader_output_valid
    (parseInt : string → option Z) (parseFloat : string → jsnum)
    (csv : outcome (list RawRow)) :
  (∃ out,
      settled (loadWasteData parseInt parseFloat csv) = Fulfilled out
      ∧ Forall valid out
      ∧ ∀ row,
          row_weight parseFloat row = NaN →
          Weight (row_record parseInt parseFloat row) = zero
          ∧ ¬ In (row_record parseInt parseFloat row) out)
  ∧ ∀ rows, Forall valid (csv_loaded parseInt parseFloat rows).
Proof.
  split; [|intros rows; apply filter_keep_valid].
  assert (Hzero : ∀ row, row_weight parseFloat row = NaN →
                         Weight (row_record parseInt parseFloat row) = zero)
    by (intros row Hnan; simpl; rewrite Hnan; reflexivity).
  destruct csv as [csvData|error]; simpl.
  - eexists. split; [reflexivity|]. split; [apply filter_keep_valid|].
    intros row Hnan. split; [exact (Hzero row Hnan)|].
    intros Hin. apply List.filter_In in Hin as [_ Hk].
    apply keep_valid in Hk. destruct Hk as (_ & _ & Hpos).
    rewrite (Hzero row Hnan) in Hpos. discriminate Hpos.
  - exists []. split; [reflexivity|]. split; [constructor|].
    intros row Hnan. split; [exact (Hzero row Hnan) | intros []].
Qed.

Lemma loader_output_valid_witness :
  ∃ out,
    settled (loadWasteData Numeral.parseInt Numeral.parseFloat
               (Fulfilled Examples.bad_rows)) = Fulfilled out
    ∧ Forall valid out
    ∧ Weight (row_record Numeral.parseInt Numeral.parseFloat
                (Examples.row "2024" "Landfill" "Paper" "abc")) = zero
    ∧ ¬ In (row_record Numeral.parseInt Numeral.parseFloat
              (Examples.row "2024" "Landfill" "Paper" "abc")) out.
Proof.
  destruct (loader_output_valid Numeral.parseInt Numeral.parseFloat
              (Fulfilled Examples.bad_rows)) as [(out & Hout & Hvalid & Hnan) _].
  exists out. split; [exact Hout|]. split; [exact Hvalid|].
  apply Hnan. vm_compute. reflexivity.
Defined.

(** C8.  When the source cannot be loaded ([d3.csv] rejects), the loader's
    promise is fulfilled with the empty sequence; and however the load
    settles, the loader's promise is fulfilled, never rejected. *)
Theorem load_failure_empty
    (parseInt : string → option Z) (parseFloat : string → jsnum) :
  (∀ error,
      settled (loadWasteData parseInt parseFloat (Rejected error)) = Fulfilled [])
  ∧ ∀ csv, ∃ out,
      settled (loadWasteData parseInt parseFloat csv) = Fulfilled out.
Proof.
  split.
  - intros error. reflexivity.
  - intros [csvData|error]; simpl; eexists; reflexivity.
Qed.

(** ** Builders on the empty sequence *)

Lemma year_filter_nil (year : option Z) : year_filter [] year = [].
Proof. destruct year as [y|]; simpl; [destruct (Z.eqb y 0)|]; reflexivity. Qed.

(** C9, as stated, fails: on the empty sequence the hierarchy builder's tree
    is not without children. *)
Lemma empty_hierarchy_has_children :
  ¬ (root_children (prepareCompositionData [] None) = []).
Proof. vm_compute. discriminate. Qed.

(** C9, amended.  On the empty sequence, for any year filter, the
    time-series builder returns the empty sequence, the graph builder the
    graph without nodes and links, and the hierarchy builder the root
    "Total Waste" with its three category nodes "Landfill", "Recycling" and
    "Compost", none of which has a child.  (The builders are total
    functions: a result is always returned.) *)
Theorem builders_on_empty (year : option Z) :
  prepareTimeSeriesData [] = []
  ∧ prepareNetworkData [] year = {| nodes := []; links := [] |}
  ∧ prepareCompositionData [] year =
      {| root_name := "Total Waste";
         root_children :=
           [ {| category_name := "Landfill"; category_children := [] |};
             {| category_name := "Recycling"; category_children := [] |};
             {| category_name := "Compost"; category_children := [] |} ] |}.
Proof.
  unfold prepareNetworkData, prepareCompositionData.
  rewrite year_filter_nil. repeat split; reflexivity.
Qed.

(** ** The default export of [wasteData.js] *)

Section DefaultExport.
Import WasteDataModule.
Variable parseInt : string → option Z.
Variable parseFloat : string → jsnum.

Lemma evaluate_export (m : bindings) :
  default_export (evaluate m) = Some predefinedData.
Proof. reflexivity. Qed.

Lemma run_job_export (m : bindings) (j : job) :
  default_export m = Some predefinedData →
  default_export (run_job parseInt parseFloat m j) = Some predefinedData.
Proof.
  intros H. destruct j as [|o]; simpl.
  - reflexivity.
  - unfold csv_settled. destruct (awaiting_csv m); [|exact H].
    destruct o; exact H.
Qed.

Lemma run_jobs_export (js : list job) (m : bindings) :
  default_export m = Some predefinedData →
  default_export (run_jobs parseInt parseFloat m js) = Some predefinedData.
Proof.
  revert m. induction js as [|j js IH]; intros m H; simpl; [exact H|].
  apply IH, run_job_export, H.
Qed.
End DefaultExport.

(** C10.  Once the module is evaluated its default export is the hard-coded
    [predefinedData], and no later job changes that, however the CSV load
    settles: when the export expression is evaluated [wasteData] is still
    empty.  The load, when it succeeds, does assign the module's
    [wasteData]; the export does not follow it. *)
Theorem default_export_is_predefined
    (parseInt : string → option Z) (parseFloat : string → jsnum) :
  (∀ js,
      WasteDataModule.default_export
        (WasteDataModule.run_jobs parseInt parseFloat WasteDataModule.unevaluated
           (WasteDataModule.Evaluate :: js))
      = Some WasteDataModule.predefinedData)
  ∧ ∀ rows,
      let m := WasteDataModule.run_jobs parseInt parseFloat
                 WasteDataModule.unevaluated
                 [WasteDataModule.Evaluate;
                  WasteDataModule.CsvSettled (Fulfilled rows)] in
      WasteDataModule.wasteData m = csv_loaded parseInt parseFloat rows
      ∧ WasteDataModule.default_export m = Some WasteDataModule.predefinedData.
Proof.
  split.
  - intros js.
    apply (run_jobs_export parseInt parseFloat js
             (WasteDataModule.evaluate WasteDataModule.unevaluated)).
    apply evaluate_export.
  - intros rows. split; reflexivity.
Qed.

(** ** Totals of the time series *)

(** C2, as stated, fails: a record of category "Reuse" is a valid record of
    its year, and its weight is not in that year's total, whether the total
    is compared with the weights added as doubles or with their exact
    sum. *)
Lemma reuse_weight_missing_from_total :
  Forall valid Examples.reuse_records
  ∧ ¬ (∀ t, In t (prepareTimeSeriesData Examples.reuse_records) →
            same (total t)
              (added_where (of_year (year t)) Examples.reuse_records) = true)
  ∧ ¬ (∀ t, In t (prepareTimeSeriesData Examples.reuse_records) →
            exact (total t)
            == weight_where (of_year (year t)) Examples.reuse_records).
Proof.
  split; [apply keep_all_valid; reflexivity|].
  assert (Hin := timeseries_year_present Examples.reuse_records
                   (Examples.record 2024 "Reuse" "Chair" 5)
                   (or_introl eq_refl)).
  split; intros H; specialize (H _ Hin); vm_compute in H; discriminate H.
Qed.

(** C2, amended.  For valid records, the time series has exactly one entry
    for every year present in the records (the years of its entries are
    pairwise different), and the [total] of the entry is
    [(landfill + recycling) + compost] in double arithmetic, where the three
    terms are the weights of the year's records of category "Landfill",
    "Recycle" and "Compost" respectively, added in record order. *)
Theorem year_total_is_counted_weight (data : list WasteRecord) (d : WasteRecord) :
  Forall valid data →
  In d data →
  List.NoDup (List.map year (prepareTimeSeriesData data))
  ∧ ∃ t, In t (prepareTimeSeriesData data)
       ∧ year t = Year d
       ∧ total t
         = plus
             (plus
                (added_where
                   (λ r, of_year (Year d) r && in_category "Landfill" r) data)
                (added_where
                   (λ r, of_year (Year d) r && in_category "Recycle" r) data))
             (added_where
                (λ r, of_year (Year d) r && in_category "Compost" r) data).
Proof.
  intros Hv Hd. split; [apply timeseries_years_NoDup|].
  exists (year_entry (members_of Year data (Year d))).
  split; [apply timeseries_year_present, Hd|]. split; [reflexivity|].
  unfold year_entry. cbn [total].
  rewrite !(year_category_sum data _ _ Hv). reflexivity.
Qed.

Lemma year_total_is_counted_weight_witness :
  ∃ t, In t (prepareTimeSeriesData Examples.recycle_records)
       ∧ year t = YInt 2024
       ∧ total t = Num 1507.
Proof.
  destruct (year_total_is_counted_weight Examples.recycle_records
              (Examples.record 2024 "Landfill" "Paper" 7))
    as (_ & t & Hin & Hy & Ht).
  - apply keep_all_valid. vm_compute. reflexivity.
  - simpl. auto.
  - exists t. split; [exact Hin|]. split; [exact Hy|].
    rewrite Ht. vm_compute. reflexivity.
Defined.

(** C3, as stated, fails: the entry of a year has no [reuse] total. *)
Lemma reuse_total_absent :
  Forall valid Examples.landfill_records
  ∧ ¬ (∀ t, In t (prepareTimeSeriesData Examples.landfill_records) →
            ∀ k, In k ["landfill"; "recycling"; "compost"; "reuse"] →
                 ∃ w, property t k = Some (VNum w)).
Proof.
  split; [apply keep_all_valid; reflexivity|].
  intros H.
  destruct (H (year_entry (members_of Year Examples.landfill_records (YInt 2024)))
              (timeseries_year_present Examples.landfill_records
                 (Examples.record 2024 "Landfill" "Paper" 3)
                 (or_introl eq_refl))
              "reuse") as (w & Hw).
  - simpl. auto.
  - vm_compute in Hw. discriminate Hw.
Qed.

(** C3, amended.  For valid records, every year present in the records has
    an entry, and every entry of the time series has the properties [year],
    [landfill], [recycling], [compost] and [total] and no others: three
    category totals, not four, there is no [reuse].  Each category total is
    the sum of the weights of the year's records of category "Landfill",
    "Recycle" and "Compost" respectively, added in record order in double
    arithmetic, and is [0] when the year has no record of that category. *)
Theorem category_totals_defined (data : list WasteRecord) :
  Forall valid data →
  (∀ d, In d data → ∃ t, In t (prepareTimeSeriesData data) ∧ year t = Year d)
  ∧ ∀ t, In t (prepareTimeSeriesData data) →
      List.map fst (properties t)
      = ["year"; "landfill"; "recycling"; "compost"; "total"]
      ∧ (property t "landfill" = Some (VNum (landfill t))
         ∧ property t "recycling" = Some (VNum (recycling t))
         ∧ property t "compost" = Some (VNum (compost t))
         ∧ property t "reuse" = None)
      ∧ (landfill t
           = added_where (λ d, of_year (year t) d && in_category "Landfill" d) data
         ∧ recycling t
           = added_where (λ d, of_year (year t) d && in_category "Recycle" d) data
         ∧ compost t
           = added_where (λ d, of_year (year t) d && in_category "Compost" d) data)
      ∧ ((∀ d, In d data → Year d = year t → Category d ≠ "Landfill") →
           landfill t = zero)
      ∧ ((∀ d, In d data → Year d = year t → Category d ≠ "Recycle") →
           recycling t = zero)
      ∧ ((∀ d, In d data → Year d = year t → Category d ≠ "Compost") →
           compost t = zero).
Proof.
  intros Hv. split.
  - intros d Hd. eexists. split; [apply timeseries_year_present, Hd|reflexivity].
  - intros t Ht. apply timeseries_entries in Ht as (y & _ & ->).
    split; [reflexivity|].
    split; [split; [|split; [|split]]; reflexivity|]. split.
    + unfold year_entry. cbn [landfill recycling compost year fst].
      split; [|split]; apply year_category_sum, Hv.
    + unfold year_entry. cbn [landfill recycling compost year fst].
      split; [|split]; apply year_category_none.
Qed.

Lemma category_totals_defined_witness :
  ∃ t, In t (prepareTimeSeriesData Examples.landfill_records)
       ∧ property t "landfill" = Some (VNum (landfill t))
       ∧ property t "reuse" = None
       ∧ landfill t = Num 7
       ∧ compost t = zero.
Proof.
  destruct (category_totals_defined Examples.landfill_records) as [Hyear Hentry].
  - apply keep_all_valid. vm_compute. reflexivity.
  - destruct (Hyear (Examples.record 2024 "Landfill" "Paper" 3)) as (t & Hin & Hy).
    + simpl. auto.
    + exists t.
      destruct (Hentry t Hin) as (_ & (Hp & _ & _ & Hr) & (Hl & _) & _ & _ & Hc).
      split; [exact Hin|]. split; [exact Hp|]. split; [exact Hr|]. split.
      * rewrite Hl, Hy. vm_compute. reflexivity.
      * apply Hc. intros d Hd _.
        destruct Hd as [<-|[<-|[]]]; vm_compute; discriminate.
Defined.

(** ** Conservation in the hierarchy *)

(** C4, as stated, fails: the weight of a valid "Reuse" record is under no
    leaf; and with the year argument [0] the tree is built from all records,
    not from the records of year [0]. *)
Lemma hierarchy_leaves_miss_weight :
  (Forall valid Examples.reuse_records
   ∧ ¬ (leaf_sum (prepareCompositionData Examples.reuse_records None)
        == weight_where (λ _, true) Examples.reuse_records))
  ∧ (Forall valid Examples.landfill_records
     ∧ ¬ (leaf_sum (prepareCompositionData Examples.landfill_records (Some 0%Z))
          == weight_where (of_year (YInt 0)) Examples.landfill_records)).
Proof.
  split; (split; [apply keep_all_valid; reflexivity | vm_compute; discriminate]).
Qed.

(** C4, amended.  For valid records, the tree has the three category nodes
    "Landfill", "Recycling" and "Compost", and the leaves of each node
    partition the selected records of its category ("Landfill", "Recycle"
    and "Compost" respectively): every such record is under exactly one
    leaf, that of its material, and the value of a leaf is the sum of the
    weights of its records, added in record order in double arithmetic.
    Hence, whenever no leaf's sum is rounded, the leaf values add up exactly
    to the summed weight of the selected records whose category is
    "Landfill", "Recycle" or "Compost".  Selected are the records of the
    given year, or all records when the year is omitted or [0]. *)
Theorem hierarchy_conservation (data : list WasteRecord) (year : option Z) :
  Forall valid data →
  let yearData := List.filter (selected year) data in
  ∃ lf rc cp,
    root_children (prepareCompositionData data year)
    = [ mkCategory "Landfill" lf; mkCategory "Recycling" rc;
        mkCategory "Compost" cp ]
    ∧ (∀ c children,
         In (c, children) [("Landfill", lf); ("Recycle", rc); ("Compost", cp)] →
         (∀ i, In i children →
            item_value i = added (List.map Weight (leaf_records yearData c i)))
         ∧ partition_of (leaf_records yearData c) children
             (List.filter (in_category c) yearData))
    ∧ ((∀ c children,
          In (c, children) [("Landfill", lf); ("Recycle", rc); ("Compost", cp)] →
          unrounded yearData c children) →
       leaf_sum (prepareCompositionData data year)
       == weight_where (λ d, selected year d && counted d) data).
Proof.
  intros Hv yearData.
  assert (Hyd : Forall valid yearData) by (apply filter_valid, Hv).
  unfold prepareCompositionData. rewrite year_filter_selected. fold yearData.
  cbn [root_children List.map].
  set (lf := category_children
               (category_node ("Landfill", material_totals yearData "Landfill"))).
  set (rc := category_children
               (category_node ("Recycling", material_totals yearData "Recycle"))).
  set (cp := category_children
               (category_node ("Compost", material_totals yearData "Compost"))).
  assert (Hleaves : ∀ c children,
            In (c, children) [("Landfill", lf); ("Recycle", rc); ("Compost", cp)] →
            (∀ i, In i children →
               gt0 (item_value i) = true
               ∧ item_value i = added (List.map Weight (leaf_records yearData c i)))
            ∧ partition_of (leaf_records yearData c) children
                (List.filter (in_category c) yearData)).
  { intros c children [[= <- <-]|[[= <- <-]|[[= <- <-]|[]]]];
      apply category_leaves, Hyd. }
  exists lf, rc, cp. split; [reflexivity|]. split.
  - intros c children Hc. destruct (Hleaves c children Hc) as [Hval Hpart].
    split; [intros i Hi; apply (Hval i Hi) | exact Hpart].
  - intros Hexact.
    assert (Hsum : ∀ c children,
              In (c, children) [("Landfill", lf); ("Recycle", rc); ("Compost", cp)] →
              sumQ (List.map (λ i, exact (item_value i)) children)
              == weight_where (λ d, selected year d && in_category c d) data).
    { intros c children Hc. destruct (Hleaves c children Hc) as [_ Hpart].
      rewrite (partition_exact_sum _ _ _ _ Hpart (Hexact c children Hc)).
      unfold yearData. fold (weight_where (in_category c)
                                (List.filter (selected year) data)).
      rewrite weight_where_filter. reflexivity. }
    unfold leaf_sum, leaves. cbn [root_children category_children List.map List.concat].
    rewrite List.app_nil_r, !List.map_app, !sumQ_app. fold lf rc cp.
    rewrite (Hsum "Landfill" lf), (Hsum "Recycle" rc), (Hsum "Compost" cp)
      by (simpl; auto).
    rewrite <- counted_split. lra.
Qed.

Lemma hierarchy_conservation_witness :
  ∃ lf rc cp,
    root_children (prepareCompositionData Examples.recycle_records (Some 2024%Z))
    = [ mkCategory "Landfill" lf; mkCategory "Recycling" rc;
        mkCategory "Compost" cp ]
    ∧ List.map item_value rc = [Num 1500]
    ∧ leaf_sum (prepareCompositionData Examples.recycle_records (Some 2024%Z))
      == 1507.
Proof.
  destruct (hierarchy_conservation Examples.recycle_records (Some 2024%Z))
    as (lf & rc & cp & Hroot & Hleaves & Hsum).
  - apply keep_all_valid. vm_compute. reflexivity.
  - exists lf, rc, cp. split; [exact Hroot|].
    vm_compute in Hroot. injection Hroot as <- <- <-.
    split; [vm_compute; reflexivity|].
    rewrite Hsum; [vm_compute; reflexivity|].
    intros c children [[= <- <-]|[[= <- <-]|[[= <- <-]|[]]]] i Hi;
      repeat (destruct Hi as [<-|Hi]; [vm_compute; reflexivity|]);
      destruct Hi.
Defined.

(** ** The links of the graph *)

(** C5, as stated, fails: two records of one (material, category) pair give
    two links, not one link carrying their summed weight. *)
Lemma two_links_for_one_pair :
  Forall valid Examples.landfill_records
  ∧ ¬ (∀ m c,
       (∃ d, In d Examples.landfill_records
             ∧ MaterialType d = m ∧ recycling_alias (Category d) = c) →
       ∃ l, pair_links m c (prepareNetworkData Examples.landfill_records None) = [l]
            ∧ exact (value l)
              == weight_where (λ d, of_material m d && shown_as c d)
                   Examples.landfill_records).
Proof.
  split; [apply keep_all_valid; reflexivity|].
  intros H. destruct (H "Paper" "Landfill") as (l & Hl & _).
  - eexists. split; [left; reflexivity|]. split; reflexivity.
  - vm_compute in Hl. discriminate Hl.
Qed.

(** C5, amended.  The graph has one link per selected record, in record
    order: from the record's material to its category (with "Recycle" shown
    as "Recycling"), carrying the record's weight.  Hence, for every
    (material, category) pair, the weights of its links add up to the summed
    weight of the matching records.  The target index of a link is the
    position of the category node of that name, the source index the
    position of a node of the material's name.  For valid records every link
    has a weight above [0]. *)
Theorem one_link_per_record (data : list WasteRecord) (year : option Z) :
  let yearData := List.filter (selected year) data in
  let g := prepareNetworkData data year in
  List.map (λ l, (sourceName l, targetName l, value l)) (links g)
  = List.map (λ d, (MaterialType d, recycling_alias (Category d), Weight d)) yearData
  ∧ (∀ m c,
       link_weight m c g
       == weight_where (λ d, of_material m d && shown_as c d) yearData)
  ∧ (∀ l, In l (links g) →
       (nth_error (nodes g) (Z.to_nat (target l))
          = Some (mkNode (targetName l) category)
        ∧ (0 <= target l)%Z)
       ∧ ∃ n, nth_error (nodes g) (Z.to_nat (source l)) = Some n
              ∧ node_name n = sourceName l ∧ (0 <= source l)%Z)
  ∧ (Forall valid data →
       Forall (λ l, gt0 (value l) = true) (links g)).
Proof.
  intros yearData g. subst yearData g.
  split; [|split; [|split]].
  - rewrite network_links, List.map_map. reflexivity.
  - intros m c. unfold link_weight, pair_links. rewrite network_links.
    rewrite filter_map_comm, List.map_map. reflexivity.
  - intros l Hl. rewrite network_links in Hl.
    apply List.in_map_iff in Hl as (d & <- & Hd).
    apply (link_endpoints data year d Hd).
  - intros Hv. rewrite network_links. apply List.Forall_forall. intros l Hl.
    apply List.in_map_iff in Hl as (d & <- & Hd).
    apply List.filter_In in Hd as [Hd _].
    rewrite List.Forall_forall in Hv. apply (Hv d Hd).
Qed.

Lemma one_link_per_record_witness :
  let g := prepareNetworkData Examples.landfill_records (Some 2024%Z) in
  length (links g) = 2%nat
  ∧ link_weight "Paper" "Landfill" g == 7
  ∧ Forall (λ l, gt0 (value l) = true) (links g).
Proof.
  destruct (one_link_per_record Examples.landfill_records (Some 2024%Z))
    as (Hmap & Hsum & _ & Hpos).
  split; [reflexivity|]. split.
  - rewrite Hsum. vm_compute. reflexivity.
  - apply Hpos. apply keep_all_valid. vm_compute. reflexivity.
Defined.

(** ** Ranking of the materials *)

(** Rounding decides a rank: the same three weights, added in opposite
    orders, give A the total 0.6000000000000001 and B the total 0.6, so A is
    listed first although B appears first. *)
Example rounding_decides_rank :
  List.map (λ e, (name e, totalWeight e))
    (prepareDistributionData Examples.tenths None)
  = [("A", Num 0.6000000000000001); ("B", Num 0.6)].
Proof. vm_compute. reflexivity. Qed.




Example top_twelve_of_thirteen :
  List.map name (prepareDistributionData Examples.thirteen None)
  = ["M"; "L"; "K"; "J"; "I"; "H"; "G"; "F"; "E"; "D"; "C"; "B"].
Proof. vm_compute. reflexivity. Qed.

(** ** The spelling of the recycling category *)

(** C1, as stated, fails on the specification's own scenario: the loader
    leaves "Recycle" as it is, and the row spelled "Recycling" is counted
    neither in the time series' recycling total nor under the hierarchy's
    "Recycling" node (1000 each, not 1500). *)
Lemma recycle_spellings_not_merged :
  ∃ out,
    settled (loadWasteData Numeral.parseInt Numeral.parseFloat
               (Fulfilled Examples.paper_rows)) = Fulfilled out
    ∧ List.map Category out = ["Recycle"; "Recycling"]
    ∧ List.map recycling (prepareTimeSeriesData out) = [Num 1000]
    ∧ List.map item_value (leaves (prepareCompositionData out None)) = [Num 1000].
Proof.
  eexists. split; [reflexivity|]. vm_compute. repeat split.
Qed.

(** C1, amended.  The loader leaves the category of a row as it is given;
    "Recycle" is renamed by the builders.  In the graph every record is
    linked to the node of its category with "Recycle" shown as "Recycling":
    no category node is named "Recycle" and category nodes have distinct
    names, so records spelled "Recycle" and records spelled "Recycling" share
    one "Recycling" node.  For valid records none of which is spelled
    "Recycling", the recycling total of each year of the time series is the
    sum of the weights of that year's records shown as "Recycling", added in
    record order in double arithmetic; and the hierarchy's second node is
    named "Recycling" and has one leaf per material of the selected records
    shown as "Recycling", the leaf's value being the sum of the weights of
    those records of its material, added in record order in double
    arithmetic. *)
Theorem recycle_renamed_by_builders
    (parseInt : string → option Z) (parseFloat : string → jsnum)
    (rows : list RawRow) (data : list WasteRecord) (selection : option Z) :
  (∀ out d,
      settled (loadWasteData parseInt parseFloat (Fulfilled rows)) = Fulfilled out →
      In d out →
      ∃ row, In row rows ∧ Category d = or_empty (row !! "Category"))
  ∧ (let g := prepareNetworkData data selection in
     List.map targetName (links g)
     = List.map (λ d, recycling_alias (Category d))
         (List.filter (selected selection) data)
     ∧ (∀ n, In n (nodes g) → type n = category → node_name n ≠ "Recycle")
     ∧ List.NoDup (List.map node_name (List.filter is_category (nodes g))))
  ∧ ((∀ d, In d data → Category d ≠ "Recycling") →
     Forall valid data →
     (∀ t, In t (prepareTimeSeriesData data) →
        recycling t
        = added_where (λ d, of_year (year t) d && shown_as "Recycling" d) data)
     ∧ ∃ lf rc cp,
         root_children (prepareCompositionData data selection)
         = [ mkCategory "Landfill" lf; mkCategory "Recycling" rc;
             mkCategory "Compost" cp ]
         ∧ List.NoDup (List.map item_name rc)
         ∧ (∀ i, In i rc →
              item_value i
              = added_where
                  (λ d, selected selection d
                        && (shown_as "Recycling" d && of_material (item_name i) d))
                  data)
         ∧ (∀ d, In d data → selected selection d = true →
              shown_as "Recycling" d = true →
              ∃ i, In i rc ∧ item_name i = MaterialType d)
         ∧ (∀ i, In i rc →
              ∃ d, In d data ∧ selected selection d = true
                   ∧ shown_as "Recycling" d = true
                   ∧ MaterialType d = item_name i)).
Proof.
  split; [|split].
  - intros out d [= <-] Hd. apply List.filter_In in Hd as [Hd _].
    apply List.in_map_iff in Hd as (row & <- & Hrow).
    exists row. split; [exact Hrow | reflexivity].
  - cbn zeta. split; [|split].
    + rewrite network_links, List.map_map. reflexivity.
    + intros n Hn Hc Hname.
      assert (Hin : In (node_name n)
                      (List.map node_name
                         (List.filter is_category (nodes (prepareNetworkData data selection))))).
      { apply List.in_map, List.filter_In. split; [exact Hn|].
        unfold is_category. rewrite Hc. reflexivity. }
      rewrite category_nodes, array_from_set_In in Hin.
      apply List.in_map_iff in Hin as (d & Hd & _).
      rewrite Hname in Hd. exact (alias_not_recycle _ Hd).
    + rewrite category_nodes. apply array_from_set_NoDup.
  - intros Hspell Hv. split.
    + intros t Ht. apply timeseries_entries in Ht as (y & _ & ->).
      unfold year_entry. cbn [recycling year fst].
      rewrite (year_category_sum data y "Recycle" Hv).
      unfold added_where. f_equal. f_equal. apply List.filter_ext_in.
      intros d Hd. rewrite (recycle_shown_as_recycling d (Hspell d Hd)).
      reflexivity.
    + unfold prepareCompositionData. cbn [root_children List.map].
      rewrite year_filter_selected.
      set (yearData := List.filter (selected selection) data).
      assert (Hyd : Forall valid yearData) by (apply filter_valid, Hv).
      exists (category_children
                (category_node ("Landfill", material_totals yearData "Landfill"))),
             (category_children
                (category_node ("Recycling", material_totals yearData "Recycle"))),
             (category_children
                (category_node ("Compost", material_totals yearData "Compost"))).
      split; [reflexivity|].
      split; [apply category_node_names|]. split; [|split].
      * intros i Hi.
        destruct (category_leaves yearData "Recycling" "Recycle" Hyd) as [Hval _].
        destruct (Hval i Hi) as [_ ->].
        unfold added_where, leaf_records, yearData. f_equal. f_equal.
        rewrite filter_filter_and. apply List.filter_ext_in.
        intros d Hd. rewrite (recycle_shown_as_recycling d (Hspell d Hd)).
        reflexivity.
      * intros d Hd Hsel Hshown.
        apply (category_leaf_of yearData "Recycling" "Recycle" d Hyd).
        -- apply List.filter_In. split; assumption.
        -- rewrite (recycle_shown_as_recycling d (Hspell d Hd)). exact Hshown.
      * intros i Hi.
        destruct (category_leaf_material yearData "Recycling" "Recycle" i Hyd Hi)
          as (d & Hd & Hc & Hm).
        apply List.filter_In in Hd as [Hd Hsel].
        exists d. split; [exact Hd|]. split; [exact Hsel|]. split; [|exact Hm].
        rewrite <- (recycle_shown_as_recycling d (Hspell d Hd)). exact Hc.
Qed.

Lemma recycle_renamed_by_builders_witness :
  (∀ t, In t (prepareTimeSeriesData Examples.recycle_records) →
     recycling t
     = added_where (λ d, of_year (year t) d && shown_as "Recycling" d)
         Examples.recycle_records)
  ∧ ∃ lf rc cp,
      root_children (prepareCompositionData Examples.recycle_records (Some 2024%Z))
      = [ mkCategory "Landfill" lf; mkCategory "Recycling" rc;
          mkCategory "Compost" cp ]
      ∧ List.NoDup (List.map item_name rc)
      ∧ List.map item_value rc = [Num 1500].
Proof.
  destruct (recycle_renamed_by_builders Numeral.parseInt Numeral.parseFloat
              Examples.paper_rows Examples.recycle_records (Some 2024%Z))
    as (_ & _ & H).
  destruct H as [Hseries Htree].
  - intros d Hd. repeat (destruct Hd as [<-|Hd]; [vm_compute; discriminate|]).
    destruct Hd.
  - apply keep_all_valid. vm_compute. reflexivity.
  - split; [exact Hseries|].
    destruct Htree as (lf & rc & cp & Hroot & Hnd & _).
    exists lf, rc, cp. split; [exact Hroot|]. split; [exact Hnd|].
    vm_compute in Hroot. injection Hroot as <- <- <-. vm_compute. reflexivity.
Defined.

(** * Further properties *)

(** ** [getAggregatedData] *)

Lemma NoDup_flat_map {A B : Type} (f : A → list B) (l : list A) :
  List.NoDup l →
  (∀ x, In x l → List.NoDup (f x)) →
  (∀ x y b, In x l → In y l → In b (f x) → In b (f y) → x = y) →
  List.NoDup (List.flat_map f l).
Proof.
  induction l as [|x l IH]; intros Hnd Hf Hdisj; simpl; [constructor|].
  apply List.NoDup_cons_iff in Hnd as [Hx Hnd].
  apply List.NoDup_app.
  - apply Hf. left. reflexivity.
  - apply IH; [exact Hnd | intros; apply Hf; right; assumption |].
    intros y z b Hy Hz. apply Hdisj; right; assumption.
  - intros b Hb Hb'. apply List.in_flat_map in Hb' as (y & Hy & Hb').
    assert (x = y) by (apply (Hdisj x y b); simpl; auto).
    subst y. exact (Hx Hy).
Qed.

Lemma members_In {A K : Type} `{EqDecision K} (key : A → K) (l : list A)
    (k : K) (v : A) :
  In v (snd (members_of key l k)) ↔ In v l ∧ key v = k.
Proof.
  unfold members_of. simpl. rewrite List.filter_In, bool_decide_eq_true.
  reflexivity.
Qed.

(** The entries of [aggregate], spelled out with the groups of [group_spec]. *)
Lemma aggregate_In (data : list WasteRecord) (e : Aggregated) :
  In e (aggregate data) ↔
  (∃ d, In d data ∧ record_triple d = triple_of e)
  ∧ agg_Weight e
    = d3.sum
        (List.filter (λ d, bool_decide (MaterialType d = agg_MaterialType e))
           (List.filter (λ d, bool_decide (Category d = agg_Category e))
              (List.filter (λ d, bool_decide (Year d = agg_Year e)) data)))
        Weight.
Proof.
  unfold aggregate. rewrite List.in_flat_map. split.
  - intros (yg & Hyg & He). apply List.in_flat_map in He as (cg & Hcg & He).
    apply List.in_map_iff in He as (mg & <- & Hmg).
    rewrite group_spec in Hyg. rewrite group_spec in Hcg.
    rewrite group_spec in Hmg.
    apply List.in_map_iff in Hyg as (y & <- & Hy).
    apply List.in_map_iff in Hcg as (c & <- & Hc).
    apply List.in_map_iff in Hmg as (m & <- & Hm).
    rewrite first_seen_In in Hy. rewrite first_seen_In in Hc.
    rewrite first_seen_In in Hm.
    apply List.in_map_iff in Hm as (d & <- & Hd).
    cbn [members_of fst snd] in *.
    split; [|reflexivity].
    apply List.filter_In in Hd as [Hd Hdc]. apply List.filter_In in Hd as [Hd Hdy].
    apply bool_decide_eq_true in Hdc, Hdy.
    exists d. split; [exact Hd|]. unfold record_triple, triple_of. simpl.
    congruence.
  - intros ((d & Hd & Ht) & Hw). destruct e as [y c m w].
    unfold record_triple, triple_of in Ht. simpl in *.
    injection Ht as Hy Hc Hm.
    exists (members_of Year data y). split.
    { rewrite group_spec. apply List.in_map, first_seen_In.
      rewrite <- Hy. apply List.in_map, Hd. }
    apply List.in_flat_map. cbn [members_of snd fst].
    set (yd := List.filter (λ v, bool_decide (Year v = y)) data) in *.
    assert (Hdy : In d yd)
      by (apply List.filter_In; split; [exact Hd | apply bool_decide_eq_true, Hy]).
    exists (members_of Category yd c). split.
    { rewrite group_spec. apply List.in_map, first_seen_In.
      rewrite <- Hc. apply List.in_map, Hdy. }
    cbn [members_of snd fst].
    set (cd := List.filter (λ v, bool_decide (Category v = c)) yd) in *.
    assert (Hdc : In d cd)
      by (apply List.filter_In; split; [exact Hdy | apply bool_decide_eq_true, Hc]).
    apply List.in_map_iff. exists (members_of MaterialType cd m). split.
    { cbn [members_of snd fst]. rewrite Hw. reflexivity. }
    rewrite group_spec. apply List.in_map, first_seen_In.
    rewrite <- Hm. apply List.in_map, Hdc.
Qed.

Lemma NoDup_map_on {A B : Type} (f : A → B) (l : list A) :
  (∀ x y, In x l → In y l → f x = f y → x = y) →
  List.NoDup l → List.NoDup (List.map f l).
Proof.
  induction l as [|x l IH]; intros Hinj Hnd; simpl; [constructor|].
  apply List.NoDup_cons_iff in Hnd as [Hx Hnd].
  apply List.NoDup_cons.
  - intros Hin. apply List.in_map_iff in Hin as (y & Hy & Hin).
    assert (y = x) by (apply Hinj; simpl; auto).
    subst y. exact (Hx Hin).
  - apply IH; [|exact Hnd]. intros y z Hy Hz. apply Hinj; right; assumption.
Qed.

Section GroupKeys.
Context {A K : Type} `{EqDecision K} (key : A → K).

Lemma group_keys (l : list A) :
  List.map fst (d3.group l key) = first_seen (List.map key l).
Proof.
  rewrite group_spec, List.map_map. cbn [members_of fst]. apply List.map_id.
Qed.

Lemma group_by_key (l : list A) (g1 g2 : K * list A) :
  In g1 (d3.group l key) → In g2 (d3.group l key) → fst g1 = fst g2 → g1 = g2.
Proof.
  rewrite group_spec. intros H1 H2 Heq.
  apply List.in_map_iff in H1 as (k1 & <- & _).
  apply List.in_map_iff in H2 as (k2 & <- & _).
  simpl in Heq. rewrite Heq. reflexivity.
Qed.

Lemma group_NoDup (l : list A) : List.NoDup (d3.group l key).
Proof.
  apply (List.NoDup_map_inv fst). rewrite group_keys. apply first_seen_NoDup.
Qed.
End GroupKeys.

Lemma map_flat_map {A B C : Type} (g : B → C) (f : A → list B) (l : list A) :
  List.map g (List.flat_map f l) = List.flat_map (λ x, List.map g (f x)) l.
Proof.
  induction l as [|x l IH]; simpl; [reflexivity|].
  rewrite List.map_app, IH. reflexivity.
Qed.

Lemma has_triple_filters (data : list WasteRecord) (e : Aggregated) :
  List.filter (λ d, bool_decide (MaterialType d = agg_MaterialType e))
    (List.filter (λ d, bool_decide (Category d = agg_Category e))
       (List.filter (λ d, bool_decide (Year d = agg_Year e)) data))
  = List.filter (has_triple (triple_of e)) data.
Proof.
  rewrite !filter_filter_and. apply List.filter_ext.
  intros d. unfold has_triple, record_triple, triple_of.
  destruct (decide (Year d = agg_Year e)) as [Hy|Hy];
    destruct (decide (Category d = agg_Category e)) as [Hc|Hc];
    destruct (decide (MaterialType d = agg_MaterialType e)) as [Hm|Hm];
    rewrite ?(bool_decide_eq_true_2 _ Hy), ?(bool_decide_eq_false_2 _ Hy),
      ?(bool_decide_eq_true_2 _ Hc), ?(bool_decide_eq_false_2 _ Hc),
      ?(bool_decide_eq_true_2 _ Hm), ?(bool_decide_eq_false_2 _ Hm); simpl;
    symmetry;
    first [ apply bool_decide_eq_true_2; congruence
          | apply bool_decide_eq_false_2; congruence ].
Qed.

Lemma aggregate_weight (data : list WasteRecord) (e : Aggregated) :
  Forall valid data →
  In e (aggregate data) →
  agg_Weight e = added_where (has_triple (triple_of e)) data.
Proof.
  intros Hv He. apply aggregate_In in He as [_ ->].
  rewrite has_triple_filters. apply sum_weight, filter_valid, Hv.
Qed.

Lemma aggregate_triples (data : list WasteRecord) :
  List.NoDup (List.map triple_of (aggregate data)).
Proof.
  unfold aggregate. rewrite map_flat_map.
  apply NoDup_flat_map; [apply group_NoDup | |].
  - intros yg _. rewrite map_flat_map.
    apply NoDup_flat_map; [apply group_NoDup | |].
    + intros cg _. rewrite List.map_map. apply NoDup_map_on; [|apply group_NoDup].
      intros m1 m2 H1 H2 [= Heq]. exact (group_by_key _ _ _ _ H1 H2 Heq).
    + intros c1 c2 t H1 H2 Ht1 Ht2.
      rewrite List.map_map in Ht1, Ht2.
      apply List.in_map_iff in Ht1 as (m1 & <- & _).
      apply List.in_map_iff in Ht2 as (m2 & [= Heq _] & _).
      symmetry in Heq. exact (group_by_key _ _ _ _ H1 H2 Heq).
  - intros y1 y2 t H1 H2 Ht1 Ht2.
    rewrite map_flat_map in Ht1, Ht2.
    apply List.in_flat_map in Ht1 as (c1 & _ & Ht1).
    apply List.in_flat_map in Ht2 as (c2 & _ & Ht2).
    rewrite List.map_map in Ht1, Ht2.
    apply List.in_map_iff in Ht1 as (m1 & <- & _).
    apply List.in_map_iff in Ht2 as (m2 & [= Heq _ _] & _).
    symmetry in Heq. exact (group_by_key _ _ _ _ H1 H2 Heq).
Qed.

Lemma aggregate_covers (data : list WasteRecord) (d : WasteRecord) :
  In d data → ∃ e, In e (aggregate data) ∧ triple_of e = record_triple d.
Proof.
  intros Hd.
  exists {| agg_Year := Year d; agg_Category := Category d;
            agg_MaterialType := MaterialType d;
            agg_Weight :=
              d3.sum
                (List.filter (λ r, bool_decide (MaterialType r = MaterialType d))
                   (List.filter (λ r, bool_decide (Category r = Category d))
                      (List.filter (λ r, bool_decide (Year r = Year d)) data)))
                Weight |}.
  split; [|reflexivity]. apply aggregate_In. split; [|reflexivity].
  exists d. split; [exact Hd | reflexivity].
Qed.

(** Distinct keys that cover the values split them: the values of each key,
    key after key, are the values. *)
Section KeysPartition.
Context {A K : Type} `{EqDecision K} (key : A → K).

Lemma keys_skip (x : A) (l : list A) (ks : list K) :
  ¬ In (key x) ks →
  List.flat_map (λ k, List.filter (λ v, bool_decide (key v = k)) (x :: l)) ks
  = List.flat_map (λ k, List.filter (λ v, bool_decide (key v = k)) l) ks.
Proof.
  induction ks as [|k ks IH]; intros H; [reflexivity|].
  cbn [List.flat_map].
  rewrite IH by (intros Hin; apply H; right; exact Hin).
  cbn [List.filter].
  rewrite bool_decide_eq_false_2 by (intros Heq; apply H; left; congruence).
  reflexivity.
Qed.

Lemma keys_cons (x : A) (l : list A) (ks : list K) :
  List.NoDup ks → In (key x) ks →
  Permutation
    (List.flat_map (λ k, List.filter (λ v, bool_decide (key v = k)) (x :: l)) ks)
    (x :: List.flat_map (λ k, List.filter (λ v, bool_decide (key v = k)) l) ks).
Proof.
  induction ks as [|k ks IH]; intros Hnd Hin; [destruct Hin|].
  apply List.NoDup_cons_iff in Hnd as [Hk Hnd].
  cbn [List.flat_map].
  destruct (decide (key x = k)) as [Heq|Hne].
  - rewrite keys_skip by (rewrite Heq; exact Hk).
    cbn [List.filter]. rewrite bool_decide_eq_true_2 by exact Heq. reflexivity.
  - rewrite IH; [|exact Hnd | destruct Hin as [->|Hin]; [congruence | exact Hin]].
    cbn [List.filter]. rewrite bool_decide_eq_false_2 by exact Hne.
    apply Permutation_sym, Permutation_middle.
Qed.

Lemma keys_partition (l : list A) (ks : list K) :
  List.NoDup ks → (∀ x, In x l → In (key x) ks) →
  Permutation
    (List.flat_map (λ k, List.filter (λ v, bool_decide (key v = k)) l) ks)
    l.
Proof.
  intros Hnd. induction l as [|x l IH]; intros Hin.
  - apply Permutation_refl'. clear Hnd Hin.
    induction ks as [|k ks IHk]; [reflexivity | exact IHk].
  - rewrite keys_cons; [|exact Hnd | apply Hin; left; reflexivity].
    constructor. apply IH. intros y Hy. apply Hin. right. exact Hy.
Qed.
End KeysPartition.

Lemma flat_map_map {A B C : Type} (f : A → B) (g : B → list C) (l : list A) :
  List.flat_map g (List.map f l) = List.flat_map (λ x, g (f x)) l.
Proof. induction l as [|x l IH]; simpl; [reflexivity|]. rewrite IH. reflexivity. Qed.

(** X1.  [getAggregatedData] returns one entry per distinct
    (Year, Category, MaterialType) of the records: the triples of the
    entries are pairwise different, every record has the entry of its
    triple, and every entry is the entry of some record.  For valid records
    the [Weight] of an entry is the sum of the weights of the records of its
    triple, added in record order in double arithmetic (the category is the
    raw one: "Recycle" is not renamed). *)
Theorem aggregated_per_triple (data : list WasteRecord) :
  List.NoDup (List.map triple_of (aggregate data))
  ∧ (∀ d, In d data →
       ∃ e, In e (aggregate data) ∧ triple_of e = record_triple d)
  ∧ (∀ e, In e (aggregate data) →
       (∃ d, In d data ∧ record_triple d = triple_of e)
       ∧ (Forall valid data →
          agg_Weight e = added_where (has_triple (triple_of e)) data)).
Proof.
  split; [apply aggregate_triples|]. split; [apply aggregate_covers|].
  intros e He. split; [apply aggregate_In, He|].
  intros Hv. apply aggregate_weight; assumption.
Qed.

(** X2.  Aggregation counts every record once: the groups of the entries
    of [getAggregatedData], the records of each entry's triple, make up the
    records.  So weight is conserved where no sum is rounded: when the
    [Weight] of every entry is the exact sum of the weights of its group,
    the weights of the entries add up to the summed weight of all
    records. *)
Theorem aggregated_conserves_weight (data : list WasteRecord) :
  partition_of (λ e, List.filter (has_triple (triple_of e)) data)
    (aggregate data) data
  ∧ ((∀ e, In e (aggregate data) →
        exact (agg_Weight e)
        == weight_where (has_triple (triple_of e)) data) →
     sumQ (List.map (λ e, exact (agg_Weight e)) (aggregate data))
     == sumQ (List.map weight_of data)).
Proof.
  assert (Hpart : partition_of (λ e, List.filter (has_triple (triple_of e)) data)
                    (aggregate data) data).
  { unfold partition_of.
    rewrite <- (flat_map_map triple_of
                  (λ t, List.filter (has_triple t) data) (aggregate data)).
    apply (keys_partition record_triple); [apply aggregate_triples|].
    intros d Hd. destruct (aggregate_covers data d Hd) as (e & He & <-).
    apply List.in_map, He. }
  split; [exact Hpart|]. intros Hexact.
  apply (partition_exact_sum _ _ _ _ Hpart). exact Hexact.
Qed.

(** A sum is rounded as soon as the weights are 0.1 and 0.2. *)
Example aggregated_rounds :
  List.map agg_Weight (aggregate Examples.two_tenths)
  = [Num 0.30000000000000004]
  ∧ ¬ (sumQ (List.map (λ e, exact (agg_Weight e)) (aggregate Examples.two_tenths))
       == sumQ (List.map weight_of Examples.two_tenths)).
Proof. split; [vm_compute; reflexivity | vm_compute; discriminate]. Qed.

(** X3.  [getAggregatedData] reads the module's [wasteData] when it is
    called: it returns the empty list until the CSV load has succeeded (also
    after a failed load) and never aggregates the fallback records that the
    default export holds; after a successful load it aggregates the loaded
    records, and every entry has a weight above [0]. *)
Theorem aggregated_reads_live_binding
    (parseInt : string → option Z) (parseFloat : string → jsnum) :
  getAggregatedData (WasteDataModule.evaluate WasteDataModule.unevaluated) = []
  ∧ (∀ error,
       getAggregatedData
         (WasteDataModule.run_jobs parseInt parseFloat WasteDataModule.unevaluated
            [WasteDataModule.Evaluate;
             WasteDataModule.CsvSettled (Rejected error)]) = [])
  ∧ ∀ rows,
      let m := WasteDataModule.run_jobs parseInt parseFloat
                 WasteDataModule.unevaluated
                 [WasteDataModule.Evaluate;
                  WasteDataModule.CsvSettled (Fulfilled rows)] in
      getAggregatedData m = aggregate (csv_loaded parseInt parseFloat rows)
      ∧ Forall (λ e, gt0 (agg_Weight e) = true) (getAggregatedData m)
      ∧ WasteDataModule.default_export m = Some WasteDataModule.predefinedData.
Proof.
  split; [reflexivity|]. split; [intros error; reflexivity|].
  intros rows m. subst m.
  split; [reflexivity|]. split; [|reflexivity].
  change (Forall (λ e, gt0 (agg_Weight e) = true)
            (aggregate (csv_loaded parseInt parseFloat rows))).
  assert (Hv : Forall valid (csv_loaded parseInt parseFloat rows))
    by apply filter_keep_valid.
  apply List.Forall_forall. intros e He.
  rewrite (aggregate_weight _ e Hv He).
  apply aggregate_In in He as [(d & Hd & Ht) _].
  apply added_gt0; [|apply valid_positive, filter_valid, Hv].
  intros Hnil.
  assert (H : In (Weight d)
                (List.map Weight
                   (List.filter (has_triple (triple_of e))
                      (csv_loaded parseInt parseFloat rows)))).
  { apply List.in_map, List.filter_In. split; [exact Hd|].
    apply bool_decide_eq_true_2, Ht. }
  rewrite Hnil in H. destruct H.
Qed.

(** ** [processData]: the network and the composition of a year *)

Lemma existsb_eqb_In (name : string) (l : list string) :
  existsb (String.eqb name) l = true ↔ In name l.
Proof.
  rewrite List.existsb_exists. split.
  - intros (x & Hx & Heq). apply String.eqb_eq in Heq. subst x. exact Hx.
  - intros H. exists name. split; [exact H | apply String.eqb_refl].
Qed.

Lemma add_node_spec (nodes : list string) (name : string) :
  List.NoDup nodes →
  List.NoDup (processData.add_node nodes name)
  ∧ ∀ n, In n (processData.add_node nodes name) ↔ In n nodes ∨ n = name.
Proof.
  intros Hnd. unfold processData.add_node.
  destruct (existsb (String.eqb name) nodes) eqn:E.
  - apply existsb_eqb_In in E. split; [exact Hnd|].
    intros n. split; [auto | intros [H| ->]; assumption].
  - assert (Hnot : ¬ In name nodes)
      by (intros H; apply existsb_eqb_In in H; congruence).
    split.
    + apply List.NoDup_app; [exact Hnd | repeat constructor; intros [] |].
      intros x Hx [<-|[]]. exact (Hnot Hx).
    + intros n. rewrite List.in_app_iff. simpl. intuition congruence.
Qed.

Lemma add_nodes_spec {A : Type} (name_of : A → string) (l : list A)
    (nodes : list string) :
  List.NoDup nodes →
  let r := fold_left (λ nodes x, processData.add_node nodes (name_of x)) l nodes in
  List.NoDup r ∧ ∀ n, In n r ↔ In n nodes ∨ In n (List.map name_of l).
Proof.
  revert nodes. induction l as [|x l IH]; intros nodes Hnd; simpl.
  - split; [exact Hnd | intros n; tauto].
  - destruct (add_node_spec nodes (name_of x) Hnd) as [Hnd' Hin].
    destruct (IH _ Hnd') as [H1 H2]. split; [exact H1|].
    intros n. rewrite H2, Hin. intuition congruence.
Qed.

Lemma findIndex_from_none {A : Type} (p : A → bool) (l : list A) (i : Z) :
  (∀ x, In x l → p x = false) → findIndex_from p l i = (-1)%Z.
Proof.
  revert i. induction l as [|x l IH]; intros i H; simpl; [reflexivity|].
  rewrite (H x (or_introl eq_refl)). apply IH. intros y Hy. apply H. right. exact Hy.
Qed.

Lemma index_of_member (nodes : list string) (name : string) :
  In name nodes →
  nth_error nodes (Z.to_nat (processData.index_of nodes name)) = Some name
  ∧ (0 <= processData.index_of nodes name)%Z.
Proof.
  intros H. unfold processData.index_of.
  destruct (findIndex_found (λ n, String.eqb n name) nodes [])
    as (y & Hy & Hp & Hpos).
  - exists name. split; [exact H | apply String.eqb_refl].
  - rewrite List.app_nil_r in Hy, Hpos. apply String.eqb_eq in Hp. subst y.
    split; [exact Hy | exact Hpos].
Qed.

Lemma index_of_absent (nodes : list string) (name : string) :
  ¬ In name nodes → processData.index_of nodes name = (-1)%Z.
Proof.
  intros H. apply findIndex_from_none. intros x Hx.
  apply String.eqb_neq. intros ->. exact (H Hx).
Qed.

Lemma legacy_nodes_spec (data : list WasteRecord) (year : jsyear) :
  let nodes := processData.network_nodes (processData.getNetworkData data year) in
  List.NoDup nodes
  ∧ ∀ n, In n nodes ↔
         In n (List.map MaterialType (processData.yearData data year))
         ∨ In n ["Landfill"; "Recycling"; "Compost"].
Proof.
  cbn zeta. unfold processData.getNetworkData. cbn [processData.network_nodes].
  destruct (add_nodes_spec MaterialType (processData.yearData data year) []
              (List.NoDup_nil _)) as [H1 H2].
  destruct (add_nodes_spec (λ s : string, s) ["Landfill"; "Recycling"; "Compost"]
              _ H1) as [H3 H4].
  split; [exact H3|]. intros n. rewrite H4, H2, List.map_id. simpl. tauto.
Qed.

(** X4.  In the network of [processData] the node names are pairwise
    different: the year's material types and the three names "Landfill",
    "Recycling", "Compost".  There is one link per record of the year; its
    source index is the position of the material's node.  Its target index
    is the position of the node named like the record's category ("Recycle"
    read as "Recycling") when there is such a node, and [-1] otherwise: a
    record of another category (one that is not also a material type of the
    year) gives a link without target. *)
Theorem legacy_network_links (data : list WasteRecord) (year : jsyear) :
  let g := processData.getNetworkData data year in
  let nodes := processData.network_nodes g in
  List.NoDup nodes
  ∧ (∀ n, In n nodes ↔
          In n (List.map MaterialType (processData.yearData data year))
          ∨ In n ["Landfill"; "Recycling"; "Compost"])
  ∧ length (processData.network_links g)
    = length (processData.yearData data year)
  ∧ ∀ i d l,
      nth_error (processData.yearData data year) i = Some d →
      nth_error (processData.network_links g) i = Some l →
      processData.link_value l = or_zero (Weight d)
      ∧ (nth_error nodes (Z.to_nat (processData.link_source l))
           = Some (MaterialType d)
         ∧ (0 <= processData.link_source l)%Z)
      ∧ (In (recycling_alias (Category d)) nodes →
           nth_error nodes (Z.to_nat (processData.link_target l))
             = Some (recycling_alias (Category d))
           ∧ (0 <= processData.link_target l)%Z)
      ∧ (¬ In (recycling_alias (Category d)) nodes →
           processData.link_target l = (-1)%Z).
Proof.
  intros g nodes.
  destruct (legacy_nodes_spec data year) as [Hnd Hin]. fold g nodes in Hnd, Hin.
  split; [exact Hnd|]. split; [exact Hin|]. split.
  - unfold g, processData.getNetworkData. cbn [processData.network_links].
    apply List.length_map.
  - intros i d l Hd Hl.
    unfold g, processData.getNetworkData in Hl. cbn [processData.network_links] in Hl.
    rewrite List.nth_error_map, Hd in Hl. injection Hl as <-.
    cbn [processData.link_value processData.link_source processData.link_target].
    change (fold_left processData.add_node ["Landfill"; "Recycling"; "Compost"]
              (fold_left (λ nodes d, processData.add_node nodes (MaterialType d))
                 (processData.yearData data year) [])) with nodes.
    split; [reflexivity|]. split; [|split].
    + apply index_of_member. apply Hin. left.
      apply List.in_map. exact (List.nth_error_In _ _ Hd).
    + apply index_of_member.
    + apply index_of_absent.
Qed.

Example legacy_reuse_link :
  processData.getNetworkData Examples.reuse_records (YInt 2024)
  = processData.mkNetwork ["Chair"; "Landfill"; "Recycling"; "Compost"]
      [processData.mkLink 0 (-1) (Num 5)].
Proof. vm_compute. reflexivity. Qed.

Lemma same_year_NaN (y : jsyear) : processData.same_year y YNaN = false.
Proof. destruct y; reflexivity. Qed.

Lemma same_year_is (y : Z) (d : WasteRecord) :
  processData.same_year (Year d) (YInt y) = of_year (YInt y) d.
Proof.
  rewrite <- year_is_of_year. destruct (Year d); reflexivity.
Qed.

(** X5.  For a year none of the records has, [processData] still returns
    the three category nodes, without links, and a composition whose three
    category nodes have no children.  The year [NaN] is such a year for any
    data: it equals no record's year, not even a [NaN] one. *)
Theorem legacy_year_without_records (data : list WasteRecord) (year : jsyear) :
  ((∀ d, In d data → processData.same_year (Year d) year = false) →
   processData.getNetworkData data year
   = processData.mkNetwork ["Landfill"; "Recycling"; "Compost"] []
   ∧ processData.getCompositionData data year
     = mkComposition "Total Waste"
         [ mkCategory "Landfill" []; mkCategory "Recycling" [];
           mkCategory "Compost" [] ])
  ∧ processData.yearData data YNaN = [].
Proof.
  split.
  - intros H.
    assert (Hnone : processData.yearData data year = [])
      by (apply filter_none; exact H).
    unfold processData.getNetworkData, processData.getCompositionData.
    rewrite Hnone. split; reflexivity.
  - apply filter_none. intros d _. apply same_year_NaN.
Qed.

Lemma filter_or_length {A : Type} (p q : A → bool) (l : list A) :
  (∀ x, In x l → p x = true → q x = false) →
  length (List.filter (λ x, p x || q x) l)
  = (length (List.filter p l) + length (List.filter q l))%nat.
Proof.
  induction l as [|x l IH]; intros H; simpl; [reflexivity|].
  assert (IH' := IH (λ y Hy, H y (or_intror Hy))).
  destruct (p x) eqn:Hp; simpl.
  - rewrite (H x (or_introl eq_refl) Hp). simpl. lia.
  - destruct (q x); simpl; lia.
Qed.

Lemma legacy_leaf_sum (data : list WasteRecord) (year : jsyear) :
  leaf_sum (processData.getCompositionData data year)
  == weight_where (λ d, processData.same_year (Year d) year && counted d) data.
Proof.
  unfold leaf_sum, leaves, processData.getCompositionData.
  cbn [root_children category_children List.map List.concat].
  rewrite List.app_nil_r, !List.map_app, !sumQ_app, !List.map_map.
  cbn [processData.leaf_of item_value].
  rewrite !(List.map_ext (λ x, exact (or_zero (Weight x))) weight_of)
    by (intros d; apply exact_or_zero).
  fold (weight_where (in_category "Landfill") (processData.yearData data year)).
  fold (weight_where (in_category "Recycle") (processData.yearData data year)).
  fold (weight_where (in_category "Compost") (processData.yearData data year)).
  unfold processData.yearData. rewrite !weight_where_filter.
  rewrite <- counted_split. lra.
Qed.

(** The leaves that [processData] makes of the records of one category,
    and the leaf that [prepareCompositionData] makes of them for a
    material. *)
Lemma legacy_leaves_added (yearData : list WasteRecord) (c : string) (i : Item) :
  Forall valid yearData →
  added
    (List.map item_value
       (List.filter (λ j, String.eqb (item_name j) (item_name i))
          (List.map processData.leaf_of (List.filter (in_category c) yearData))))
  = added (List.map Weight (leaf_records yearData c i)).
Proof.
  intros Hv. f_equal. rewrite filter_map_comm, List.map_map.
  cbn [processData.leaf_of item_name item_value].
  rewrite leaf_records_filter. apply List.map_ext_in.
  intros d Hd. apply gt0_or_zero.
  apply List.filter_In in Hd as [Hd _]. apply List.filter_In in Hd as [Hd _].
  rewrite List.Forall_forall in Hv. apply (Hv d Hd).
Qed.

(** X6.  The composition of [processData] has one leaf per record of the
    year whose category is "Landfill", "Recycle" or "Compost" (records of
    one material are not merged); a leaf carries its record's weight, so the
    leaf values add up exactly to the summed weight of these records.  For
    valid records and a year other than [0], [prepareCompositionData] has
    the same three category nodes, and each of its leaves carries the values
    of the [processData] leaves of the same node and name, added in order in
    double arithmetic. *)
Theorem legacy_composition_leaves (data : list WasteRecord) (year : jsyear) :
  length (leaves (processData.getCompositionData data year))
  = length (List.filter counted (processData.yearData data year))
  ∧ leaf_sum (processData.getCompositionData data year)
    == weight_where (λ d, processData.same_year (Year d) year && counted d) data
  ∧ ∀ y, year = YInt y → y ≠ 0%Z → Forall valid data →
      Forall2
        (λ old new,
           category_name old = category_name new
           ∧ ∀ i, In i (category_children new) →
               item_value i
               = added
                   (List.map item_value
                      (List.filter (λ j, String.eqb (item_name j) (item_name i))
                         (category_children old))))
        (root_children (processData.getCompositionData data year))
        (root_children (prepareCompositionData data (Some y))).
Proof.
  split; [|split].
  - unfold leaves, processData.getCompositionData.
    cbn [root_children category_children List.map List.concat].
    rewrite List.app_nil_r, !List.length_app, !List.length_map.
    unfold counted.
    rewrite (filter_or_length
               (λ d, in_category "Landfill" d || in_category "Recycle" d)).
    + rewrite filter_or_length; [lia|].
      intros d _ H. apply (in_category_disjoint "Landfill"); [discriminate | exact H].
    + intros d _ H. apply orb_true_iff in H as [H|H].
      * apply (in_category_disjoint "Landfill"); [discriminate | exact H].
      * apply (in_category_disjoint "Recycle"); [discriminate | exact H].
  - apply legacy_leaf_sum.
  - intros y -> Hy Hv.
    unfold processData.getCompositionData, prepareCompositionData.
    rewrite year_filter_selected.
    assert (Hyd : processData.yearData data (YInt y)
                  = List.filter (selected (Some y)) data).
    { unfold processData.yearData. apply List.filter_ext. intros d.
      rewrite same_year_is. unfold selected.
      rewrite (proj2 (Z.eqb_neq y 0) Hy). reflexivity. }
    rewrite Hyd. set (yearData := List.filter (selected (Some y)) data).
    assert (Hvy : Forall valid yearData) by (apply filter_valid, Hv).
    cbn [root_children List.map].
    repeat (constructor;
            [split; [reflexivity|]; cbn [category_children];
             intros i Hi; rewrite legacy_leaves_added by exact Hvy;
             eapply category_leaf_value; [exact Hvy | exact Hi]|]).
    constructor.
Qed.

(** ** The data effect of [App] *)

Lemma fold_max_ints (l : list jsyear) (a : Z) :
  Forall (λ y, ∃ z, y = YInt z) l →
  ∃ z, fold_left App.max_step l (App.MaxNum a) = App.MaxNum z
       ∧ (a <= z)%Z
       ∧ (z = a ∨ In (YInt z) l)
       ∧ ∀ z', In (YInt z') l → (z' <= z)%Z.
Proof.
  revert a. induction l as [|y l IH]; intros a Hl; simpl.
  - exists a. split; [reflexivity|]. split; [lia|]. split; [auto|]. intros z' [].
  - apply List.Forall_cons_iff in Hl as [(z0 & ->) Hl]. simpl.
    destruct (IH (Z.max a z0) Hl) as (z & Hz & Hle & Hin & Hmax).
    exists z. split; [exact Hz|]. split; [lia|]. split.
    + destruct Hin as [->|Hin]; [|right; right; exact Hin].
      destruct (Z.max_spec a z0) as [[_ ->]|[_ ->]]; auto.
    + intros z' [[= <-]|Hz']; [lia | apply Hmax, Hz'].
Qed.

Lemma math_max_ints (l : list jsyear) :
  l ≠ [] →
  Forall (λ y, ∃ z, y = YInt z) l →
  ∃ z, App.math_max l = App.MaxNum z
       ∧ In (YInt z) l
       ∧ ∀ z', In (YInt z') l → (z' <= z)%Z.
Proof.
  destruct l as [|y l]; [congruence|]. intros _ Hl.
  apply List.Forall_cons_iff in Hl as [(z0 & ->) Hl].
  destruct (fold_max_ints l z0 Hl) as (z & Hz & Hle & Hin & Hmax).
  exists z. split; [exact Hz|]. split.
  - destruct Hin as [->|Hin]; [left; reflexivity | right; exact Hin].
  - intros z' [[= <-]|Hz']; [exact Hle | apply Hmax, Hz'].
Qed.

(** X7.  When the load fails, or returns no valid row, [App] ends in the
    error state: no data, no selected year, not loading, and the message
    "Failed to load data. Please try again later." is what it renders.  An
    empty result is reported like a failure. *)
Theorem app_reports_empty_load_as_failure
    (parseInt : string → option Z) (parseFloat : string → jsnum)
    (csv : outcome (list RawRow)) :
  (∀ rows, csv = Fulfilled rows →
     List.filter keep (List.map (row_record parseInt parseFloat) rows) = []) →
  let s := App.fetchData (settled (loadWasteData parseInt parseFloat csv))
             App.initial in
  s = App.mkState None None false
        (Some "Failed to load data. Please try again later.")
  ∧ App.render s
    = App.ErrorMessage "Failed to load data. Please try again later.".
Proof.
  intros H. destruct csv as [rows|e]; simpl.
  - rewrite (H rows eq_refl). split; reflexivity.
  - split; reflexivity.
Qed.

Lemma app_reports_empty_load_as_failure_witness :
  App.render
    (App.fetchData
       (settled (loadWasteData Numeral.parseInt Numeral.parseFloat
                   (Fulfilled invalid_rows)))
       App.initial)
  = App.ErrorMessage "Failed to load data. Please try again later.".
Proof.
  apply (app_reports_empty_load_as_failure Numeral.parseInt Numeral.parseFloat
           (Fulfilled invalid_rows)).
  intros rows [= <-]. vm_compute. reflexivity.
Defined.

(** X8.  When the load returns at least one valid row, [App] renders the
    dashboard with the loaded records and selects the latest year: the
    selected year is the year of some record, no record has a later year,
    and the selection, passed to a builder as its year argument, selects at
    least one record. *)
Theorem app_selects_latest_year
    (parseInt : string → option Z) (parseFloat : string → jsnum)
    (rows : list RawRow) (out : list WasteRecord) :
  settled (loadWasteData parseInt parseFloat (Fulfilled rows)) = Fulfilled out →
  out ≠ [] →
  ∃ z,
    App.render (App.fetchData (Fulfilled out) App.initial)
    = App.Dashboard (Some out) (Some (App.MaxNum z))
    ∧ (∃ d, In d out ∧ Year d = YInt z)
    ∧ (∀ d, In d out → ∃ z', Year d = YInt z' ∧ (z' <= z)%Z)
    ∧ year_filter out (App.year_argument (Some (App.MaxNum z))) ≠ [].
Proof.
  intros [= <-] Hne.
  set (out := List.filter keep (List.map (row_record parseInt parseFloat) rows)) in *.
  assert (Hvalid : Forall valid out) by apply filter_keep_valid.
  rewrite List.Forall_forall in Hvalid.
  set (years := array_from_set (List.map Year out)).
  assert (Hyears : ∀ y, In y years ↔ In y (List.map Year out))
    by (intros y; apply array_from_set_In).
  destruct (math_max_ints years) as (z & Hz & Hin & Hmax).
  - destruct out as [|d0 out0] eqn:E; [congruence|].
    intros Hnil. assert (Hd0 : In (Year d0) years)
      by (apply Hyears; left; reflexivity).
    rewrite Hnil in Hd0. destruct Hd0.
  - apply List.Forall_forall. intros y Hy. apply Hyears in Hy.
    apply List.in_map_iff in Hy as (d & <- & Hd).
    destruct (Hvalid d Hd) as ((z & Hz & _) & _). exists z. exact Hz.
  - exists z.
    apply Hyears, List.in_map_iff in Hin as (d & Hd & Hdin).
    assert (Hz0 : z ≠ 0%Z).
    { destruct (Hvalid d Hdin) as ((z' & Hz' & Hne') & _). congruence. }
    split; [|split; [|split]].
    + unfold App.fetchData, App.render.
      destruct out as [|d0 out0] eqn:E; [congruence|].
      cbn [length Nat.eqb]. fold years. rewrite Hz. reflexivity.
    + exists d. auto.
    + intros d' Hd'. destruct (Hvalid d' Hd') as ((z' & Hz' & _) & _).
      exists z'. split; [exact Hz'|]. apply Hmax, Hyears.
      rewrite <- Hz'. apply List.in_map, Hd'.
    + cbn [App.year_argument]. rewrite year_filter_selected. intros Hnil.
      assert (Hsel : In d (List.filter (selected (Some z)) out)).
      { apply List.filter_In. split; [exact Hdin|]. unfold selected.
        rewrite (proj2 (Z.eqb_neq z 0) Hz0). apply bool_decide_eq_true_2, Hd. }
      rewrite Hnil in Hsel. destruct Hsel.
Qed.

Lemma app_selects_latest_year_witness :
  ∃ z,
    App.render
      (App.fetchData
         (Fulfilled
            (List.filter keep
               (List.map (row_record Numeral.parseInt Numeral.parseFloat)
                  Examples.bad_rows)))
         App.initial)
    = App.Dashboard
        (Some (List.filter keep
                 (List.map (row_record Numeral.parseInt Numeral.parseFloat)
                    Examples.bad_rows)))
        (Some (App.MaxNum z))
    ∧ z = 2023%Z.
Proof.
  destruct (app_selects_latest_year Numeral.parseInt Numeral.parseFloat
              Examples.bad_rows _ eq_refl)
    as (z & Hrender & (d & Hd & Hy) & _).
  - vm_compute. discriminate.
  - exists z. split; [exact Hrender|].
    vm_compute in Hd. destruct Hd as [<-|[]].
    vm_compute in Hy. congruence.
Defined.

(** ** The loader of [MaterialStreamGraph] *)

Lemma stream_row_record (parseInt : string → option Z)
    (parseFloat : string → jsnum) (row : RawRow) :
  MaterialStreamGraph.row_record parseInt parseFloat row
  = canonical (row_record parseInt parseFloat row).
Proof.
  unfold MaterialStreamGraph.row_record, row_record, canonical. simpl.
  f_equal. unfold recycling_alias.
  destruct (row !! "Category") as [c|]; reflexivity.
Qed.

Lemma alias_empty (c : string) :
  str_truthy (recycling_alias c) = str_truthy c.
Proof.
  unfold recycling_alias. destruct (String.eqb_spec c "Recycle") as [->|_]; reflexivity.
Qed.

Lemma keep_canonical (d : WasteRecord) : keep (canonical d) = keep d.
Proof. unfold keep, canonical. simpl. rewrite alias_empty. reflexivity. Qed.

Lemma stream_loaded (parseInt : string → option Z)
    (parseFloat : string → jsnum) (rows : list RawRow) :
  List.filter keep
    (List.map (MaterialStreamGraph.row_record parseInt parseFloat) rows)
  = List.map canonical
      (List.filter keep (List.map (row_record parseInt parseFloat) rows)).
Proof.
  rewrite (List.map_ext _ (λ row, canonical (row_record parseInt parseFloat row)))
    by (intros; apply stream_row_record).
  rewrite <- (List.map_map (row_record parseInt parseFloat) canonical).
  rewrite filter_map_comm. f_equal. apply List.filter_ext. apply keep_canonical.
Qed.

(** X9.  The loader of [MaterialStreamGraph] stores, for a CSV with at least
    one row, the records that [loadWasteData] returns for the same rows, with
    "Recycle" renamed to "Recycling" and without the [Day], [Vendor],
    [DateUpdated] and [Cost] fields; every stored record is valid and none
    has the category "Recycle".  After a failed load, or a CSV without rows,
    [rawData] is what it was.  In every case [isLoading] ends [false]. *)
Theorem stream_loader_renames_recycle
    (parseInt : string → option Z) (parseFloat : string → jsnum)
    (csv : outcome (list RawRow)) (s : MaterialStreamGraph.state) :
  let s' := fst (MaterialStreamGraph.loadCSVData parseInt parseFloat csv s) in
  MaterialStreamGraph.isLoading s' = false
  ∧ (∀ row rows, csv = Fulfilled (row :: rows) →
       MaterialStreamGraph.rawData s'
       = List.map canonical
           (List.filter keep
              (List.map (row_record parseInt parseFloat) (row :: rows)))
       ∧ ∀ d, In d (MaterialStreamGraph.rawData s') →
              valid d ∧ Category d ≠ "Recycle")
  ∧ ((csv = Fulfilled [] ∨ ∃ e, csv = Rejected e) →
       MaterialStreamGraph.rawData s' = MaterialStreamGraph.rawData s).
Proof.
  cbn zeta. split; [destruct csv as [[|r rs]|e]; reflexivity|]. split.
  - intros row rows ->. unfold MaterialStreamGraph.loadCSVData.
    cbn [length Nat.ltb Nat.leb fst MaterialStreamGraph.rawData].
    rewrite stream_loaded. split; [reflexivity|].
    intros d Hd. apply List.in_map_iff in Hd as (d0 & <- & Hd0). split.
    + apply keep_valid. rewrite keep_canonical.
      apply List.filter_In in Hd0. apply Hd0.
    + apply alias_not_recycle.
  - intros [->|(e & ->)]; reflexivity.
Qed.

Lemma alias_is_recycling (d : WasteRecord) :
  String.eqb (Category (canonical d)) "Recycling" = recycle_spelled d.
Proof.
  unfold canonical, recycle_spelled, recycling_alias. simpl.
  destruct (String.eqb_spec (Category d) "Recycle") as [_|_]; reflexivity.
Qed.

(** X10.  On the records the stream graph's loader stores, the category
    filter "Recycling" selects the records of the rows spelled "Recycle" or
    "Recycling"; the filter "Recycle" selects nothing; "all" selects every
    record. *)
Theorem stream_filter_recycling
    (parseInt : string → option Z) (parseFloat : string → jsnum)
    (rows : list RawRow) :
  let loaded := List.filter keep (List.map (row_record parseInt parseFloat) rows) in
  let rawData :=
    List.filter keep
      (List.map (MaterialStreamGraph.row_record parseInt parseFloat) rows) in
  MaterialStreamGraph.filteredData rawData "Recycling"
  = List.map canonical (List.filter recycle_spelled loaded)
  ∧ MaterialStreamGraph.filteredData rawData "Recycle" = []
  ∧ MaterialStreamGraph.filteredData rawData "all" = rawData.
Proof.
  cbn zeta. rewrite stream_loaded. unfold MaterialStreamGraph.filteredData.
  cbn [String.eqb Ascii.eqb Bool.eqb]. split; [|split; [|reflexivity]].
  - rewrite filter_map_comm. f_equal. apply List.filter_ext.
    intros d. apply alias_is_recycling.
  - apply filter_none. intros d Hd. apply List.in_map_iff in Hd as (d0 & <- & _).
    apply String.eqb_neq, alias_not_recycle.
Qed.

(** ** The nodes and links of [WasteCategoryChart] *)

Lemma array_from_set_snoc {A : Type} `{EqDecision A} (l : list A) (x : A) :
  array_from_set (l ++ [x])
  = if bool_decide (x ∈ array_from_set l) then array_from_set l
    else array_from_set l ++ [x].
Proof. unfold array_from_set. rewrite List.fold_left_app. reflexivity. Qed.

(** A set made from a list lists the distinct values in order of first
    occurrence. *)
Lemma array_from_set_first_seen {A : Type} `{EqDecision A} (l : list A) :
  array_from_set l = first_seen l.
Proof.
  induction l as [|x l IH] using List.rev_ind; [reflexivity|].
  rewrite array_from_set_snoc, first_seen_snoc, IH.
  destruct (bool_decide (x ∈ l)) eqn:E.
  - apply bool_decide_eq_true_1 in E.
    rewrite bool_decide_eq_true_2; [reflexivity|].
    apply list_elem_of_In, first_seen_In, list_elem_of_In, E.
  - apply bool_decide_eq_false_1 in E.
    rewrite bool_decide_eq_false_2; [reflexivity|].
    intros H. apply E. apply list_elem_of_In, first_seen_In, list_elem_of_In, H.
Qed.

Lemma chart_links_In (data : list WasteRecord) (l : WasteCategoryChart.Link) :
  In l (WasteCategoryChart.links data) ↔
  (∃ d, In d data
        ∧ MaterialType d = WasteCategoryChart.link_source l
        ∧ WasteCategoryChart.shown d = WasteCategoryChart.link_target l)
  ∧ WasteCategoryChart.link_value l
    = d3.sum
        (List.filter
           (λ d, bool_decide
                   (WasteCategoryChart.shown d = WasteCategoryChart.link_target l))
           (List.filter
              (WasteCategoryChart.of_material_type
                 (WasteCategoryChart.link_source l)) data))
        Weight.
Proof.
  unfold WasteCategoryChart.links, WasteCategoryChart.materialTypes,
    WasteCategoryChart.categoryTotals, d3.rollup.
  rewrite List.in_flat_map. split.
  - intros (m & Hm & Hl). rewrite List.map_map in Hl.
    apply List.in_map_iff in Hl as (g & <- & Hg).
    rewrite group_spec in Hg. apply List.in_map_iff in Hg as (c & <- & Hc).
    rewrite first_seen_In in Hc. apply List.in_map_iff in Hc as (d & Hdc & Hd).
    apply List.filter_In in Hd as [Hd Hdm].
    apply String.eqb_eq in Hdm.
    cbn [WasteCategoryChart.link_source WasteCategoryChart.link_target
         WasteCategoryChart.link_value members_of fst snd].
    split; [|reflexivity]. exists d. auto.
  - intros ((d & Hd & Hm & Hc) & Hv). destruct l as [m c v]. simpl in *.
    subst m c. exists (MaterialType d). split.
    + apply array_from_set_In. apply (List.in_map MaterialType), Hd.
    + rewrite List.map_map. apply List.in_map_iff.
      exists (members_of WasteCategoryChart.shown
                (List.filter (WasteCategoryChart.of_material_type (MaterialType d))
                   data)
                (WasteCategoryChart.shown d)).
      split.
      * cbn [members_of fst snd]. rewrite Hv. reflexivity.
      * rewrite group_spec. apply List.in_map, first_seen_In.
        apply (List.in_map WasteCategoryChart.shown).
        apply List.filter_In. split; [exact Hd | apply String.eqb_refl].
Qed.

Lemma chart_links_pairs (data : list WasteRecord) :
  List.NoDup
    (List.map
       (λ l, (WasteCategoryChart.link_source l, WasteCategoryChart.link_target l))
       (WasteCategoryChart.links data)).
Proof.
  unfold WasteCategoryChart.links. rewrite map_flat_map.
  apply NoDup_flat_map.
  - apply array_from_set_NoDup.
  - intros m _. rewrite List.map_map.
    cbn [WasteCategoryChart.link_source WasteCategoryChart.link_target].
    unfold WasteCategoryChart.categoryTotals, d3.rollup. rewrite List.map_map.
    cbn [fst]. apply NoDup_map_on; [|apply group_NoDup].
    intros g1 g2 H1 H2 [= Heq]. exact (group_by_key _ _ _ _ H1 H2 Heq).
  - intros m1 m2 p _ _ H1 H2. rewrite List.map_map in H1, H2.
    apply List.in_map_iff in H1 as (e1 & <- & _).
    apply List.in_map_iff in H2 as (e2 & [= Heq _] & _).
    symmetry. exact Heq.
Qed.

Lemma chart_links_cover (data : list WasteRecord) (d : WasteRecord) :
  In d data →
  ∃ l, In l (WasteCategoryChart.links data)
       ∧ WasteCategoryChart.link_source l = MaterialType d
       ∧ WasteCategoryChart.link_target l = recycling_alias (Category d).
Proof.
  intros Hd.
  exists (WasteCategoryChart.mkLink (MaterialType d) (recycling_alias (Category d))
            (d3.sum
               (List.filter
                  (λ r, bool_decide
                          (WasteCategoryChart.shown r = recycling_alias (Category d)))
                  (List.filter
                     (WasteCategoryChart.of_material_type (MaterialType d)) data))
               Weight)).
  split; [|split; reflexivity]. apply chart_links_In.
  split; [|reflexivity]. exists d. auto.
Qed.

Lemma pair_filter (data : list WasteRecord) (m c : string) :
  List.filter (λ d, of_material m d && shown_as c d) data
  = List.filter
      (λ d, bool_decide ((MaterialType d, WasteCategoryChart.shown d) = (m, c)))
      data.
Proof.
  apply List.filter_ext. intros d.
  unfold of_material, shown_as, WasteCategoryChart.shown.
  rewrite !eqb_bool_decide.
  destruct (decide (MaterialType d = m)) as [Hm|Hm];
    destruct (decide (recycling_alias (Category d) = c)) as [Hc|Hc];
    rewrite ?(bool_decide_eq_true_2 _ Hm), ?(bool_decide_eq_false_2 _ Hm),
      ?(bool_decide_eq_true_2 _ Hc), ?(bool_decide_eq_false_2 _ Hc); simpl;
    symmetry;
    first [ apply bool_decide_eq_true_2; congruence
          | apply bool_decide_eq_false_2; congruence ].
Qed.

(** X11.  [WasteCategoryChart] builds exactly one link per distinct
    (material, category) pair of its records ("Recycle" read as "Recycling"):
    the pairs of the links are pairwise different, every record's pair has
    its link, and every link is the link of some record.  For valid records
    a link's value is the sum of the weights of the records of its pair,
    added in record order in double arithmetic. *)
Theorem chart_one_link_per_pair (data : list WasteRecord) :
  List.NoDup
    (List.map
       (λ l, (WasteCategoryChart.link_source l, WasteCategoryChart.link_target l))
       (WasteCategoryChart.links data))
  ∧ (∀ d, In d data →
       ∃ l, In l (WasteCategoryChart.links data)
            ∧ WasteCategoryChart.link_source l = MaterialType d
            ∧ WasteCategoryChart.link_target l = recycling_alias (Category d))
  ∧ (∀ l, In l (WasteCategoryChart.links data) →
       (∃ d, In d data
             ∧ MaterialType d = WasteCategoryChart.link_source l
             ∧ recycling_alias (Category d) = WasteCategoryChart.link_target l)
       ∧ (Forall valid data →
          WasteCategoryChart.link_value l
          = added_where
              (λ d, of_material (WasteCategoryChart.link_source l) d
                    && shown_as (WasteCategoryChart.link_target l) d)
              data)).
Proof.
  split; [apply chart_links_pairs|]. split; [apply chart_links_cover|].
  intros l Hl. apply chart_links_In in Hl as [Hd Hval]. split; [exact Hd|].
  intros Hv. rewrite Hval, sum_weight by (apply filter_valid, filter_valid, Hv).
  unfold added_where. f_equal. f_equal.
  rewrite filter_filter_and. apply List.filter_ext.
  intros d. unfold WasteCategoryChart.of_material_type, of_material, shown_as,
    WasteCategoryChart.shown.
  rewrite (eqb_bool_decide (recycling_alias (Category d))). reflexivity.
Qed.

(** X12.  [WasteCategoryChart] counts every record once in each of its
    three kinds of value: the groups of the category nodes (the records
    shown under the node's name), the groups of the material nodes (the
    records of the node's material) and the groups of the links (the records
    of the link's material and category) each make up the records.  For
    valid records the value of a node is the sum of the weights of its
    group, added in record order in double arithmetic. *)
Theorem chart_counts_each_record_once (data : list WasteRecord) :
  partition_of (λ c, List.filter (shown_as c) data)
    (WasteCategoryChart.categories data) data
  ∧ partition_of (λ m, List.filter (of_material m) data)
      (WasteCategoryChart.materialTypes data) data
  ∧ partition_of
      (λ l, List.filter
              (λ d, of_material (WasteCategoryChart.link_source l) d
                    && shown_as (WasteCategoryChart.link_target l) d)
              data)
      (WasteCategoryChart.links data) data
  ∧ (Forall valid data →
     ∀ n, In n (WasteCategoryChart.nodes data) →
       WasteCategoryChart.node_value n
       = added_where
           (match WasteCategoryChart.node_type n with
            | category => shown_as (WasteCategoryChart.id n)
            | material => of_material (WasteCategoryChart.id n)
            end)
           data).
Proof.
  split; [|split; [|split]].
  - unfold partition_of, WasteCategoryChart.categories.
    rewrite array_from_set_first_seen.
    transitivity
      (List.flat_map
         (λ k, List.filter (λ v, bool_decide (WasteCategoryChart.shown v = k)) data)
         (first_seen (List.map WasteCategoryChart.shown data)));
      [|apply members_partition].
    apply Permutation_refl'. apply List.flat_map_ext. intros c.
    apply List.filter_ext. intros d. apply eqb_bool_decide.
  - unfold partition_of, WasteCategoryChart.materialTypes.
    rewrite array_from_set_first_seen. apply materials_partition.
  - unfold partition_of.
    rewrite (List.flat_map_ext _
               (λ l, List.filter
                       (λ d, bool_decide
                               ((MaterialType d, WasteCategoryChart.shown d)
                                = (WasteCategoryChart.link_source l,
                                   WasteCategoryChart.link_target l)))
                       data))
      by (intros l; apply pair_filter).
    rewrite <- (flat_map_map
                  (λ l, (WasteCategoryChart.link_source l,
                         WasteCategoryChart.link_target l))
                  (λ k, List.filter
                          (λ d, bool_decide
                                  ((MaterialType d, WasteCategoryChart.shown d) = k))
                          data)).
    apply (keys_partition (λ d, (MaterialType d, WasteCategoryChart.shown d)));
      [apply chart_links_pairs|].
    intros d Hd. destruct (chart_links_cover data d Hd) as (l & Hl & Hs & Ht).
    apply List.in_map_iff. exists l. split; [|exact Hl].
    unfold WasteCategoryChart.shown. rewrite Hs, Ht. reflexivity.
  - intros Hv n Hn. unfold WasteCategoryChart.nodes in Hn.
    apply List.in_app_iff in Hn as [Hn|Hn];
      apply List.in_map_iff in Hn as (name & <- & _);
      cbn [WasteCategoryChart.category_node WasteCategoryChart.material_node
           WasteCategoryChart.node_value WasteCategoryChart.node_type
           WasteCategoryChart.id];
      apply sum_weight, filter_valid, Hv.
Qed.

(** The value of a node is rounded: weights 0.1 and 0.2 give
    0.30000000000000004. *)
Example chart_rounds :
  List.map WasteCategoryChart.node_value
    (WasteCategoryChart.nodes Examples.two_tenths)
  = [Num 0.30000000000000004; Num 0.30000000000000004]
  ∧ List.map WasteCategoryChart.link_value
      (WasteCategoryChart.links Examples.two_tenths)
    = [Num 0.30000000000000004].
Proof. split; vm_compute; reflexivity. Qed.

(** X13.  The "no data" guard of [WasteCategoryChart] fires only for a
    missing array: for every array, the empty one included, the graph is
    drawn ([!actualData.length === 0] compares a boolean with a number and is
    never true); for the empty array it is the graph without nodes and
    links. *)
Theorem chart_guard_passes_every_array (actualData : list WasteRecord) :
  WasteCategoryChart.draw (Some actualData)
  = WasteCategoryChart.Graph (WasteCategoryChart.nodes actualData)
      (WasteCategoryChart.links actualData)
  ∧ WasteCategoryChart.draw (Some []) = WasteCategoryChart.Graph [] []
  ∧ WasteCategoryChart.draw None = WasteCategoryChart.NoDataMessage.
Proof. repeat split. Qed.

(** ** More on the loaders *)

(** X14.  The loader drops no valid row: a row whose year parses to an
    integer other than [0], whose category is not empty and whose weight
    parses to a number above [0] has its record in the output, with the
    parsed year and weight and the category as given. *)
Theorem loader_keeps_valid_rows
    (parseInt : string → option Z) (parseFloat : string → jsnum)
    (rows : list RawRow) (row : RawRow) (y c w : string) (z : Z) (q : jsnum) :
  In row rows →
  row !! "Year" = Some y → y ≠ EmptyString → parseInt y = Some z → z ≠ 0%Z →
  row !! "Category" = Some c → c ≠ EmptyString →
  row !! "Weight (lbs)" = Some w → w ≠ EmptyString →
  parseFloat (remove_commas w) = q → gt0 q = true →
  ∃ out d,
    settled (loadWasteData parseInt parseFloat (Fulfilled rows)) = Fulfilled out
    ∧ In d out
    ∧ d = row_record parseInt parseFloat row
    ∧ Year d = YInt z ∧ Category d = c ∧ Weight d = q.
Proof.
  intros Hrow Hy Hy0 Hz Hz0 Hc Hc0 Hw Hw0 Hq Hpos.
  assert (Hyear : Year (row_record parseInt parseFloat row) = YInt z).
  { simpl. rewrite Hy. simpl.
    rewrite (proj2 (str_truthy_spec y) Hy0), Hz. reflexivity. }
  assert (Hcat : Category (row_record parseInt parseFloat row) = c)
    by (simpl; rewrite Hc; reflexivity).
  assert (Hweight : Weight (row_record parseInt parseFloat row) = q).
  { simpl. unfold row_weight. rewrite Hw.
    rewrite (proj2 (str_truthy_spec w) Hw0), Hq.
    unfold nan_to_zero. rewrite (gt0_number q Hpos). reflexivity. }
  eexists. exists (row_record parseInt parseFloat row).
  split; [reflexivity|]. split.
  - apply List.filter_In. split; [apply List.in_map, Hrow|].
    apply keep_valid. unfold valid. rewrite Hyear, Hcat, Hweight.
    split; [eauto|]. split; [exact Hc0 | exact Hpos].
  - auto.
Qed.

Lemma loader_keeps_valid_rows_witness :
  ∃ out d,
    settled (loadWasteData Numeral.parseInt Numeral.parseFloat
               (Fulfilled Examples.paper_rows)) = Fulfilled out
    ∧ In d out
    ∧ d = row_record Numeral.parseInt Numeral.parseFloat
            (Examples.row "2024" "Recycle" "Paper" "1,000")
    ∧ Year d = YInt 2024 ∧ Category d = "Recycle" ∧ Weight d = Num 1000.
Proof.
  apply (loader_keeps_valid_rows Numeral.parseInt Numeral.parseFloat
           Examples.paper_rows (Examples.row "2024" "Recycle" "Paper" "1,000")
           "2024" "Recycle" "1,000" 2024 (Num 1000));
    first [ left; reflexivity | discriminate | vm_compute; reflexivity ].
Defined.

Lemma gt0_nan_to_zero (w : jsnum) : gt0 (nan_to_zero w) = gt0 w.
Proof. destruct w; reflexivity. Qed.

Lemma filter_map_agree {A B : Type} (p : B → bool) (f g : A → B) (l : list A) :
  (∀ x, In x l → f x = g x ∨ (p (f x) = false ∧ p (g x) = false)) →
  List.filter p (List.map f l) = List.filter p (List.map g l).
Proof.
  induction l as [|x l IH]; intros H; simpl; [reflexivity|].
  rewrite IH by (intros y Hy; apply H; right; exact Hy).
  destruct (H x (or_introl eq_refl)) as [->|[-> ->]]; reflexivity.
Qed.

(** X15.  The two loaders agree: provided ["0"] does not parse to a number
    above [0], the records that the CSV callback of [wasteData.js] assigns
    are the records [loadWasteData] returns for the same rows (where
    [parseWeight] leaves a [NaN] and [loadWasteData] a [0], the row is
    dropped by both). *)
Theorem loaders_agree
    (parseInt : string → option Z) (parseFloat : string → jsnum)
    (rows : list RawRow) :
  gt0 (parseFloat "0") = false →
  settled (loadWasteData parseInt parseFloat (Fulfilled rows))
  = Fulfilled (csv_loaded parseInt parseFloat rows).
Proof.
  intros Hzero. simpl. f_equal. unfold csv_loaded.
  apply filter_map_agree. intros row _.
  assert (Hcase :
    Weight (row_record parseInt parseFloat row)
    = Weight (csv_record parseInt parseFloat row)
    ∨ (gt0 (Weight (row_record parseInt parseFloat row)) = false
       ∧ gt0 (Weight (csv_record parseInt parseFloat row)) = false)).
  { simpl. unfold row_weight, parseWeight.
    destruct (row !! "Weight (lbs)") as [s|].
    - destruct (str_truthy s).
      + destruct (parseFloat (remove_commas s)) as [n|n| |n m k];
          [left|left|right|left]; auto.
      + right. rewrite gt0_nan_to_zero. change (remove_commas "0") with "0".
        split; [exact Hzero | reflexivity].
    - right. rewrite gt0_nan_to_zero. change (remove_commas "0") with "0".
      split; [exact Hzero | reflexivity]. }
  destruct Hcase as [Heq|[H1 H2]].
  - left. unfold row_record, csv_record in *. simpl in Heq. rewrite Heq.
    reflexivity.
  - right. unfold keep. rewrite H1, H2, !andb_false_r. split; reflexivity.
Qed.

Lemma loaders_agree_witness :
  settled (loadWasteData Numeral.parseInt Numeral.parseFloat
             (Fulfilled Examples.bad_rows))
  = Fulfilled (csv_loaded Numeral.parseInt Numeral.parseFloat Examples.bad_rows).
Proof.
  apply (loaders_agree Numeral.parseInt Numeral.parseFloat Examples.bad_rows).
  vm_compute. reflexivity.
Defined.

(** ** Order of the time series *)

Section SortByLe.
Context {A : Type} (cmp : A → A → jsnum) (le : A → A → Prop).
Hypothesis le_trans : ∀ a b c, le a b → le b c → le a c.

Lemma sort_insert_sorted (x : A) (l : list A) :
  (∀ y, In y l → cmp_decides cmp le x y) →
  StronglySorted le l → StronglySorted le (sort_insert cmp x l).
Proof.
  induction l as [|y l IH]; intros Hcmp Hs; simpl.
  - constructor; constructor.
  - apply StronglySorted_inv in Hs as [Hs Hy].
    destruct (Hcmp y (or_introl eq_refl)) as [Hle Hgt].
    destruct (not_after (cmp x y)).
    + constructor; [constructor; assumption|].
      constructor; [auto|].
      rewrite List.Forall_forall in *. intros z Hz.
      apply (le_trans _ y); [auto | apply Hy, Hz].
    + constructor.
      * apply IH; [intros z Hz; apply Hcmp; right; exact Hz | exact Hs].
      * eapply Permutation_Forall; [symmetry; apply sort_insert_perm|].
        constructor; [auto | exact Hy].
Qed.

Lemma sort_sorted (l : list A) :
  (∀ x y, In x l → In y l → cmp_decides cmp le x y) →
  StronglySorted le (sort cmp l).
Proof.
  induction l as [|x l IH]; intros Hcmp; simpl; [constructor|].
  apply sort_insert_sorted.
  - intros y Hy. apply Hcmp; [left; reflexivity|].
    right. apply (sort_In cmp l y), Hy.
  - apply IH. intros y z Hy Hz. apply Hcmp; right; assumption.
Qed.
End SortByLe.

Lemma StronglySorted_distinct {A B : Type} (R : A → A → Prop) (f : A → B)
    (l : list A) :
  StronglySorted R l → List.NoDup (List.map f l) →
  StronglySorted (λ a b, R a b ∧ f a ≠ f b) l.
Proof.
  induction 1 as [|x l Hs IH Hx]; intros Hnd; [constructor|].
  simpl in Hnd. apply List.NoDup_cons_iff in Hnd as [Hnotin Hnd].
  constructor; [apply IH, Hnd|].
  rewrite List.Forall_forall in *. intros y Hy. split; [apply Hx, Hy|].
  intros Heq. apply Hnotin. rewrite Heq. apply List.in_map, Hy.
Qed.

Lemma year_minus_not_after (a b : Z) :
  not_after (minus (year_num (YInt a)) (year_num (YInt b))) = (a <=? b)%Z.
Proof.
  unfold not_after. cbn [year_num]. rewrite minus_gt0, integer_lt.
  symmetry. apply Z.leb_antisym.
Qed.

(** X16.  When every record's year is a number, the time series is in
    strictly ascending order of year and has exactly one entry per distinct
    year of the records. *)
Theorem time_series_ascending (data : list WasteRecord) :
  Forall (λ d, numeric_year (Year d)) data →
  ∃ years : list Z,
    List.map year (prepareTimeSeriesData data) = List.map YInt years
    ∧ StronglySorted Z.lt years
    ∧ ∀ z, In z years ↔ ∃ d, In d data ∧ Year d = YInt z.
Proof.
  intros Hnum. rewrite List.Forall_forall in Hnum.
  assert (Hyears : ∀ t, In t (prepareTimeSeriesData data) →
                        year t = YInt (year_Z (year t))).
  { intros t Ht. apply timeseries_entries in Ht as (y & Hy & ->).
    apply List.in_map_iff in Hy as (d & <- & Hd).
    destruct (Hnum d Hd) as (z & Hz). simpl. rewrite Hz. reflexivity. }
  exists (List.map (λ t, year_Z (year t)) (prepareTimeSeriesData data)).
  split; [|split].
  - rewrite List.map_map. apply List.map_ext_in. exact Hyears.
  - apply StronglySorted_map.
    apply (StronglySorted_impl_in
             (λ a b, (year_Z (year a) <= year_Z (year b))%Z ∧ year a ≠ year b)).
    + intros a b Ha Hb [Hle Hne].
      rewrite (Hyears a Ha), (Hyears b Hb) in Hne.
      assert (year_Z (year a) ≠ year_Z (year b)) by congruence. lia.
    + apply StronglySorted_distinct.
      * unfold prepareTimeSeriesData. apply sort_sorted; [intros; lia|].
        intros a b Ha Hb.
        assert (Ha' : In a (prepareTimeSeriesData data))
          by (apply sort_In; exact Ha).
        assert (Hb' : In b (prepareTimeSeriesData data))
          by (apply sort_In; exact Hb).
        unfold cmp_decides.
        rewrite (Hyears a Ha'), (Hyears b Hb'), year_minus_not_after.
        cbn [year_Z]. split; intros H; [apply Z.leb_le in H|apply Z.leb_gt in H]; lia.
      * apply (Permutation_NoDup (l := first_seen (List.map Year data)));
          [symmetry; apply timeseries_years | apply first_seen_NoDup].
  - intros z. rewrite List.in_map_iff. split.
    + intros (t & <- & Ht). rewrite <- (Hyears t Ht).
      apply timeseries_entries in Ht as (y & Hy & ->).
      apply List.in_map_iff in Hy as (d & <- & Hd). exists d. auto.
    + intros (d & Hd & Hy).
      exists (year_entry (members_of Year data (Year d))). split.
      * simpl. rewrite Hy. reflexivity.
      * apply timeseries_year_present, Hd.
Qed.

Lemma time_series_ascending_witness :
  List.map year (prepareTimeSeriesData Examples.recycle_records)
  = [YInt 2023; YInt 2024].
Proof.
  destruct (time_series_ascending Examples.recycle_records)
    as (years & Hmap & _ & _).
  - repeat constructor; eexists; reflexivity.
  - rewrite Hmap. vm_compute in Hmap.
    destruct years as [|a [|b [|c years]]]; try discriminate Hmap.
    injection Hmap as <- <-. reflexivity.
Defined.

(** ** More on the graph builder *)

(** X17.  The nodes of the graph are the distinct categories of the selected
    records ("Recycle" shown as "Recycling"), in order of first appearance,
    followed by their distinct material types, in order of first appearance;
    the graph has no node exactly when no record is selected. *)
Theorem network_nodes_by_first_appearance
    (data : list WasteRecord) (selection : option Z) :
  let yearData := List.filter (selected selection) data in
  nodes (prepareNetworkData data selection)
  = List.map (λ n, mkNode n category)
      (first_seen (List.map (λ d, recycling_alias (Category d)) yearData))
    ++ List.map (λ n, mkNode n material)
         (first_seen (List.map MaterialType yearData))
  ∧ (nodes (prepareNetworkData data selection) = [] ↔ yearData = []).
Proof.
  cbn zeta. rewrite network_nodes. cbn zeta.
  rewrite !array_from_set_first_seen. split; [reflexivity|].
  destruct (List.filter (selected selection) data) as [|d yd]; simpl.
  - tauto.
  - split; discriminate.
Qed.

Lemma node_index_category (cats mats : list string) (name : string) :
  In name cats →
  let nodes := List.map (λ n, mkNode n category) cats
               ++ List.map (λ n, mkNode n material) mats in
  nth_error nodes (Z.to_nat (node_index nodes name)) = Some (mkNode name category)
  ∧ (0 <= node_index nodes name)%Z.
Proof.
  intros Hin. cbn zeta. unfold node_index.
  destruct (findIndex_found (λ node, String.eqb (node_name node) name)
              (List.map (λ n, mkNode n category) cats)
              (List.map (λ n, mkNode n material) mats))
    as (y & Hy & Hp & Hpos).
  { exists (mkNode name category). split.
    - apply (List.in_map (λ n, mkNode n category)), Hin.
    - apply String.eqb_refl. }
  split; [|exact Hpos].
  rewrite List.nth_error_app1 by (apply List.nth_error_Some; congruence).
  rewrite Hy. f_equal.
  apply List.nth_error_In, List.in_map_iff in Hy as (c & <- & _).
  apply String.eqb_eq in Hp. simpl in Hp. rewrite Hp. reflexivity.
Qed.

(** X18.  A link of the graph is a self-loop (source index = target index)
    exactly when the record's material type is named like its category; and
    whenever the material type is named like a category of the selected
    records, the link's source is that category node, not the material
    node. *)
Theorem network_self_loops (data : list WasteRecord) (selection : option Z) :
  let yearData := List.filter (selected selection) data in
  let g := prepareNetworkData data selection in
  ∀ l, In l (links g) →
    (source l = target l ↔ sourceName l = targetName l)
    ∧ ((∃ d, In d yearData ∧ recycling_alias (Category d) = sourceName l) →
       nth_error (nodes g) (Z.to_nat (source l))
       = Some (mkNode (sourceName l) category)).
Proof.
  intros yearData g l Hl. subst g.
  rewrite network_links in Hl. apply List.in_map_iff in Hl as (d & <- & Hd).
  destruct (link_endpoints data selection d Hd)
    as [[Htarget _] (n & Hsource & Hname & _)].
  cbn zeta in Htarget, Hsource, Hname.
  split; [split|].
  - intros Heq. rewrite Heq, Htarget in Hsource. injection Hsource as <-.
    symmetry. exact Hname.
  - intros Heq. unfold link_of in *.
    cbn [source target sourceName targetName] in *. rewrite Heq. reflexivity.
  - intros (d' & Hd' & Hshown).
    unfold link_of in *. cbn [source sourceName] in *.
    rewrite network_nodes. cbn zeta.
    apply node_index_category. apply array_from_set_In.
    rewrite <- Hshown. apply (List.in_map (λ d, recycling_alias (Category d))), Hd'.
Qed.

Lemma network_self_loops_witness :
  (source (mkLink 0 0 (Num 8) "Compost" "Compost")
   = target (mkLink 0 0 (Num 8) "Compost" "Compost")
   ↔ sourceName (mkLink 0 0 (Num 8) "Compost" "Compost")
     = targetName (mkLink 0 0 (Num 8) "Compost" "Compost"))
  ∧ In (mkLink 0 0 (Num 8) "Compost" "Compost")
      (links (prepareNetworkData compost_records None)).
Proof.
  assert (Hin : In (mkLink 0 0 (Num 8) "Compost" "Compost")
                  (links (prepareNetworkData compost_records None)))
    by (vm_compute; auto).
  split; [|exact Hin].
  apply (network_self_loops compost_records None _ Hin).
Defined.

Example compost_self_loop :
  List.map (λ l, (source l, target l))
    (links (prepareNetworkData compost_records None))
  = [(0%Z, 0%Z); (3%Z, 1%Z)].
Proof. vm_compute. reflexivity. Qed.

(** ** The leaves of the hierarchy and the shares of the distribution *)

Lemma category_node_leaves (yearData : list WasteRecord) (label c : string) :
  Forall valid yearData →
  leaves_of_category (List.filter (in_category c) yearData)
    (category_children (category_node (label, material_totals yearData c))).
Proof.
  intros Hv. unfold leaves_of_category.
  set (cd := List.filter (in_category c) yearData).
  assert (Hcd : Forall valid cd) by (apply filter_valid, Hv).
  split; [|split; [apply category_node_names|split; [|split]]].
  - rewrite (category_children_spec yearData label c Hv). cbn zeta. fold cd.
    apply (sort_ranked item_value).
    + apply List.Forall_forall. intros i Hi.
      apply List.in_map_iff in Hi as (m & <- & Hm). cbn [item_value].
      apply gt0_number, material_positive; [exact Hcd | apply first_seen_In, Hm].
    + apply StronglySorted_map. cbn [item_name]. apply first_seen_sorted.
  - intros i Hi. rewrite (category_children_spec yearData label c Hv) in Hi.
    cbn zeta in Hi. fold cd in Hi.
    apply sort_In, List.in_map_iff in Hi as (m & <- & Hm). cbn [item_value item_name].
    split; [|reflexivity].
    apply material_positive; [exact Hcd | apply first_seen_In, Hm].
  - intros d Hd. apply List.filter_In in Hd as [Hd Hc].
    apply (category_leaf_of yearData label c d Hv Hd Hc).
  - intros i Hi.
    destruct (category_leaf_material yearData label c i Hv Hi) as (d & Hd & Hc & Hm).
    exists d. split; [apply List.filter_In; auto | exact Hm].
Qed.

(** X19.  For valid records, the three category nodes of the hierarchy are
    named "Landfill", "Recycling" and "Compost" and are built from the
    selected records of category "Landfill", "Recycle" and "Compost".  Under
    each, there is one leaf per material of these records; the leaf carries
    the weights of the material's records, added in record order in double
    arithmetic, a number above [0]; and the leaves are in descending order of
    value, leaves of equal value in order of first appearance of their
    material. *)
Theorem hierarchy_leaves_ranked (data : list WasteRecord) (selection : option Z) :
  Forall valid data →
  let yearData := List.filter (selected selection) data in
  Forall2
    (λ node lc,
       category_name node = fst lc
       ∧ leaves_of_category (List.filter (in_category (snd lc)) yearData)
           (category_children node))
    (root_children (prepareCompositionData data selection))
    [ ("Landfill", "Landfill"); ("Recycling", "Recycle"); ("Compost", "Compost") ].
Proof.
  intros Hv. cbn zeta. unfold prepareCompositionData. rewrite year_filter_selected.
  cbn [root_children List.map].
  repeat (constructor;
          [split; [reflexivity | apply category_node_leaves, filter_valid, Hv]|]).
  constructor.
Qed.

Lemma hierarchy_leaves_ranked_witness :
  ∃ node,
    root_children (prepareCompositionData Examples.tenths None)
    = [ node; mkCategory "Recycling" []; mkCategory "Compost" [] ]
    ∧ category_children node
      = [mkItem "A" (Num 0.6000000000000001); mkItem "B" (Num 0.6)]
    ∧ leaves_of_category
        (List.filter (in_category "Landfill")
           (List.filter (selected None) Examples.tenths))
        (category_children node).
Proof.
  assert (H := hierarchy_leaves_ranked Examples.tenths None
                 (keep_all_valid Examples.tenths eq_refl)).
  cbn zeta in H. inversion H as [|node lc nodes lcs [_ Hleaves] _]; subst.
  eexists. split; [vm_compute; reflexivity|].
  split; [vm_compute; reflexivity | exact Hleaves].
Defined.

Lemma firstn_In {A : Type} (n : nat) (l : list A) (x : A) :
  In x (firstn n l) → In x l.
Proof.
  intros H. rewrite <- (List.firstn_skipn n l). apply List.in_or_app. left. exact H.
Qed.

(** X20.  For valid records, each entry of the distribution lists the
    shares of its material by raw category ("Recycle" and "Recycling" are
    separate shares), in order of first appearance; each share is the sum of
    the weights of the material's selected records of that category, and the
    entry's total weight the sum of the weights of all the material's
    selected records, each added in record order in double arithmetic.  The
    groups of the shares make up the material's selected records. *)
Theorem distribution_shares
    (data : list WasteRecord) (selection : option Z) (e : Distribution) :
  Forall valid data →
  In e (prepareDistributionData data selection) →
  let items :=
    List.filter (of_material (name e)) (List.filter (selected selection) data) in
  List.map item_name (categories e) = first_seen (List.map Category items)
  ∧ (∀ i, In i (categories e) →
       item_value i = added_where (in_category (item_name i)) items)
  ∧ totalWeight e = added (List.map Weight items)
  ∧ partition_of (λ i, List.filter (in_category (item_name i)) items)
      (categories e) items.
Proof.
  intros Hv He. unfold prepareDistributionData in He.
  apply firstn_In, sort_In in He. rewrite year_filter_selected in He.
  rewrite distribution_groups in He. apply List.in_map_iff in He as (m & <- & _).
  cbn zeta. unfold distribution_of. cbn [name fst categories totalWeight].
  rewrite members_of_material.
  set (items := List.filter (of_material m) (List.filter (selected selection) data)).
  assert (Hitems : Forall valid items) by (apply filter_valid, filter_valid, Hv).
  assert (Hnames : List.map item_name
                     (List.map item_of (d3.rollup items (λ v, d3.sum v Weight) Category))
                   = first_seen (List.map Category items)).
  { unfold d3.rollup. rewrite !List.map_map. cbn [item_of item_name fst].
    apply (group_keys Category). }
  split; [exact Hnames|]. split; [|split].
  - intros i Hi. unfold d3.rollup in Hi. rewrite List.map_map, group_spec in Hi.
    rewrite List.map_map in Hi. apply List.in_map_iff in Hi as (c & <- & _).
    cbn [item_of item_value item_name members_of fst snd].
    rewrite (List.filter_ext _ (in_category c))
      by (intros d; symmetry; apply eqb_bool_decide).
    apply sum_weight, filter_valid, Hitems.
  - apply sum_weight, Hitems.
  - unfold partition_of.
    rewrite <- (flat_map_map item_name (λ c, List.filter (in_category c) items)).
    rewrite Hnames.
    transitivity
      (List.flat_map (λ k, List.filter (λ v, bool_decide (Category v = k)) items)
         (first_seen (List.map Category items)));
      [|apply members_partition].
    apply Permutation_refl'. apply List.flat_map_ext. intros c.
    apply List.filter_ext. intros d. apply eqb_bool_decide.
Qed.

Lemma distribution_shares_witness :
  ∃ e, In e (prepareDistributionData Examples.abcd None)
       ∧ name e = "B"
       ∧ List.map item_name (categories e) = ["Landfill"; "Recycle"]
       ∧ totalWeight e = Num 90.
Proof.
  exists (distribution_of (members_of MaterialType Examples.abcd "B")).
  assert (Hin : In (distribution_of (members_of MaterialType Examples.abcd "B"))
                  (prepareDistributionData Examples.abcd None))
    by (vm_compute; auto).
  destruct (distribution_shares Examples.abcd None _
              (keep_all_valid Examples.abcd eq_refl) Hin)
    as (Hnames & _ & Htotal & _).
  split; [exact Hin|]. split; [reflexivity|]. split.
  - rewrite Hnames. vm_compute. reflexivity.
  - rewrite Htotal. vm_compute. reflexivity.
Defined.

(** The shares need not add up to the total: a material with weights 0.3
    and 0.2 in "Landfill" and 0.1 in "Compost", in the order 0.3, 0.1, 0.2,
    has the shares 0.5 and 0.1 and the total 0.6000000000000001. *)
Example shares_and_total_round :
  List.map (λ e, (totalWeight e, List.map item_value (categories e)))
    (prepareDistributionData
       [ Examples.record 2024 "Landfill" "Paper" 0.3;
         Examples.record 2024 "Compost" "Paper" 0.1;
         Examples.record 2024 "Landfill" "Paper" 0.2 ] None)
  = [(Num 0.6000000000000001, [Num 0.5; Num 0.1])]
  ∧ plus (Num 0.5) (Num 0.1) = Num 0.6.
Proof. split; vm_compute; reflexivity. Qed.

(** ** The aggregation inside [TimeSeriesChart] *)

Section ChartFold.
Import TimeSeriesChart.

Lemma added_snoc (ws : list jsnum) (w : jsnum) :
  added (ws ++ [w]) = plus (added ws) w.
Proof. unfold added. rewrite List.fold_left_app. reflexivity. Qed.

Lemma weights_of_snoc (y : jsyear) (b : bucket) (l : list WasteRecord)
    (x : WasteRecord) :
  weights_of y b (l ++ [x])
  = weights_of y b l
    ++ (if bool_decide (Year x = y) && bool_decide (classify (Category x) = b)
        then [Weight x] else []).
Proof.
  unfold weights_of. rewrite List.filter_app, List.map_app. simpl.
  destruct (bool_decide (Year x = y) && bool_decide (classify (Category x) = b));
    reflexivity.
Qed.

Lemma point_of_other (l : list WasteRecord) (x : WasteRecord) (k : jsyear) :
  k ≠ Year x → point_of (l ++ [x]) k = point_of l k.
Proof.
  intros Hne. unfold point_of. rewrite !weights_of_snoc.
  rewrite (bool_decide_eq_false_2 (Year x = k)) by congruence. simpl.
  rewrite !List.app_nil_r. reflexivity.
Qed.

Lemma point_of_same (l : list WasteRecord) (x : WasteRecord) :
  point_of (l ++ [x]) (Year x)
  = (Year x,
     add_weight (classify (Category x)) (Weight x) (snd (point_of l (Year x)))).
Proof.
  unfold point_of. rewrite !weights_of_snoc.
  rewrite (bool_decide_eq_true_2 (Year x = Year x)) by reflexivity.
  cbn [andb snd]. destruct (classify (Category x)); cbn [add_weight];
    repeat match goal with
    | |- context [bool_decide (?a = ?a)] =>
        rewrite (bool_decide_eq_true_2 (a = a)) by reflexivity
    | |- context [bool_decide (?a = ?b)] =>
        rewrite (bool_decide_eq_false_2 (a = b)) by discriminate
    end;
    rewrite ?List.app_nil_r, ?added_snoc; reflexivity.
Qed.

Lemma has_key_In (k : jsyear) (l : list WasteRecord) (ks : list jsyear) :
  has_key k (List.map (point_of l) ks) = true ↔ In k ks.
Proof.
  unfold has_key. rewrite List.existsb_exists. split.
  - intros (e & He & Hk). apply List.in_map_iff in He as (k' & <- & Hk').
    apply bool_decide_eq_true in Hk. simpl in Hk. subst k'. exact Hk'.
  - intros H. exists (point_of l k). split; [apply List.in_map, H|].
    apply bool_decide_eq_true_2. reflexivity.
Qed.

Lemma update_present (l : list WasteRecord) (x : WasteRecord) (ks : list jsyear) :
  List.NoDup ks → In (Year x) ks →
  update (Year x) (add_weight (classify (Category x)) (Weight x))
    (List.map (point_of l) ks)
  = List.map (point_of (l ++ [x])) ks.
Proof.
  induction ks as [|k ks IH]; intros Hnd Hin; [destruct Hin|].
  apply List.NoDup_cons_iff in Hnd as [Hk Hnd]. simpl.
  destruct (decide (k = Year x)) as [->|Hne].
  - rewrite point_of_same. f_equal.
    apply List.map_ext_in. intros k Hk'. symmetry.
    apply point_of_other. intros ->. exact (Hk Hk').
  - rewrite (point_of_other l x k Hne). f_equal.
    apply IH; [exact Hnd|]. destruct Hin as [->|Hin]; [congruence|exact Hin].
Qed.

Lemma update_app_absent (k : jsyear) (f : Point → Point) (obj : Grouped)
    (p : Point) :
  (∀ e, In e obj → fst e ≠ k) →
  update k f (obj ++ [(k, p)]) = obj ++ [(k, f p)].
Proof.
  induction obj as [|[k' p'] obj IH]; intros H; simpl.
  - destruct (decide (k = k)); [reflexivity|congruence].
  - destruct (decide (k' = k)) as [Heq|_].
    + exfalso. exact (H (k', p') (or_introl eq_refl) Heq).
    + f_equal. apply IH. intros e He. apply H. right. exact He.
Qed.

(** The object built by the loop: one property per distinct year, in order
    of first appearance, holding the year's three running totals. *)
Lemma grouped_spec (data : list WasteRecord) :
  fold_left visit data [] = List.map (point_of data) (first_seen (List.map Year data)).
Proof.
  induction data as [|x l IH] using List.rev_ind; [reflexivity|].
  rewrite List.fold_left_app. cbn [fold_left]. rewrite IH.
  rewrite List.map_app. cbn [List.map]. rewrite first_seen_snoc.
  unfold visit.
  destruct (has_key (Year x) (List.map (point_of l) (first_seen (List.map Year l))))
    eqn:E.
  - apply has_key_In in E.
    rewrite bool_decide_eq_true_2
      by (apply list_elem_of_In, first_seen_In, E).
    apply update_present; [apply first_seen_NoDup | exact E].
  - assert (Hnot : ¬ In (Year x) (first_seen (List.map Year l))).
    { intros H. apply (has_key_In (Year x) l) in H. congruence. }
    rewrite bool_decide_eq_false_2
      by (intros H; apply Hnot, first_seen_In, list_elem_of_In, H).
    rewrite update_app_absent.
    + rewrite List.map_app. cbn [List.map]. f_equal.
      * apply List.map_ext_in. intros k Hk. symmetry.
        apply point_of_other. intros ->. exact (Hnot Hk).
      * rewrite point_of_same. f_equal. f_equal. f_equal.
        unfold point_of, weights_of. cbn [snd].
        rewrite !filter_none; [reflexivity| | |];
          intros d Hd; apply andb_false_iff; left;
          apply bool_decide_eq_false_2; intros Heq; apply Hnot, first_seen_In;
          rewrite <- Heq; apply List.in_map, Hd.
    + intros e He Hk. apply List.in_map_iff in He as (k & <- & Hin).
      simpl in Hk. subst k. exact (Hnot Hin).
Qed.

Lemma filter_partition_perm {A : Type} (p : A → bool) (l : list A) :
  Permutation (List.filter p l ++ List.filter (λ x, negb (p x)) l) l.
Proof.
  induction l as [|x l IH]; simpl; [reflexivity|].
  destruct (p x); simpl.
  - constructor. exact IH.
  - rewrite <- Permutation_middle. constructor. exact IH.
Qed.

Lemma values_perm (obj : Grouped) : Permutation (values obj) (List.map snd obj).
Proof.
  unfold values. apply Permutation_map.
  rewrite (sort_perm _ (List.filter (λ e, is_index (fst e)) obj)).
  apply filter_partition_perm.
Qed.

Lemma series_points (data : list WasteRecord) (p : Point) :
  In p (timeSeriesData data) ↔
  ∃ y, In y (List.map Year data) ∧ p = snd (point_of data y).
Proof.
  unfold timeSeriesData. rewrite sort_In.
  split.
  - intros H. apply (Permutation_in _ (values_perm _)) in H.
    rewrite grouped_spec, List.map_map in H.
    apply List.in_map_iff in H as (y & <- & Hy).
    exists y. split; [apply first_seen_In, Hy | reflexivity].
  - intros (y & Hy & ->).
    apply (Permutation_in _ (Permutation_sym (values_perm _))).
    rewrite grouped_spec, List.map_map.
    apply List.in_map_iff. exists y. split; [reflexivity|].
    apply first_seen_In, Hy.
Qed.

(** A total of a point adds the weights of the year's records of the
    bucket, in record order. *)
Lemma bucket_total (data : list WasteRecord) (y : jsyear) (b : bucket) :
  added (weights_of y b data)
  = added_where (λ d, of_year y d && in_bucket b d) data.
Proof. reflexivity. Qed.
End ChartFold.

Lemma point_year_of (data : list WasteRecord) (z : Z) :
  point_year (snd (TimeSeriesChart.point_of data (YInt z))) = z.
Proof.
  unfold point_year. cbn [TimeSeriesChart.point_of snd TimeSeriesChart.year year_num].
  rewrite integer_units. apply Z.div_mul. apply Z.pow_nonzero; lia.
Qed.

Lemma series_numeric_points (data : list WasteRecord) (p : TimeSeriesChart.Point) :
  Forall (λ d, numeric_year (Year d)) data →
  In p (TimeSeriesChart.timeSeriesData data) →
  ∃ z, (∃ d, In d data ∧ Year d = YInt z)
       ∧ p = snd (TimeSeriesChart.point_of data (YInt z)).
Proof.
  intros Hnum Hp. apply series_points in Hp as (y & Hy & ->).
  apply List.in_map_iff in Hy as (d & <- & Hd).
  rewrite List.Forall_forall in Hnum. destruct (Hnum d Hd) as (z & Hz).
  exists z. rewrite Hz. split; [exists d; auto | reflexivity].
Qed.

(** X21.  For records whose years are numbers, the series that
    [TimeSeriesChart] computes has one point per distinct year, in strictly
    ascending order of year.  The point of a year carries three totals, each
    the sum, added in record order in double arithmetic, of the weights of
    the year's records of one kind: those whose lower-cased category
    contains "landfill"; those that do not but contain "recycl"; and those
    that contain neither but contain "compost".  So "Recycle" and
    "Recycling" both count as recycling, and a record of any other category
    is in no total. *)
Theorem chart_series_by_substring (data : list WasteRecord) :
  Forall (λ d, numeric_year (Year d)) data →
  let series := TimeSeriesChart.timeSeriesData data in
  (∃ years : list Z,
      List.map TimeSeriesChart.year series = List.map integer years
      ∧ StronglySorted Z.lt years
      ∧ ∀ z, In z years ↔ ∃ d, In d data ∧ Year d = YInt z)
  ∧ ∀ p, In p series →
      TimeSeriesChart.landfill p
      = added_where
          (λ d, of_year (YInt (point_year p)) d
                && TimeSeriesChart.in_bucket TimeSeriesChart.Landfill d)
          data
      ∧ TimeSeriesChart.recycling p
        = added_where
            (λ d, of_year (YInt (point_year p)) d
                  && TimeSeriesChart.in_bucket TimeSeriesChart.Recycling d)
            data
      ∧ TimeSeriesChart.compost p
        = added_where
            (λ d, of_year (YInt (point_year p)) d
                  && TimeSeriesChart.in_bucket TimeSeriesChart.Compost d)
            data.
Proof.
  intros Hnum series. split.
  - exists (List.map point_year series). split; [|split].
    + rewrite List.map_map. apply List.map_ext_in. intros p Hp.
      destruct (series_numeric_points data p Hnum Hp) as (z & _ & ->).
      rewrite point_year_of. reflexivity.
    + apply StronglySorted_map.
      apply (StronglySorted_impl_in
               (λ a b, (point_year a <= point_year b)%Z
                       ∧ point_year a ≠ point_year b));
        [intros a b _ _ [Hle Hne]; lia|].
      apply StronglySorted_distinct.
      * unfold series, TimeSeriesChart.timeSeriesData.
        apply sort_sorted; [intros; lia|].
        intros a b Ha Hb.
        assert (Ha' : In a series) by (apply sort_In; exact Ha).
        assert (Hb' : In b series) by (apply sort_In; exact Hb).
        destruct (series_numeric_points data a Hnum Ha') as (za & _ & ->).
        destruct (series_numeric_points data b Hnum Hb') as (zb & _ & ->).
        unfold cmp_decides. rewrite !point_year_of.
        change (TimeSeriesChart.year (snd (TimeSeriesChart.point_of data (YInt za))))
          with (year_num (YInt za)).
        change (TimeSeriesChart.year (snd (TimeSeriesChart.point_of data (YInt zb))))
          with (year_num (YInt zb)).
        rewrite year_minus_not_after.
        split; intros H; [apply Z.leb_le in H|apply Z.leb_gt in H]; lia.
      * apply (Permutation_NoDup
                 (l := List.map
                         (λ y, point_year (snd (TimeSeriesChart.point_of data y)))
                         (first_seen (List.map Year data)))).
        { unfold series, TimeSeriesChart.timeSeriesData.
          rewrite (Permutation_map point_year (sort_perm _ _)).
          rewrite (Permutation_map point_year (values_perm _)).
          rewrite grouped_spec, !List.map_map. reflexivity. }
        apply NoDup_map_on; [|apply first_seen_NoDup].
        intros y1 y2 H1 H2 Heq.
        apply first_seen_In, List.in_map_iff in H1 as (d1 & <- & Hd1).
        apply first_seen_In, List.in_map_iff in H2 as (d2 & <- & Hd2).
        rewrite List.Forall_forall in Hnum.
        destruct (Hnum d1 Hd1) as (z1 & Hz1).
        destruct (Hnum d2 Hd2) as (z2 & Hz2).
        rewrite Hz1, Hz2 in *. rewrite !point_year_of in Heq. congruence.
    + intros z. rewrite List.in_map_iff. split.
      * intros (p & <- & Hp).
        destruct (series_numeric_points data p Hnum Hp) as (z & Hd & ->).
        rewrite point_year_of. exact Hd.
      * intros (d & Hd & Hy).
        exists (snd (TimeSeriesChart.point_of data (YInt z))).
        split; [apply point_year_of|]. apply series_points. exists (YInt z).
        split; [|reflexivity]. rewrite <- Hy. apply List.in_map, Hd.
  - intros p Hp.
    destruct (series_numeric_points data p Hnum Hp) as (z & _ & ->).
    rewrite point_year_of.
    cbn [TimeSeriesChart.point_of snd TimeSeriesChart.landfill
         TimeSeriesChart.recycling TimeSeriesChart.compost].
    split; [|split]; apply bucket_total.
Qed.

Lemma chart_series_by_substring_witness :
  ∃ p,
    In p (TimeSeriesChart.timeSeriesData Examples.abcd)
    ∧ TimeSeriesChart.recycling p = Num 40.
Proof.
  assert (Hnum : Forall (λ d, numeric_year (Year d)) Examples.abcd)
    by (repeat constructor; eexists; reflexivity).
  destruct (chart_series_by_substring Examples.abcd Hnum) as [_ Hpoints].
  assert (Hin : In (snd (TimeSeriesChart.point_of Examples.abcd (YInt 2024)))
                  (TimeSeriesChart.timeSeriesData Examples.abcd))
    by (vm_compute; auto).
  destruct (Hpoints _ Hin) as (_ & Hr & _).
  exists (snd (TimeSeriesChart.point_of Examples.abcd (YInt 2024))).
  split; [exact Hin|]. rewrite Hr. vm_compute. reflexivity.
Defined.

Lemma literal_buckets (d : WasteRecord) :
  In (Category d) ["Landfill"; "Recycle"; "Compost"] →
  TimeSeriesChart.in_bucket TimeSeriesChart.Landfill d = in_category "Landfill" d
  ∧ TimeSeriesChart.in_bucket TimeSeriesChart.Recycling d = in_category "Recycle" d
  ∧ TimeSeriesChart.in_bucket TimeSeriesChart.Compost d = in_category "Compost" d.
Proof.
  unfold TimeSeriesChart.in_bucket, in_category.
  intros [<-|[<-|[<-|[]]]]; repeat split; reflexivity.
Qed.

Lemma chart_series_length (data : list WasteRecord) :
  length (TimeSeriesChart.timeSeriesData data)
  = length (first_seen (List.map Year data)).
Proof.
  unfold TimeSeriesChart.timeSeriesData.
  rewrite (Permutation_length (sort_perm _ _)).
  rewrite (Permutation_length (values_perm _)).
  rewrite grouped_spec, !List.length_map. reflexivity.
Qed.

(** The sum that [prepareTimeSeriesData] takes with [d3.sum] and the total
    that the chart adds up with [+=] are the same number, when the weights
    are numbers and the categories are the three literals. *)
Lemma builder_sum_is_chart_total (data : list WasteRecord) (y : jsyear)
    (c : string) (b : TimeSeriesChart.bucket) :
  Forall numeric data →
  (∀ d, In d data → TimeSeriesChart.in_bucket b d = in_category c d) →
  added (TimeSeriesChart.weights_of y b data)
  = d3.sum (List.filter (in_category c) (snd (members_of Year data y))) Weight.
Proof.
  intros Hnum Hb. rewrite d3_sum_added.
  - unfold TimeSeriesChart.weights_of, members_of.
    cbn [snd]. rewrite filter_filter_and. f_equal. f_equal.
    apply List.filter_ext_in. intros d Hd. f_equal. apply (Hb d Hd).
  - apply List.Forall_forall. intros d Hd.
    apply List.filter_In in Hd as [Hd _]. unfold members_of in Hd. cbn [snd] in Hd.
    apply List.filter_In in Hd as [Hd _].
    rewrite List.Forall_forall in Hnum. apply (Hnum d Hd).
Qed.

(** X22.  When every category is one of the literals "Landfill", "Recycle",
    "Compost" (and years and weights are numbers), the series computed inside
    [TimeSeriesChart] and the one built by [prepareTimeSeriesData] have the
    same number of entries, and every entry of the builder has a point of
    the chart with the same year and the same landfill, recycling and
    compost totals. *)
Theorem chart_agrees_with_builder (data : list WasteRecord) :
  Forall numeric data →
  (∀ d, In d data → In (Category d) ["Landfill"; "Recycle"; "Compost"]) →
  length (TimeSeriesChart.timeSeriesData data)
  = length (prepareTimeSeriesData data)
  ∧ ∀ t, In t (prepareTimeSeriesData data) →
      ∃ p,
        In p (TimeSeriesChart.timeSeriesData data)
        ∧ TimeSeriesChart.year p = year_num (year t)
        ∧ TimeSeriesChart.landfill p = landfill t
        ∧ TimeSeriesChart.recycling p = recycling t
        ∧ TimeSeriesChart.compost p = compost t.
Proof.
  intros Hnum Hlit. split.
  - rewrite chart_series_length.
    rewrite <- (Permutation_length (timeseries_years data)).
    rewrite List.length_map. reflexivity.
  - intros t Ht. apply timeseries_entries in Ht as (y & Hy & ->).
    exists (snd (TimeSeriesChart.point_of data y)).
    split; [apply series_points; exists y; auto|]. split; [reflexivity|].
    unfold year_entry. cbn [landfill recycling compost].
    cbn [TimeSeriesChart.point_of snd TimeSeriesChart.landfill
         TimeSeriesChart.recycling TimeSeriesChart.compost].
    split; [|split]; apply builder_sum_is_chart_total; try exact Hnum;
      intros d Hd; apply (literal_buckets d (Hlit d Hd)).
Qed.

Lemma chart_agrees_with_builder_witness :
  length (TimeSeriesChart.timeSeriesData Examples.recycle_records)
  = length (prepareTimeSeriesData Examples.recycle_records).
Proof.
  apply (chart_agrees_with_builder Examples.recycle_records).
  - repeat constructor; eexists; reflexivity.
  - intros d Hd. repeat (destruct Hd as [<-|Hd]; [simpl; auto|]). destruct Hd.
Defined.
